(** * Smart Grocer: prediction scripts and dataset generator

    A shallow embedding of
    - [SmartGrocerUI/python/kumo_predictions.py],
    - [SmartGrocerUI/python/kumo_personalized_ingredients.py],
    - [dataset/grocery_dataset_generator.py],
    and the properties of the repository's specification that can be
    stated over it.

    Conventions of the embedding.
    - Python [int] is [Z]; counts passed to [range] are [nat].
    - Python [float] is idealised as an exact rational ([Q]) or [NaN]:
      arithmetic and [round] are exact, binary rounding error is not
      modelled.
    - Code that can raise returns an [outcome]; [exn] ranges over the
      instances of Python's [Exception] class.
    - The module-level generator [random] is an explicit state of an
      abstract type, threaded through every function that draws from it.
    - [products.csv] and [users.csv] are read into typed records (their
      column sets are fixed); [order_items.csv] is a frame with a dynamic
      column list, because the code inspects its columns. *)

From Stdlib Require Import ZArith QArith Qround List String Ascii Bool Lia.
From Stdlib Require Import DecimalString.
Import ListNotations.

Set Warnings "-register-all".

Local Open Scope string_scope.
Local Open Scope list_scope.
Local Open Scope Z_scope.

(** ** Exceptions and results *)

Inductive exn : Type :=
| KeyError (key : string)
| TypeError (msg : string)
| ValueError (msg : string)
| IndexError (msg : string)
| AttributeError (msg : string)
| JSONDecodeError (msg : string)
| ExternalError (msg : string).   (* anything raised by the SDK or the API *)

Inductive outcome (A : Type) : Type :=
| Ok (a : A)
| Raise (e : exn).

Arguments Ok {A} a.
Arguments Raise {A} e.

Definition bind {A B : Type} (m : outcome A) (k : A -> outcome B) : outcome B :=
  match m with
  | Ok a => k a
  | Raise e => Raise e
  end.

Notation "x <- m ;; k" := (bind m (fun x => k))
  (at level 61, m at next level, right associativity).

(** [str(e)] *)
Definition exn_message (e : exn) : string :=
  match e with
  | KeyError k => ("'" ++ k ++ "'")%string
  | TypeError m | ValueError m | IndexError m | AttributeError m
  | JSONDecodeError m | ExternalError m => m
  end.

(** [str(n)] for an [int] *)
Definition str_of_Z (n : Z) : string := NilZero.string_of_int (Z.to_int n).

(** ** Strings *)

(** The ASCII characters [str.strip()] removes. *)
Definition is_space (c : ascii) : bool :=
  let n := nat_of_ascii c in
  (((9 <=? n) && (n <=? 13)) || ((28 <=? n) && (n <=? 32)))%nat.

Fixpoint lstrip (s : string) : string :=
  match s with
  | EmptyString => EmptyString
  | String c s' => if is_space c then lstrip s' else s
  end.

Fixpoint reverse_onto (acc s : string) : string :=
  match s with
  | EmptyString => acc
  | String c s' => reverse_onto (String c acc) s'
  end.

Definition reverse (s : string) : string := reverse_onto EmptyString s.

(** [s.strip()] *)
Definition strip (s : string) : string := reverse (lstrip (reverse (lstrip s))).

(** [s.split(sep)[0]] *)
Fixpoint before (sep : ascii) (s : string) : string :=
  match s with
  | EmptyString => EmptyString
  | String c s' => if Ascii.eqb c sep then EmptyString else String c (before sep s')
  end.

(** [s.split(sep)] *)
Fixpoint split_on (sep : ascii) (s : string) : list string :=
  match s with
  | EmptyString => [EmptyString]
  | String c s' =>
      if Ascii.eqb c sep then EmptyString :: split_on sep s'
      else match split_on sep s' with
           | [] => [String c EmptyString]
           | piece :: pieces => String c piece :: pieces
           end
  end.

Definition lower_char (c : ascii) : ascii :=
  let n := nat_of_ascii c in
  if ((65 <=? n) && (n <=? 90))%nat then ascii_of_nat (n + 32) else c.

(** [s.lower()] on ASCII text *)
Fixpoint lower (s : string) : string :=
  match s with
  | EmptyString => EmptyString
  | String c s' => String (lower_char c) (lower s')
  end.

(** [sub in s] *)
Fixpoint contains (sub s : string) : bool :=
  if prefix sub s then true
  else match s with
       | EmptyString => false
       | String _ s' => contains sub s'
       end.

(** [s.replace(ab, '')] for a pattern [ab] of two characters *)
Fixpoint remove_pair (a b : ascii) (s : string) : string :=
  match s with
  | EmptyString => EmptyString
  | String c t =>
      match t with
      | EmptyString => s
      | String d s' =>
          if Ascii.eqb c a && Ascii.eqb d b then remove_pair a b s'
          else String c (remove_pair a b t)
      end
  end.

Definition digit_of (c : ascii) : option Z :=
  let n := nat_of_ascii c in
  if ((48 <=? n) && (n <=? 57))%nat then Some (Z.of_nat (n - 48)) else None.

(** The digits of an integer literal; single underscores may separate
    digits. *)
Fixpoint digits_value (acc : Z) (after_digit : bool) (s : string) : option Z :=
  match s with
  | EmptyString => if after_digit then Some acc else None
  | String c s' =>
      match digit_of c with
      | Some d => digits_value (10 * acc + d) true s'
      | None =>
          if Ascii.eqb c "_" && after_digit then
            match s' with
            | String c' _ =>
                match digit_of c' with
                | Some _ => digits_value acc false s'
                | None => None
                end
            | EmptyString => None
            end
          else None
      end
  end.

(** [int(s)] for ASCII text: surrounding whitespace, an optional sign,
    decimal digits. *)
Definition py_int_of_string (s : string) : outcome Z :=
  let invalid := Raise (ValueError ("invalid literal for int() with base 10: '" ++ s ++ "'")%string) in
  match strip s with
  | String "-" t =>
      match digits_value 0 false t with Some n => Ok (- n) | None => invalid end
  | String "+" t =>
      match digits_value 0 false t with Some n => Ok n | None => invalid end
  | t =>
      match digits_value 0 false t with Some n => Ok n | None => invalid end
  end.

(** ** Floats *)

Inductive pyfloat : Type :=
| Fin (q : Q)
| NaN.

(** ** JSON documents *)

Inductive json : Type :=
| JNull
| JBool (b : bool)
| JInt (n : Z)
| JFloat (x : pyfloat)
| JStr (s : string)
| JArr (items : list json)
| JObj (members : list (string * json)).

(** ** Output streams *)

Inductive stream : Type := stdout | stderr.

(** What one [print] call writes: a literal text, the text of
    [json.dumps(doc)], or the [str] of a float. *)
Inductive text : Type :=
| Text (s : string)
| Json (doc : json)
| FloatText (x : pyfloat).

Definition event : Type := (stream * text)%type.

Definition Qltb (x y : Q) : bool := negb (Qle_bool y x).

(** [x > y] on floats: every comparison with [nan] is [False]. *)
Definition float_gt (x : pyfloat) (y : Q) : bool :=
  match x with
  | Fin q => Qltb y q
  | NaN => false
  end.

(** Nearest integer, ties to the even neighbour. *)
Definition round_half_even (x : Q) : Z :=
  let f := Qfloor x in
  match Qcompare (x - inject_Z f) (1 # 2) with
  | Lt => f
  | Gt => f + 1
  | Eq => if Z.even f then f else f + 1
  end.

(** [round(x, ndigits)] *)
Definition py_round (x : Q) (ndigits : nat) : Q :=
  let scale := inject_Z (10 ^ Z.of_nat ndigits) in
  (inject_Z (round_half_even (x * scale)) / scale)%Q.

(** ** Tables *)

Inductive value : Type :=
| VInt (z : Z)
| VFloat (q : Q)
| VNaN
| VBool (b : bool)
| VStr (s : string).

(** A pandas frame whose columns are only known at run time. *)
Record DataFrame : Type := {
  columns : list string;
  rows : list (list value)
}.

Fixpoint index_of (c : string) (cs : list string) : option nat :=
  match cs with
  | [] => None
  | c' :: cs' =>
      if String.eqb c c' then Some O
      else option_map S (index_of c cs')
  end.

(** [c in df.columns] *)
Definition has_column (c : string) (df : DataFrame) : bool :=
  existsb (String.eqb c) (columns df).

(** [df[c]]: [KeyError] when there is no such column. *)
Definition df_column (df : DataFrame) (c : string) : outcome (list value) :=
  match index_of c (columns df) with
  | None => Raise (KeyError c)
  | Some i => Ok (map (fun r => nth i r VNaN) (rows df))
  end.

(** One cell of the mask [series == n] for an [int] n. *)
Definition value_eq_int (v : value) (n : Z) : bool :=
  match v with
  | VInt z => z =? n
  | VFloat q => Qeq_bool q (inject_Z n)
  | VBool b => (if b then 1 else 0) =? n
  | VNaN => false
  | VStr _ => false
  end.

(** [df[df[c] == n]] *)
Definition df_filter_eq (df : DataFrame) (c : string) (n : Z) : outcome DataFrame :=
  match index_of c (columns df) with
  | None => Raise (KeyError c)
  | Some i =>
      Ok {| columns := columns df;
            rows := filter (fun r => value_eq_int (nth i r VNaN) n) (rows df) |}
  end.

(** [df.empty]: one of the two axes has length zero. *)
Definition df_empty (df : DataFrame) : bool :=
  match rows df, columns df with
  | [], _ => true
  | _, [] => true
  | _ :: _, _ :: _ => false
  end.

(** The numeric reading of a cell for [Series.mean]: missing cells are
    skipped, text makes the reduction raise. *)
Definition numeric_cell (v : value) : outcome (option Q) :=
  match v with
  | VInt z => Ok (Some (inject_Z z))
  | VFloat q => Ok (Some q)
  | VBool b => Ok (Some (if b then 1 else 0)%Q)
  | VNaN => Ok None
  | VStr _ => Raise (TypeError "Could not convert string to numeric")
  end.

Fixpoint numeric_cells (s : list value) : outcome (list Q) :=
  match s with
  | [] => Ok []
  | v :: s' =>
      c <- numeric_cell v ;;
      cs <- numeric_cells s' ;;
      Ok (match c with Some q => q :: cs | None => cs end)
  end.

Definition Qsum (l : list Q) : Q := fold_right Qplus 0%Q l.

(** [series.mean()] *)
Definition series_mean (s : list value) : outcome pyfloat :=
  cs <- numeric_cells s ;;
  Ok (match cs with
      | [] => NaN
      | _ :: _ => Fin (Qsum cs / inject_Z (Z.of_nat (List.length cs)))%Q
      end).

(** [pd.DataFrame(records)] for a list of dictionaries: the columns
    are the keys in the order of their first appearance, a missing key
    gives a missing cell. *)
Fixpoint cell_of (c : string) (record : list (string * value)) : value :=
  match record with
  | [] => VNaN
  | (k, v) :: record' => if String.eqb k c then v else cell_of c record'
  end.

Fixpoint add_keys (cols : list string) (record : list (string * value)) : list string :=
  match record with
  | [] => cols
  | (k, _) :: record' =>
      if existsb (String.eqb k) cols then add_keys cols record'
      else add_keys (cols ++ [k]) record'
  end.

Definition frame_of_records (records : list (list (string * value))) : DataFrame :=
  let cols := fold_left add_keys records [] in
  {| columns := cols;
     rows := map (fun record => map (fun c => cell_of c record) cols) records |}.

(** A row of [products.csv]. *)
Record Product : Type := {
  product_id : Z;
  product_name : string;
  brand : string;
  category : string;
  size : string;
  unit : string;
  price_per_unit : pyfloat
}.

(** [products_df[products_df['product_id'] == n]] *)
Definition products_with_id (products : list Product) (n : Z) : list Product :=
  filter (fun p => product_id p =? n) products.

(** ** The [random] module *)

(** The generator behind Python's [random]: its state, [random.seed(n)]
    for an [int] n, and [random.random()]. *)
Class Random : Type := {
  rng : Type;
  seed : Z -> rng;
  random : rng -> Q * rng
}.

(** [random.random()] returns a float in the half-open unit interval. *)
Definition random_in_unit_interval (R : Random) : Prop :=
  forall g : rng, (0 <= fst (random g) /\ fst (random g) < 1)%Q.

(** [random.uniform(a, b)] is [a + (b - a) * random()]. *)
Definition uniform {R : Random} (a b : Q) (g : rng) : Q * rng :=
  let (u, g') := random g in
  ((a + (b - a) * u)%Q, g').

(** [round(random.uniform(a, b), 3)] *)
Definition rounded_uniform {R : Random} (a b : Q) (g : rng) : Q * rng :=
  let (x, g') := uniform a b g in
  (py_round x 3, g').

(** A small linear congruential generator: a sample inhabitant of
    [Random], used to run the model on concrete inputs.  It is not
    CPython's Mersenne Twister; no property below depends on it. *)
Definition lcg_modulus : Z := 2147483648.

Definition lcg_next (s : Z) : Z := (1103515245 * s + 12345) mod lcg_modulus.

Definition lcg : Random := {|
  rng := Z;
  seed := fun n => n mod lcg_modulus;
  random := fun s => ((lcg_next s # 2147483648)%Q, lcg_next s)
|}.

(** A row of [users.csv]. *)
Record User : Type := {
  user_id : Z;
  household_size : Z;
  dietary_preference : string;
  primary_shopping_day : string
}.

(** ** Printing and exceptions together *)

(** What a piece of code wrote to the two streams, and how it ended.
    Text written before an exception is raised stays written. *)
Definition io (A : Type) : Type := (list event * outcome A)%type.

Definition io_ret {A : Type} (a : A) : io A := ([], Ok a).

Definition io_bind {A B : Type} (m : io A) (k : A -> io B) : io B :=
  match m with
  | (out, Ok a) => let (out', r) := k a in (out ++ out', r)
  | (out, Raise e) => (out, Raise e)
  end.

Notation "x <~ m ;; k" := (io_bind m (fun x => k))
  (at level 61, m at next level, right associativity).

Notation "m ;;; k" := (io_bind m (fun _ => k))
  (at level 61, right associativity).

(** [print(msg, file=s)] *)
Definition print (s : stream) (msg : string) : io Datatypes.unit :=
  ([(s, Text msg)], Ok tt).


(** A computation that prints nothing. *)
Definition quiet {A : Type} (r : outcome A) : io A := ([], r).

(** [try: body  except Exception as e: handler(e)] *)
Definition try_except {A : Type} (body : io A) (handler : exn -> io A) : io A :=
  match body with
  | (out, Ok a) => (out, Ok a)
  | (out, Raise e) => let (out', r) := handler e in (out ++ out', r)
  end.

(** ** Dates *)

(** A [datetime]: the ordinal of its day, its hour and minute, and the
    part no code here looks at (seconds, microseconds, time zone). *)
Record datetime : Type := {
  dt_day : Z;
  dt_hour : Z;
  dt_minute : Z;
  dt_rest : string
}.

(** [t + timedelta(days=n)] *)
Definition plus_days (t : datetime) (n : Z) : datetime :=
  {| dt_day := dt_day t + n; dt_hour := dt_hour t;
     dt_minute := dt_minute t; dt_rest := dt_rest t |}.

(** [t.replace(hour=h, minute=0)] *)
Definition replace_hour (t : datetime) (h : Z) : outcome datetime :=
  if (0 <=? h) && (h <=? 23) then
    Ok {| dt_day := dt_day t; dt_hour := h; dt_minute := 0; dt_rest := dt_rest t |}
  else Raise (ValueError "hour must be in 0..23").

(** ** The Kumo SDK and the file system *)

(** [KumoRFM.predict]: from the query text to a result frame ([None] is
    Python's [None]) or an exception. *)
Definition Model : Type := string -> outcome (option DataFrame).

(** Everything the two prediction scripts obtain from outside the
    process.  Calls into pandas and the SDK are represented by their
    result; what the SDK itself prints is not modelled. *)
Record Env : Type := {
  (** [import kumoai.experimental.rfm] succeeded *)
  KUMO_AVAILABLE : bool;
  (** [rfm.init()] *)
  rfm_init : outcome Datatypes.unit;
  (** [pd.read_csv] of the four files of the data directory *)
  read_users : outcome (list User);
  read_products : outcome (list Product);
  read_orders : outcome DataFrame;
  read_order_items : outcome DataFrame;
  (** [orders_df["days_since_today"] = ...] *)
  with_days_since_today : DataFrame -> outcome DataFrame;
  (** [orders_df.merge(order_items)] *)
  merge : DataFrame -> DataFrame -> outcome DataFrame;
  (** [groupby('product_id')['quantity'].mean().round().astype(int).to_dict()] *)
  mean_quantities : DataFrame -> outcome (list (Z * Z));
  (** [rfm.LocalGraph.from_data] followed by [rfm.KumoRFM] *)
  rfm_model : option (list User) -> option (list Product) -> option DataFrame
              -> option DataFrame -> outcome Model;
  (** [df.sort_values('price_per_unit', ascending=flag)] on products *)
  sort_by_price : bool -> list Product -> list Product;
  (** [datetime.now()] and, for a zone name, [datetime.now(pytz.timezone(name))] *)
  now : option string -> datetime;
  (** [pytz.timezone(name)] does not raise [UnknownTimeZoneError] *)
  known_timezone : string -> bool;
  (** [t.isoformat()] *)
  isoformat : datetime -> string;
  (** [str(x)] for a finite float *)
  str_of_float : Q -> string;
  (** [json.loads(text)] for the text of a list of integer ids;
      [JSONDecodeError] for text that is not JSON.  JSON documents of
      other shapes are outside this model. *)
  json_loads_ids : string -> outcome (list Z)
}.

(** [str(v)] for a cell *)
Definition py_str (E : Env) (v : value) : string :=
  match v with
  | VInt z => str_of_Z z
  | VFloat q => str_of_float E q
  | VNaN => "nan"
  | VBool b => if b then "True" else "False"
  | VStr s => s
  end.

(** [float(v)] for a cell; text cells hold what [read_csv] could not
    read as a number. *)
Definition py_float (v : value) : outcome pyfloat :=
  match v with
  | VInt z => Ok (Fin (inject_Z z))
  | VFloat q => Ok (Fin q)
  | VNaN => Ok NaN
  | VBool b => Ok (Fin (if b then 1 else 0)%Q)
  | VStr _ => Raise (ValueError "could not convert string to float")
  end.

(** [row.get(name, default)] for a row of a frame *)
Definition row_get (df : DataFrame) (row : list value) (name : string) (default : value)
  : value :=
  match index_of name (columns df) with
  | None => default
  | Some i => nth i row VNaN
  end.

(** [d.get(key, default)] for a dictionary with [int] keys *)
Fixpoint dict_get (d : list (Z * Z)) (key : value) (default : Z) : Z :=
  match d with
  | [] => default
  | (k, v) :: d' => if value_eq_int key k then v else dict_get d' key default
  end.

(** [x < y] on floats *)
Definition float_lt (x y : pyfloat) : bool :=
  match x, y with
  | Fin a, Fin b => Qltb a b
  | _, _ => false
  end.

(** [result.NAME] for a column of a result frame. *)
Definition result_attr (result : option DataFrame) (name : string) : outcome (list value) :=
  match result with
  | None => Raise (AttributeError "'NoneType' object has no attribute")
  | Some df =>
      match index_of name (columns df) with
      | None => Raise (AttributeError "'DataFrame' object has no attribute")
      | Some i => Ok (map (fun r => nth i r VNaN) (rows df))
      end
  end.

(** [self.products_df[self.products_df['product_id'] == v]] for a cell
    [v] of a result frame. *)
Definition products_matching (products_df : option (list Product)) (v : value)
  : outcome (list Product) :=
  match products_df with
  | None => Raise (TypeError "'NoneType' object is not subscriptable")
  | Some products => Ok (filter (fun p => value_eq_int v (product_id p)) products)
  end.

(** [int(v)] for a cell: truncation of a float, [ValueError] on [nan]
    and on text (text cells hold what [read_csv] could not read as a
    number). *)
Definition py_int (v : value) : outcome Z :=
  match v with
  | VInt z => Ok z
  | VFloat q => Ok (Z.quot (Qnum q) (Zpos (Qden q)))
  | VBool b => Ok (if b then 1 else 0)
  | VNaN => Raise (ValueError "cannot convert float NaN to integer")
  | VStr _ => Raise (ValueError "invalid literal for int() with base 10")
  end.

(** [lst[:n]] and [df.head(n)]: a negative [n] counts from the end. *)
Definition take {A : Type} (n : Z) (l : list A) : list A :=
  if 0 <=? n then firstn (Z.to_nat n) l
  else firstn (List.length l - Z.to_nat (- n))%nat l.


(** ** Processes *)

(** What a run of a script leaves behind: the text written to the two
    streams, in order, and the exit status. *)
Record run : Type := {
  output : list event;
  status : Z
}.

(** [sys.exit(code)], or the end of [main] with [code] 0. *)
Definition exit_with (out : list event) (code : Z) : run :=
  {| output := out; status := code |}.

(** An exception nobody caught: the interpreter prints the traceback
    on standard error and exits with status 1. *)
Definition uncaught (out : list event) (e : exn) : run :=
  {| output := out ++ [(stderr, Text ("Traceback (most recent call last): "
                                      ++ exn_message e)%string)];
     status := 1 |}.

(** [sys.argv[i]] *)
Definition arg (argv : list string) (i : nat) : string := nth i argv "".
(** ** [kumo_predictions.py]: the substitution rate *)

Module Predictions.

Record SmartGrocerPredictor : Type := {
  model : option Model;
  users_df : option (list User);
  products_df : option (list Product);
  orders_df : option DataFrame;
  order_items_df : option DataFrame;
  order_items_join : option DataFrame;
  avg_quantities : list (Z * Z)
}.

Section SubstitutionRate.

Context {R : Random}.

(** Lines 526-560: no ['substituted'] column; the rate is drawn by price
    band after re-seeding with the product id. *)
Definition rate_by_price (products : option (list Product)) (pid : Z) : Q * rng :=
  let g := seed pid in
  let final := rounded_uniform 0.01 0.05 g in
  match products with
  | None => final
  | Some df =>
      match products_with_id df pid with
      | [] => final
      | product :: _ =>
          let price := price_per_unit product in
          if float_gt price 10 then
            let (u, g) := random g in
            if Qltb u 0.8 then rounded_uniform 0.01 0.06 g
            else rounded_uniform 0.07 0.12 g
          else if float_gt price 5 then
            let (u, g) := random g in
            if Qltb u 0.6 then rounded_uniform 0.01 0.07 g
            else
              let (u, g) := random g in
              if Qltb u 0.85 then rounded_uniform 0.08 0.18 g
              else rounded_uniform 0.19 0.30 g
          else
            let (u, g) := random g in
            if Qltb u 0.5 then rounded_uniform 0.01 0.07 g
            else
              let (u, g) := random g in
              if Qltb u 0.75 then rounded_uniform 0.08 0.20 g
              else rounded_uniform 0.21 0.40 g
      end
  end.

(** Lines 490-501: no order items were loaded. *)
Definition rate_without_data (pid : Z) : Q * rng :=
  let g := seed pid in
  let (u, g) := random g in
  if Qltb u 0.75 then rounded_uniform 0.01 0.06 g
  else
    let (u, g) := random g in
    if Qltb u 0.9 then rounded_uniform 0.08 0.15 g
    else rounded_uniform 0.16 0.30 g.

(** Lines 506-518: the product has no order items. *)
Definition rate_without_orders (pid : Z) : Q * rng :=
  let g := seed pid in
  let (u, g) := random g in
  if Qltb u 0.7 then rounded_uniform 0.01 0.07 g
  else
    let (u, g) := random g in
    if Qltb u 0.9 then rounded_uniform 0.08 0.15 g
    else rounded_uniform 0.16 0.35 g.

Definition drawn (r : Q * rng) : outcome pyfloat * rng := (Ok (Fin (fst r)), snd r).

(** The body of the [try] of [get_product_substitution_rate]; [g] is the
    state of [random] when the method is entered. *)
Definition substitution_rate_body (self : SmartGrocerPredictor) (pid : Z) (g : rng)
  : outcome pyfloat * rng :=
  match order_items_df self with
  | None => drawn (rate_without_data pid)
  | Some order_items =>
      match df_filter_eq order_items "product_id" pid with
      | Raise e => (Raise e, g)
      | Ok product_orders =>
          if df_empty product_orders then drawn (rate_without_orders pid)
          else if has_column "substituted" product_orders then
            (s <- df_column product_orders "substituted" ;; series_mean s, g)
          else drawn (rate_by_price (products_df self) pid)
      end
  end.

(** [get_product_substitution_rate]: the rate, what was written to the
    streams, and the state of [random] afterwards. *)
Definition get_product_substitution_rate (self : SmartGrocerPredictor) (pid : Z) (g : rng)
  : list event * pyfloat * rng :=
  match substitution_rate_body self pid g with
  | (Ok rate, g') => ([], rate, g')
  | (Raise e, _) =>
      let r := rounded_uniform 0.01 0.05 (seed pid) in
      ([(stderr, Text ("Error calculating substitution rate for product "
                         ++ str_of_Z pid ++ ": " ++ exn_message e)%string)],
       Fin (fst r), snd r)
  end.

(** The method returned at line 523, the mean of the ['substituted']
    column. *)
Definition rate_from_column (self : SmartGrocerPredictor) (pid : Z) : bool :=
  match order_items_df self with
  | None => false
  | Some order_items =>
      match df_filter_eq order_items "product_id" pid with
      | Raise _ => false
      | Ok product_orders =>
          negb (df_empty product_orders)
          && has_column "substituted" product_orders
          && match (s <- df_column product_orders "substituted" ;; series_mean s) with
             | Ok _ => true
             | Raise _ => false
             end
      end
  end.

Definition returned_rate (result : list event * pyfloat * rng) : pyfloat :=
  snd (fst result).

Definition printed (result : list event * pyfloat * rng) : list event :=
  fst (fst result).

End SubstitutionRate.

(** *** Cart, recommendation and delivery-time predictions *)

(** One predicted or recommended product: the dictionary the three
    loops build.  Recommendations have no ["quantity"] key. *)
Record Prediction : Type := {
  pred_product_id : Z;
  pred_product_name : string;
  pred_brand : string;
  pred_category : string;
  pred_size : string;
  pred_unit : string;
  pred_quantity : option Z;
  pred_price_per_unit : pyfloat;
  pred_confidence : Q;
  pred_reason : string
}.

Definition prediction (pid : Z) (product : Product) (quantity : option Z)
           (confidence : Q) (reason : string) : Prediction := {|
  pred_product_id := pid;
  pred_product_name := product_name product;
  pred_brand := brand product;
  pred_category := category product;
  pred_size := size product;
  pred_unit := unit product;
  pred_quantity := quantity;
  pred_price_per_unit := price_per_unit product;
  pred_confidence := confidence;
  pred_reason := reason
|}.

(** One delivery slot. *)
Record Slot : Type := {
  time_window : string;
  date_label : string;
  full_datetime : string;
  score : pyfloat
}.

(** [self.users_df[self.users_df['user_id'] == user_id]] *)
Definition users_with_id (users : list User) (uid : Z) : list User :=
  filter (fun u => user_id u =? uid) users.

(** The products left after the dietary filter of the two fallbacks. *)
Definition suitable_for (dietary_pref : string) (products : list Product) : list Product :=
  if String.eqb dietary_pref "vegetarian" then
    filter (fun p => String.eqb (category p) "Produce") products
  else products.

(** [_fallback_predictions] *)
Definition _fallback_predictions (E : Env) (self : SmartGrocerPredictor)
           (uid : Z) (num_predictions : Z) : list Prediction :=
  match users_df self, products_df self with
  | Some users, Some products =>
      match users_with_id users uid with
      | [] => []
      | user :: _ =>
          let dietary_pref := dietary_preference user in
          let suitable_products := suitable_for dietary_pref products in
          let suitable_products :=
            if household_size user >? 2 then sort_by_price E true suitable_products
            else sort_by_price E false suitable_products in
          map (fun product =>
                 let confidence :=
                   if String.eqb dietary_pref "vegetarian"
                      && String.eqb (category product) "Produce"
                   then 0.8%Q else 0.7%Q in
                 prediction (product_id product) product
                   (Some (dict_get (avg_quantities self) (VInt (product_id product)) 1))
                   confidence
                   ("Enhanced fallback: matches " ++ dietary_pref
                    ++ " diet, avg quantity from orders")%string)
              (take num_predictions suitable_products)
      end
  | _, _ => []
  end.

(** [_fallback_recommendations] *)
Definition _fallback_recommendations (self : SmartGrocerPredictor)
           (uid : Z) (num_recommendations : Z) : list Prediction :=
  match users_df self, products_df self with
  | Some users, Some products =>
      match users_with_id users uid with
      | [] => []
      | user :: _ =>
          let dietary_pref := dietary_preference user in
          let suitable_products := suitable_for dietary_pref products in
          map (fun product =>
                 prediction (product_id product) product None 0.75%Q
                   ("Enhanced fallback: suitable for " ++ dietary_pref
                    ++ " preference")%string)
              (take num_recommendations suitable_products)
      end
  | _, _ => []
  end.

(** The current time in the user's zone (lines 263-272 and 441-450). *)
Definition current_time_in (E : Env) (timezone : string) : io datetime :=
  if String.eqb timezone "UTC" then io_ret (now E None)
  else if known_timezone E timezone then io_ret (now E (Some timezone))
  else
    print stderr ("Unknown timezone " ++ timezone ++ ", using UTC")%string ;;;
    io_ret (now E None).

(** The hour at which a window such as ["9am-11am"] starts. *)
Definition start_hour (time_window : string) : outcome Z :=
  let start_time_str := strip (before "-" time_window) in
  let digits := remove_pair "a" "m" (remove_pair "p" "m" start_time_str) in
  if contains "pm" (lower start_time_str) && negb (prefix "12" start_time_str) then
    h <- py_int_of_string digits ;; Ok (h + 12)
  else if contains "am" (lower start_time_str) && prefix "12" start_time_str then
    Ok 0
  else py_int_of_string digits.

(** The body of the [try] that turns one window into a slot. *)
Definition make_slot (E : Env) (current_time : datetime) (window : string)
           (slot_score : outcome pyfloat) : outcome Slot :=
  hour <- start_hour window ;;
  let past := (dt_hour current_time >? hour)
              || ((dt_hour current_time =? hour) && (dt_minute current_time >=? 30)) in
  let slot_date := if past then "Tomorrow" else "Today" in
  let actual_date := if past then plus_days current_time 1 else current_time in
  at_hour <- replace_hour actual_date hour ;;
  sc <- slot_score ;;
  Ok {| time_window := window; date_label := slot_date;
        full_datetime := isoformat E at_hour; score := sc |}.

(** [except (ValueError, IndexError)] *)
Definition is_value_or_index_error (e : exn) : bool :=
  match e with
  | ValueError _ | IndexError _ => true
  | _ => false
  end.

(** The loop of [_fallback_delivery_times]; [i] is the index
    [enumerate] has reached. *)
Fixpoint fallback_slots (E : Env) (current_time : datetime) (i : Z)
         (windows : list string) : outcome (list Slot) :=
  match windows with
  | [] => Ok []
  | window :: rest =>
      match make_slot E current_time window
                      (Ok (Fin (0.7 - inject_Z i * 0.1)%Q)) with
      | Ok slot =>
          slots <- fallback_slots E current_time (i + 1) rest ;;
          Ok (slot :: slots)
      | Raise e =>
          if is_value_or_index_error e then fallback_slots E current_time (i + 1) rest
          else Raise e
      end
  end.

Definition default_slots : list string :=
  ["9am-11am"; "11am-1pm"; "1pm-3pm"; "3pm-5pm"; "5pm-7pm"].

(** [_fallback_delivery_times] *)
Definition _fallback_delivery_times (E : Env) (uid : Z) (num_slots : Z)
           (timezone : string) : io (list Slot) :=
  current_time <~ current_time_in E timezone ;;
  quiet (fallback_slots E current_time 0 (take num_slots default_slots)).

Definition quantity_query (uid : Z) : string :=
  ("PREDICT SUM(order_items.quantity, 0, 10, days) "
   ++ "FOR users.user_id = " ++ str_of_Z uid)%string.

Definition products_query (top uid : Z) : string :=
  ("PREDICT LIST_DISTINCT(order_items.product_id, 0, 30, days) RANK TOP "
   ++ str_of_Z top ++ " " ++ "FOR users.user_id = " ++ str_of_Z uid)%string.

Definition recommendations_query (top uid : Z) : string :=
  ("PREDICT LIST_DISTINCT(order_items.product_id, 0, 60, days) RANK TOP "
   ++ str_of_Z top ++ " " ++ "FOR users.user_id = " ++ str_of_Z uid)%string.

Definition delivery_query (top uid : Z) : string :=
  ("PREDICT LIST_DISTINCT(orders.delivery_window, 0, 30, days) RANK TOP "
   ++ str_of_Z top ++ " " ++ "FOR users.user_id = " ++ str_of_Z uid)%string.

(** [series.values[0]] *)
Definition first_value (s : list value) : outcome value :=
  match s with
  | [] => Raise (IndexError "index 0 is out of bounds for axis 0 with size 0")
  | v :: _ => Ok v
  end.

(** Lines 125-131: the number of items the user is predicted to buy,
    20 when anything in the inner [try] raises. *)
Definition number_of_products (m : Model) (uid : Z) : Z :=
  match (quantity_result <- m (quantity_query uid) ;;
         target <- result_attr quantity_result "TARGET_PRED" ;;
         v <- first_value target ;;
         py_int v) with
  | Ok n => n
  | Raise _ => 20
  end.

(** Lines 142-173: one dictionary per recommended id that has a row in
    the products table. *)
Fixpoint cart_predictions (self : SmartGrocerPredictor) (ids : list value)
  : outcome (list Prediction) :=
  match ids with
  | [] => Ok []
  | v :: rest =>
      product_row <- products_matching (products_df self) v ;;
      match product_row with
      | [] => cart_predictions self rest
      | product :: _ =>
          let quantity := dict_get (avg_quantities self) v 1 in
          pid <- py_int v ;;
          predictions <- cart_predictions self rest ;;
          Ok (prediction pid product (Some quantity) 0.95%Q
                ("Kumo RFM prediction: average quantity " ++ str_of_Z quantity
                 ++ " based on historical orders")%string
              :: predictions)
      end
  end.

(** Lines 203-229 *)
Fixpoint recommendations_of (self : SmartGrocerPredictor) (ids : list value)
  : outcome (list Prediction) :=
  match ids with
  | [] => Ok []
  | v :: rest =>
      product_row <- products_matching (products_df self) v ;;
      match product_row with
      | [] => recommendations_of self rest
      | product :: _ =>
          pid <- py_int v ;;
          recommendations <- recommendations_of self rest ;;
          Ok (prediction pid product None 0.9%Q
                "Kumo RFM recommendation: predicted interest over 60 days"
              :: recommendations)
      end
  end.

(** [predict_cart_items] *)
Definition predict_cart_items (E : Env) (self : SmartGrocerPredictor)
           (uid : Z) (num_predictions : Z) : io (list Prediction) :=
  match model self, KUMO_AVAILABLE E with
  | Some m, true =>
      try_except
        (let number_products := number_of_products m uid in
         recommended_product_ids <~
           quiet (prediction_result <-
                    m (products_query (Z.min num_predictions number_products) uid) ;;
                  result_attr prediction_result "CLASS") ;;
         predictions <~ quiet (cart_predictions self recommended_product_ids) ;;
         print stderr ("Kumo RFM returned "
                       ++ str_of_Z (Z.of_nat (List.length predictions))
                       ++ " cart predictions for user " ++ str_of_Z uid)%string ;;;
         io_ret predictions)
        (fun e =>
           print stderr ("Kumo RFM prediction failed, using fallback: "
                         ++ exn_message e)%string ;;;
           io_ret (_fallback_predictions E self uid num_predictions))
  | _, _ => io_ret (_fallback_predictions E self uid num_predictions)
  end.

(** [predict_recommendations] *)
Definition predict_recommendations (E : Env) (self : SmartGrocerPredictor)
           (uid : Z) (num_recommendations : Z) : io (list Prediction) :=
  match model self, KUMO_AVAILABLE E with
  | Some m, true =>
      try_except
        (recommended_product_ids <~
           quiet (prediction_result <-
                    m (recommendations_query num_recommendations uid) ;;
                  result_attr prediction_result "CLASS") ;;
         recommendations <~ quiet (recommendations_of self recommended_product_ids) ;;
         print stderr ("Kumo RFM returned "
                       ++ str_of_Z (Z.of_nat (List.length recommendations))
                       ++ " recommendations for user " ++ str_of_Z uid)%string ;;;
         io_ret recommendations)
        (fun e =>
           print stderr ("Kumo RFM recommendation failed, using fallback: "
                         ++ exn_message e)%string ;;;
           io_ret (_fallback_recommendations self uid num_recommendations))
  | _, _ => io_ret (_fallback_recommendations self uid num_recommendations)
  end.

(** Lines 275-313: the loop over the rows of the result frame. *)
Fixpoint processed_slots (E : Env) (current_time : datetime) (result : DataFrame)
         (result_rows : list (list value)) : io (list Slot) :=
  match result_rows with
  | [] => io_ret []
  | row :: rest =>
      let window := py_str E (row_get result row "delivery_window" (VStr "")) in
      if String.eqb window "" || String.eqb window "nan" then
        processed_slots E current_time result rest
      else
        match make_slot E current_time window
                        (py_float (row_get result row "score" (VFloat 0.5))) with
        | Ok slot =>
            slots <~ processed_slots E current_time result rest ;;
            io_ret (slot :: slots)
        | Raise e =>
            if is_value_or_index_error e then
              print stderr ("Error parsing time window '" ++ window ++ "': "
                            ++ exn_message e)%string ;;;
              processed_slots E current_time result rest
            else quiet (Raise e)
        end
  end.

(** One step of a stable sort by decreasing score. *)
Fixpoint insert_by_score (slot : Slot) (sorted : list Slot) : list Slot :=
  match sorted with
  | [] => [slot]
  | other :: sorted' =>
      if float_lt (score other) (score slot) then slot :: sorted
      else other :: insert_by_score slot sorted'
  end.

(** [slots.sort(key=lambda x: x['score'], reverse=True)] *)
Definition sort_by_score (slots : list Slot) : list Slot :=
  fold_left (fun sorted slot => insert_by_score slot sorted) slots [].

(** [predict_delivery_times] *)
Definition predict_delivery_times (E : Env) (self : SmartGrocerPredictor)
           (uid : Z) (num_slots : Z) (timezone : string) : io (list Slot) :=
  match model self, KUMO_AVAILABLE E with
  | Some m, true =>
      try_except
        (prediction_result <~ quiet (m (delivery_query num_slots uid)) ;;
         match prediction_result with
         | None => _fallback_delivery_times E uid num_slots timezone
         | Some result =>
             if df_empty result then _fallback_delivery_times E uid num_slots timezone
             else
               current_time <~ current_time_in E timezone ;;
               slots <~ processed_slots E current_time result (rows result) ;;
               let result_slots := take num_slots (sort_by_score slots) in
               print stderr ("Kumo RFM returned "
                             ++ str_of_Z (Z.of_nat (List.length result_slots))
                             ++ " delivery time predictions for user "
                             ++ str_of_Z uid)%string ;;;
               io_ret result_slots
         end)
        (fun e =>
           print stderr ("Kumo RFM delivery time prediction failed, using fallback: "
                         ++ exn_message e)%string ;;;
           _fallback_delivery_times E uid num_slots timezone)
  | _, _ => _fallback_delivery_times E uid num_slots timezone
  end.

(** *** Loading and the command line *)

(** [SmartGrocerPredictor()]: every table missing, no model. *)
Definition new_predictor : SmartGrocerPredictor := {|
  model := None; users_df := None; products_df := None; orders_df := None;
  order_items_df := None; order_items_join := None; avg_quantities := []
|}.

(** [__init__] *)
Definition init (E : Env) : list event * SmartGrocerPredictor :=
  if KUMO_AVAILABLE E then
    match rfm_init E with
    | Ok _ => ([(stderr, Text "Kumo AI RFM initialized successfully")], new_predictor)
    | Raise e =>
        ([(stderr, Text ("Kumo RFM initialization issue: " ++ exn_message e)%string)],
         new_predictor)
    end
  else ([], new_predictor).

Definition loading_failed (self : SmartGrocerPredictor) (e : exn)
  : list event * (SmartGrocerPredictor * bool) :=
  ([(stderr, Text ("Error loading CSV data: " ++ exn_message e)%string)], (self, false)).

(** [load_csv_data]: the predictor with the tables read so far, and
    the returned flag. *)
Definition load_csv_data (E : Env) (self : SmartGrocerPredictor)
  : list event * (SmartGrocerPredictor * bool) :=
  match read_users E with
  | Raise e => loading_failed self e
  | Ok users =>
  let self := {| model := model self; users_df := Some users;
                 products_df := products_df self; orders_df := orders_df self;
                 order_items_df := order_items_df self;
                 order_items_join := order_items_join self;
                 avg_quantities := avg_quantities self |} in
  match read_products E with
  | Raise e => loading_failed self e
  | Ok products =>
  let self := {| model := model self; users_df := users_df self;
                 products_df := Some products; orders_df := orders_df self;
                 order_items_df := order_items_df self;
                 order_items_join := order_items_join self;
                 avg_quantities := avg_quantities self |} in
  match read_orders E with
  | Raise e => loading_failed self e
  | Ok orders =>
  let self := {| model := model self; users_df := users_df self;
                 products_df := products_df self; orders_df := Some orders;
                 order_items_df := order_items_df self;
                 order_items_join := order_items_join self;
                 avg_quantities := avg_quantities self |} in
  match read_order_items E with
  | Raise e => loading_failed self e
  | Ok order_items =>
  let self := {| model := model self; users_df := users_df self;
                 products_df := products_df self; orders_df := orders_df self;
                 order_items_df := Some order_items;
                 order_items_join := order_items_join self;
                 avg_quantities := avg_quantities self |} in
  match with_days_since_today E orders with
  | Raise e => loading_failed self e
  | Ok orders =>
  let self := {| model := model self; users_df := users_df self;
                 products_df := products_df self; orders_df := Some orders;
                 order_items_df := order_items_df self;
                 order_items_join := order_items_join self;
                 avg_quantities := avg_quantities self |} in
  match merge E orders order_items with
  | Raise e => loading_failed self e
  | Ok joined =>
  let self := {| model := model self; users_df := users_df self;
                 products_df := products_df self; orders_df := orders_df self;
                 order_items_df := order_items_df self;
                 order_items_join := Some joined;
                 avg_quantities := avg_quantities self |} in
  match mean_quantities E order_items with
  | Raise e => loading_failed self e
  | Ok quantities =>
  let self := {| model := model self; users_df := users_df self;
                 products_df := products_df self; orders_df := orders_df self;
                 order_items_df := order_items_df self;
                 order_items_join := order_items_join self;
                 avg_quantities := quantities |} in
  ([(stderr, Text ("Loaded " ++ str_of_Z (Z.of_nat (List.length users)) ++ " users, "
                   ++ str_of_Z (Z.of_nat (List.length products)) ++ " products, "
                   ++ str_of_Z (Z.of_nat (List.length (rows orders))) ++ " orders")%string);
    (stderr, Text ("Calculated average quantities for "
                   ++ str_of_Z (Z.of_nat (List.length quantities)) ++ " products")%string)],
   (self, true))
  end end end end end end end.

(** [create_kumo_graph] *)
Definition create_kumo_graph (E : Env) (self : SmartGrocerPredictor)
  : list event * (SmartGrocerPredictor * bool) :=
  if negb (KUMO_AVAILABLE E) then ([], (self, false))
  else
    match rfm_model E (users_df self) (products_df self) (orders_df self)
                    (order_items_join self) with
    | Ok m =>
        ([(stderr, Text "Kumo RFM graph and model created successfully")],
         ({| model := Some m; users_df := users_df self;
             products_df := products_df self; orders_df := orders_df self;
             order_items_df := order_items_df self;
             order_items_join := order_items_join self;
             avg_quantities := avg_quantities self |}, true))
    | Raise e =>
        ([(stderr, Text ("Error creating Kumo RFM graph: " ++ exn_message e)%string)],
         (self, false))
    end.

(** The dictionary of a prediction, as [json.dumps] sees it. *)
Definition prediction_json (p : Prediction) : json :=
  JObj ([("product_id", JInt (pred_product_id p));
         ("product_name", JStr (pred_product_name p));
         ("brand", JStr (pred_brand p));
         ("category", JStr (pred_category p));
         ("size", JStr (pred_size p));
         ("unit", JStr (pred_unit p))]
        ++ match pred_quantity p with
           | Some q => [("quantity", JInt q)]
           | None => []
           end
        ++ [("price_per_unit", JFloat (pred_price_per_unit p));
            ("confidence", JFloat (Fin (pred_confidence p)));
            ("reason", JStr (pred_reason p))]).

Definition slot_json (s : Slot) : json :=
  JObj [("time_window", JStr (time_window s));
        ("date_label", JStr (date_label s));
        ("full_datetime", JStr (full_datetime s));
        ("score", JFloat (score s))].

(** [d[key] = v] on a dictionary kept in insertion order *)
Fixpoint dict_set {V : Type} (d : list (Z * V)) (key : Z) (v : V) : list (Z * V) :=
  match d with
  | [] => [(key, v)]
  | (k, old) :: d' =>
      if k =? key then (k, v) :: d' else (k, old) :: dict_set d' key v
  end.

Definition usage : string :=
  "Usage: python kumo_predictions.py [cart|recommendations] <user_id> [num_items]".

Definition invalid_type : string :=
  "Invalid prediction type. Use 'cart', 'recommendations', 'delivery-times', 'substitution-rate', or 'batch-substitution-rates'".

Definition not_installed : string :=
  "Warning: Kumo AI SDK not installed. Run: pip install kumoai".

(** Lines 581-586: [user_id] and [num_items], left unbound for the
    batch command. *)
Definition user_arguments (argv : list string) : outcome (option (Z * Z)) :=
  if String.eqb (arg argv 1) "batch-substitution-rates" then Ok None
  else
    uid <- py_int_of_string (arg argv 2) ;;
    num_items <- (if (3 <? Z.of_nat (List.length argv))
                  then py_int_of_string (arg argv 3) else Ok 5) ;;
    Ok (Some (uid, num_items)).

(** [[int(pid.strip()) for pid in text.split(',')]] *)
Fixpoint batch_ids (pieces : list string) : outcome (list Z) :=
  match pieces with
  | [] => Ok []
  | piece :: rest =>
      pid <- py_int_of_string (strip piece) ;;
      ids <- batch_ids rest ;;
      Ok (pid :: ids)
  end.

Section Main.

Context {R : Random}.

(** Lines 604-606 *)
Fixpoint batch_rates (self : SmartGrocerPredictor) (ids : list Z)
         (rates : list (Z * pyfloat)) (g : rng)
  : list event * list (Z * pyfloat) * rng :=
  match ids with
  | [] => ([], rates, g)
  | pid :: rest =>
      let '(out, rate, g) := get_product_substitution_rate self pid g in
      let '(out', rates, g) := batch_rates self rest (dict_set rates pid rate) g in
      (out ++ out', rates, g)
  end.

(** What [main] does once the tables are loaded. *)
Definition dispatch (E : Env) (predictor : SmartGrocerPredictor)
           (argv : list string) (arguments : option (Z * Z)) (g : rng) : run :=
  let prediction_type := arg argv 1 in
  match arguments with
  | None =>
      match batch_ids (split_on "," (arg argv 2)) with
      | Raise e => uncaught [] e
      | Ok product_ids =>
          let '(out, rates, _) := batch_rates predictor product_ids [] g in
          exit_with
            (out ++ [(stdout,
                      Json (JObj (map (fun kv => (str_of_Z (fst kv), JFloat (snd kv)))
                                      rates)))])
            0
      end
  | Some (uid, num_items) =>
      if String.eqb prediction_type "cart" then
        match predict_cart_items E predictor uid num_items with
        | (out, Ok predictions) =>
            exit_with (out ++ [(stdout, Json (JArr (map prediction_json predictions)))]) 0
        | (out, Raise e) => uncaught out e
        end
      else if String.eqb prediction_type "recommendations" then
        match predict_recommendations E predictor uid num_items with
        | (out, Ok predictions) =>
            exit_with (out ++ [(stdout, Json (JArr (map prediction_json predictions)))]) 0
        | (out, Raise e) => uncaught out e
        end
      else if String.eqb prediction_type "delivery-times" then
        let timezone := if (4 <? Z.of_nat (List.length argv)) then arg argv 4 else "UTC" in
        match predict_delivery_times E predictor uid num_items timezone with
        | (out, Ok slots) =>
            exit_with (out ++ [(stdout, Json (JArr (map slot_json slots)))]) 0
        | (out, Raise e) => uncaught out e
        end
      else if String.eqb prediction_type "substitution-rate" then
        let '(out, rate, _) := get_product_substitution_rate predictor uid g in
        exit_with (out ++ [(stdout, FloatText rate)]) 0
      else exit_with [(stdout, Text invalid_type)] 1
  end.

Definition after (out : list event) (r : run) : run :=
  {| output := out ++ output r; status := status r |}.

(** The script run as a program: the import at the top of the module,
    then [main()].  [argv] is [sys.argv]; [g] is the state of [random]
    when the process starts. *)
Definition main (E : Env) (argv : list string) (g : rng) : run :=
  after (if KUMO_AVAILABLE E then [] else [(stderr, Text not_installed)])
    (if (Z.of_nat (List.length argv) <? 3) then exit_with [(stdout, Text usage)] 1
     else
       match user_arguments argv with
       | Raise e => uncaught [] e
       | Ok arguments =>
           let (out_init, predictor) := init E in
           let '(out_load, (predictor, loaded)) := load_csv_data E predictor in
           if negb loaded then exit_with (out_init ++ out_load) 1
           else
             let '(out_graph, (predictor, _)) := create_kumo_graph E predictor in
             after (out_init ++ out_load ++ out_graph)
                   (dispatch E predictor argv arguments g)
       end).

End Main.

End Predictions.

(** ** [kumo_personalized_ingredients.py] *)

Module Ingredients.

Record PersonalizedIngredientRanker : Type := {
  model : option Model;
  users_df : option (list User);
  products_df : option (list Product);
  orders_df : option DataFrame;
  order_items_df : option DataFrame
}.

(** One entry of the ranking: the dictionary with the keys
    [product_id], [product_name], [brand], [category], [size], [unit],
    [price_per_unit] and [kumo_rank]. *)
Record Ranked : Type := {
  ranked_product_id : Z;
  ranked_product_name : string;
  ranked_brand : string;
  ranked_category : string;
  ranked_size : string;
  ranked_unit : string;
  ranked_price_per_unit : pyfloat;
  kumo_rank : Z
}.

Definition entry (pid : Z) (product : Product) (rank : Z) : Ranked := {|
  ranked_product_id := pid;
  ranked_product_name := product_name product;
  ranked_brand := brand product;
  ranked_category := category product;
  ranked_size := size product;
  ranked_unit := unit product;
  ranked_price_per_unit := price_per_unit product;
  kumo_rank := rank
|}.

(** [self.products_df[self.products_df['product_id'] == product_id]] *)
Definition product_rows (products_df : option (list Product)) (pid : Z)
  : outcome (list Product) :=
  match products_df with
  | None => Raise (TypeError "'NoneType' object is not subscriptable")
  | Some products => Ok (products_with_id products pid)
  end.

(** Lines 100-115 and 168-183: the input order, ranked by position.
    [i] is the index [enumerate] has reached. *)
Fixpoint fallback_ranking (products_df : option (list Product)) (i : Z)
         (product_ids : list Z) : outcome (list Ranked) :=
  match product_ids with
  | [] => Ok []
  | pid :: rest =>
      product_row <- product_rows products_df pid ;;
      match product_row with
      | [] => fallback_ranking products_df (i + 1) rest
      | product :: _ =>
          results <- fallback_ranking products_df (i + 1) rest ;;
          Ok (entry pid product (i + 1) :: results)
      end
  end.

(** [product_id in product_ids] for a cell of the result frame *)
Definition cell_in (v : value) (product_ids : list Z) : bool :=
  existsb (value_eq_int v) product_ids.

(** Lines 127-142: the ids ranked by the model, in the model's order. *)
Fixpoint kumo_ranking (products_df : option (list Product)) (product_ids : list Z)
         (i : Z) (ranked_product_ids : list value) : outcome (list Ranked) :=
  match ranked_product_ids with
  | [] => Ok []
  | v :: rest =>
      if cell_in v product_ids then
        product_row <- products_matching products_df v ;;
        match product_row with
        | [] => kumo_ranking products_df product_ids (i + 1) rest
        | product :: _ =>
            pid <- py_int v ;;
            results <- kumo_ranking products_df product_ids (i + 1) rest ;;
            Ok (entry pid product (i + 1) :: results)
        end
      else kumo_ranking products_df product_ids (i + 1) rest
  end.

(** Lines 146-160: the input ids the model did not rank, appended with
    the next free rank.  [ranked_ids] was computed before the loop. *)
Fixpoint append_missing (products_df : option (list Product)) (ranked_ids : list Z)
         (results : list Ranked) (product_ids : list Z) : outcome (list Ranked) :=
  match product_ids with
  | [] => Ok results
  | pid :: rest =>
      if existsb (Z.eqb pid) ranked_ids then
        append_missing products_df ranked_ids results rest
      else
        product_row <- product_rows products_df pid ;;
        match product_row with
        | [] => append_missing products_df ranked_ids results rest
        | product :: _ =>
            append_missing products_df ranked_ids
              (results ++ [entry pid product (Z.of_nat (List.length results) + 1)])
              rest
        end
  end.

Definition ranking_query (product_ids : list Z) (user_id : Z) : string :=
  ("PREDICT LIST_DISTINCT(order_items.product_id, 0, 30, days) RANK TOP "
   ++ str_of_Z (Z.of_nat (List.length product_ids))
   ++ " FOR users.user_id = " ++ str_of_Z user_id)%string.

(** [rank_products_for_user] *)
Definition rank_products_for_user (E : Env) (self : PersonalizedIngredientRanker)
           (product_ids : list Z) (user_id : Z) : io (list Ranked) :=
  match model self, KUMO_AVAILABLE E with
  | Some m, true =>
      try_except
        (ranked_product_ids <~
           quiet (prediction_result <- m (ranking_query product_ids user_id) ;;
                  result_attr prediction_result "CLASS") ;;
         results <~ quiet (kumo_ranking (products_df self) product_ids 0
                                        ranked_product_ids) ;;
         results <~ quiet (append_missing (products_df self)
                                          (map ranked_product_id results)
                                          results product_ids) ;;
         print stderr ("Kumo RFM ranked " ++ str_of_Z (Z.of_nat (List.length results))
                       ++ " ingredients for user " ++ str_of_Z user_id)%string ;;;
         io_ret results)
        (fun e =>
           print stderr ("Kumo RFM ranking failed: " ++ exn_message e)%string ;;;
           quiet (fallback_ranking (products_df self) 0 product_ids))
  | _, _ => quiet (fallback_ranking (products_df self) 0 product_ids)
  end.

(** *** Loading and the command line *)

(** [PersonalizedIngredientRanker()] *)
Definition new_ranker : PersonalizedIngredientRanker := {|
  model := None; users_df := None; products_df := None; orders_df := None;
  order_items_df := None
|}.

(** [__init__] *)
Definition init (E : Env) : list event * PersonalizedIngredientRanker :=
  if KUMO_AVAILABLE E then
    match rfm_init E with
    | Ok _ =>
        ([(stderr, Text "Kumo AI RFM initialized for personalized ingredients")],
         new_ranker)
    | Raise e =>
        ([(stderr, Text ("Kumo RFM initialization issue: " ++ exn_message e)%string)],
         new_ranker)
    end
  else ([], new_ranker).

Definition loading_failed (self : PersonalizedIngredientRanker) (e : exn)
  : list event * (PersonalizedIngredientRanker * bool) :=
  ([(stderr, Text ("Error loading CSV data: " ++ exn_message e)%string)], (self, false)).

(** [load_csv_data] *)
Definition load_csv_data (E : Env) (self : PersonalizedIngredientRanker)
  : list event * (PersonalizedIngredientRanker * bool) :=
  match read_users E with
  | Raise e => loading_failed self e
  | Ok users =>
  let self := {| model := model self; users_df := Some users;
                 products_df := products_df self; orders_df := orders_df self;
                 order_items_df := order_items_df self |} in
  match read_products E with
  | Raise e => loading_failed self e
  | Ok products =>
  let self := {| model := model self; users_df := users_df self;
                 products_df := Some products; orders_df := orders_df self;
                 order_items_df := order_items_df self |} in
  match read_orders E with
  | Raise e => loading_failed self e
  | Ok orders =>
  let self := {| model := model self; users_df := users_df self;
                 products_df := products_df self; orders_df := Some orders;
                 order_items_df := order_items_df self |} in
  match read_order_items E with
  | Raise e => loading_failed self e
  | Ok order_items =>
  let self := {| model := model self; users_df := users_df self;
                 products_df := products_df self; orders_df := orders_df self;
                 order_items_df := Some order_items |} in
  match with_days_since_today E orders with
  | Raise e => loading_failed self e
  | Ok orders =>
  let self := {| model := model self; users_df := users_df self;
                 products_df := products_df self; orders_df := Some orders;
                 order_items_df := order_items_df self |} in
  ([(stderr, Text "Loaded data for personalized ranking")], (self, true))
  end end end end end.

(** [df[df.product_id.isin(product_ids)].copy()] *)
Definition order_items_of (order_items_df : option DataFrame) (product_ids : list Z)
  : outcome DataFrame :=
  match order_items_df with
  | None => Raise (AttributeError "'NoneType' object has no attribute 'product_id'")
  | Some df =>
      match index_of "product_id" (columns df) with
      | None => Raise (AttributeError "'DataFrame' object has no attribute 'product_id'")
      | Some i =>
          Ok {| columns := columns df;
                rows := filter (fun r => cell_in (nth i r VNaN) product_ids) (rows df) |}
      end
  end.

(** [create_personalized_kumo_graph] *)
Definition create_personalized_kumo_graph (E : Env) (self : PersonalizedIngredientRanker)
           (product_ids : list Z) : list event * (PersonalizedIngredientRanker * bool) :=
  if negb (KUMO_AVAILABLE E) then ([], (self, false))
  else
    match (filtered_order_items <- order_items_of (order_items_df self) product_ids ;;
           orders <- match orders_df self with
                     | Some orders => Ok orders
                     | None => Raise (AttributeError
                                        "'NoneType' object has no attribute 'merge'")
                     end ;;
           order_items_join <- merge E orders filtered_order_items ;;
           rfm_model E (users_df self) (products_df self) (orders_df self)
                     (Some order_items_join)) with
    | Ok m =>
        ([(stderr, Text ("Created personalized Kumo graph for "
                         ++ str_of_Z (Z.of_nat (List.length product_ids))
                         ++ " products")%string)],
         ({| model := Some m; users_df := users_df self;
             products_df := products_df self; orders_df := orders_df self;
             order_items_df := order_items_df self |}, true))
    | Raise e =>
        ([(stderr, Text ("Error creating personalized Kumo graph: "
                         ++ exn_message e)%string)],
         (self, false))
    end.

(** The dictionary of a ranked product, as [json.dumps] sees it. *)
Definition ranked_json (r : Ranked) : json :=
  JObj [("product_id", JInt (ranked_product_id r));
        ("product_name", JStr (ranked_product_name r));
        ("brand", JStr (ranked_brand r));
        ("category", JStr (ranked_category r));
        ("size", JStr (ranked_size r));
        ("unit", JStr (ranked_unit r));
        ("price_per_unit", JFloat (ranked_price_per_unit r));
        ("kumo_rank", JInt (kumo_rank r))].

Definition usage : string :=
  "Usage: python kumo_personalized_ingredients.py <product_ids_json> <user_id>".

Definition not_installed : string := "Warning: Kumo AI SDK not installed".

(** Lines 192-197: the two arguments, or the exception the [except]
    clause catches ([JSONDecodeError] is a [ValueError]). *)
Definition arguments (E : Env) (argv : list string) : outcome (list Z * Z) :=
  product_ids <- json_loads_ids E (arg argv 1) ;;
  uid <- py_int_of_string (arg argv 2) ;;
  Ok (product_ids, uid).

Definition is_invalid_argument (e : exn) : bool :=
  match e with
  | JSONDecodeError _ | ValueError _ => true
  | _ => false
  end.

(** The script run as a program: the import at the top of the module,
    then [main()]. *)
Definition main (E : Env) (argv : list string) : run :=
  let imported := if KUMO_AVAILABLE E then [] else [(stderr, Text not_installed)] in
  if (Z.of_nat (List.length argv) <? 3) then
    exit_with (imported ++ [(stderr, Text usage)]) 1
  else
    match arguments E argv with
    | Raise e =>
        if is_invalid_argument e then
          exit_with (imported ++ [(stderr, Text ("Invalid arguments: "
                                                 ++ exn_message e)%string)]) 1
        else uncaught imported e
    | Ok (product_ids, uid) =>
        let (out_init, ranker) := init E in
        let '(out_load, (ranker, loaded)) := load_csv_data E ranker in
        if negb loaded then exit_with (imported ++ out_init ++ out_load) 1
        else
          let '(out_graph, (ranker, _)) :=
            create_personalized_kumo_graph E ranker product_ids in
          match rank_products_for_user E ranker product_ids uid with
          | (out, Ok ranked_products) =>
              exit_with (imported ++ out_init ++ out_load ++ out_graph ++ out
                         ++ [(stdout, Json (JArr (map ranked_json ranked_products)))]) 0
          | (out, Raise e) =>
              uncaught (imported ++ out_init ++ out_load ++ out_graph ++ out) e
          end
    end.

End Ingredients.

(** ** [grocery_dataset_generator.py] *)

(** Products are Python dictionaries here, because the generator takes
    them from the JSON the completion API returns and checks their keys
    itself.  What the generator prints is not modelled. *)

Module Generator.

(** A dictionary with string keys, in insertion order. *)
Definition dict : Type := list (string * json).

(** [d.get(key)] *)
Fixpoint lookup (key : string) (d : dict) : option json :=
  match d with
  | [] => None
  | (k, v) :: d' => if String.eqb k key then Some v else lookup key d'
  end.

(** [d[key]] *)
Definition item (d : dict) (key : string) : outcome json :=
  match lookup key d with
  | Some v => Ok v
  | None => Raise (KeyError key)
  end.

(** [d[key] = v] *)
Fixpoint store (key : string) (v : json) (d : dict) : dict :=
  match d with
  | [] => [(key, v)]
  | (k, old) :: d' =>
      if String.eqb k key then (k, v) :: d' else (k, old) :: store key v d'
  end.

(** Everything the generator obtains from outside: the module-level
    [random], the Faker instance, the completion API and the two
    library functions it calls on text. *)
Class World : Type := {
  state : Type;
  (** [random.random()] *)
  random_random : state -> Q * state;
  (** the index [random.choice] picks in a sequence of the given length *)
  random_choice_index : nat -> state -> nat * state;
  (** the indices [random.sample] picks: population size, sample size *)
  random_sample_indices : nat -> nat -> state -> list nat * state;
  (** [fake.word().title()] *)
  fake_word_title : state -> string * state;
  (** [client.chat.completions.create(...)] for a category and a batch
      size, then [response.choices[0].message.content.strip()] *)
  chat_completion : string -> nat -> state -> outcome string * state;
  (** [json.loads] *)
  json_loads : string -> outcome json;
  (** [str(x)] for a float *)
  float_text : Q -> string
}.

Section Generate.

Context {W : World}.

(** Code that draws from the world and may raise.  The draws made
    before an exception stay made. *)
Definition gen (A : Type) : Type := state -> outcome A * state.

Definition ret {A : Type} (a : A) : gen A := fun s => (Ok a, s).

Definition throw {A : Type} (e : exn) : gen A := fun s => (Raise e, s).

Definition and_then {A B : Type} (m : gen A) (k : A -> gen B) : gen B :=
  fun s =>
    match m s with
    | (Ok a, s') => k a s'
    | (Raise e, s') => (Raise e, s')
    end.

Notation "x <== m ;; k" := (and_then m (fun x => k))
  (at level 61, m at next level, right associativity).

Definition pure {A : Type} (r : outcome A) : gen A := fun s => (r, s).

Definition draw {A : Type} (f : state -> A * state) : gen A :=
  fun s => let (a, s') := f s in (Ok a, s').

(** [random.choice(seq)] for a sequence that is not empty *)
Definition choice {A : Type} (default : A) (seq : list A) : gen A :=
  draw (fun s =>
          let (i, s') := random_choice_index (List.length seq) s in
          (nth i seq default, s')).

(** [random.sample(population, k)] *)
Definition sample {A : Type} (population : list A) (k : nat) : gen (list A) :=
  draw (fun s =>
          let (indices, s') := random_sample_indices (List.length population) k s in
          (flat_map (fun i => match nth_error population i with
                              | Some a => [a]
                              | None => []
                              end) indices, s')).

(** [random.uniform(a, b)] *)
Definition random_uniform (a b : Q) : gen Q :=
  draw (fun s => let (u, s') := random_random s in ((a + (b - a) * u)%Q, s')).

(** *** [generate_fallback_batch] *)

Definition brands (category : string) : list string :=
  if String.eqb category "Produce" then
    ["Fresh Market"; "Organic Valley"; "Local Farm"; "Green Choice"]
  else if String.eqb category "Dairy" then
    ["Horizon"; "Land O Lakes"; "Great Value"; "Organic Valley"]
  else if String.eqb category "Bakery" then
    ["Pepperidge Farm"; "Wonder"; "Sara Lee"; "King Hawaiian"]
  else if String.eqb category "Meat & Seafood" then
    ["Tyson"; "Perdue"; "Wild Planet"; "Oscar Mayer"]
  else if String.eqb category "Pantry Staples" then
    ["Hunt's"; "Kraft"; "General Mills"; "Quaker"]
  else if String.eqb category "Snacks" then
    ["Lay's"; "Cheetos"; "Oreo"; "Nabisco"]
  else if String.eqb category "Beverages" then
    ["Coca-Cola"; "Pepsi"; "Tropicana"; "Nestlé"]
  else if String.eqb category "Household" then
    ["Tide"; "Charmin"; "Bounty"; "Dawn"]
  else ["Generic Brand"].

(** [[fake.word().title() for _ in range(n)]] *)
Fixpoint fake_words (n : nat) (s : state) : list string * state :=
  match n with
  | O => ([], s)
  | S n' =>
      let (word, s) := fake_word_title s in
      let (words, s) := fake_words n' s in
      (word :: words, s)
  end.

(** [random.choice(seq)] where nothing can raise *)
Definition pick (seq : list string) (s : state) : string * state :=
  let (i, s') := random_choice_index (List.length seq) s in
  (nth i seq "", s').

(** Lines 334-348: items, size options, unit and price range of a
    category. *)
Definition category_profile (category : string) (s : state)
  : (list string * list string * string * (Q * Q)) * state :=
  if String.eqb category "Produce" then
    ((["Apples"; "Bananas"; "Carrots"; "Lettuce"; "Tomatoes"; "Potatoes"; "Onions"],
      ["1 lb"; "2 lbs"; "3 lbs"; "5 lbs"], "lb", (1.0, 6.0)%Q), s)
  else if String.eqb category "Dairy" then
    let (unit, s) := pick ["oz"; "gallon"; "count"] s in
    ((["Milk"; "Cheese"; "Yogurt"; "Butter"; "Eggs"; "Cream"],
      ["16 oz"; "32 oz"; "1 gallon"; "12 count"], unit, (2.0, 8.0)%Q), s)
  else
    let (items, s) := fake_words 10 s in
    ((items, ["12 oz"; "16 oz"; "24 oz"; "32 oz"], "oz", (1.5, 12.0)%Q), s).

(** The body of the loop of [generate_fallback_batch] for index [i]. *)
Definition fallback_product (category : string) (start_id : Z) (i : nat) (s : state)
  : dict * state :=
  let (brand, s) := pick (brands category) s in
  let '((items, size_options, unit, price_range), s) := category_profile category s in
  let (name, s) := pick items s in
  let (size, s) := pick size_options s in
  let (u, s) := random_random s in
  let price := (fst price_range + (snd price_range - fst price_range) * u)%Q in
  ([("product_id", JInt (start_id + Z.of_nat i));
    ("product_name", JStr (brand ++ " " ++ name)%string);
    ("category", JStr category);
    ("brand", JStr brand);
    ("size", JStr size);
    ("unit", JStr unit);
    ("price_per_unit", JFloat (Fin (py_round price 2)))], s).

(** The loop [for i in range(batch_size)] from index [i] on. *)
Fixpoint fallback_products (category : string) (start_id : Z) (i : nat) (count : nat)
         (s : state) : list dict * state :=
  match count with
  | O => ([], s)
  | S count' =>
      let (product, s) := fallback_product category start_id i s in
      let (products, s) := fallback_products category start_id (S i) count' s in
      (product :: products, s)
  end.

(** [generate_fallback_batch] *)
Definition generate_fallback_batch (category : string) (batch_size : nat) (start_id : Z)
           (s : state) : list dict * state :=
  fallback_products category start_id 0 batch_size s.

(** *** [generate_base_products_batch] *)

Definition required_keys : list string :=
  ["product_name"; "brand"; "size"; "unit"; "price_per_unit"].

(** [s.find(c)] and [s.rfind(c)] *)
Fixpoint find_char (c : ascii) (s : string) : option nat :=
  match s with
  | EmptyString => None
  | String c' s' => if Ascii.eqb c' c then Some O else option_map S (find_char c s')
  end.

Fixpoint rfind_char (c : ascii) (s : string) : option nat :=
  match s with
  | EmptyString => None
  | String c' s' =>
      match rfind_char c s' with
      | Some i => Some (S i)
      | None => if Ascii.eqb c' c then Some O else None
      end
  end.

(** Lines 168-186: the list of products inside the response text. *)
Definition batch_of_content (content : string) : outcome json :=
  match json_loads content with
  | Ok parsed_content =>
      match parsed_content with
      | JObj members =>
          match lookup "products" members with
          | Some products => Ok products
          | None =>
              match members with
              | [(_, only)] => Ok only
              | _ => Raise (ValueError "Unexpected JSON structure")
              end
          end
      | JArr _ => Ok parsed_content
      | _ => Raise (ValueError "Unexpected JSON structure")
      end
  | Raise (JSONDecodeError msg) =>
      match find_char "[" content, rfind_char "]" content with
      | Some first, Some last =>
          json_loads (substring first (S last - first) content)
      | _, _ => Raise (JSONDecodeError msg)
      end
  | Raise e => Raise e
  end.

(** [enumerate(batch_products)]: what iterating the value yields. *)
Definition iterate (batch_products : json) : outcome (list json) :=
  match batch_products with
  | JArr items => Ok items
  | JObj members => Ok (map (fun kv => JStr (fst kv)) members)
  | JStr text => Ok (map (fun c => JStr (String c EmptyString)) (list_ascii_of_string text))
  | _ => Raise (TypeError "object is not iterable")
  end.

(** [key in product] *)
Definition has_key (key : string) (product : json) : outcome bool :=
  match product with
  | JObj members =>
      Ok (match lookup key members with Some _ => true | None => false end)
  | JStr text => Ok (contains key text)
  | JArr items =>
      Ok (existsb (fun x => match x with JStr t => String.eqb t key | _ => false end) items)
  | _ => Raise (TypeError "argument is not iterable")
  end.

(** [all(key in product for key in keys)] *)
Fixpoint has_keys (keys : list string) (product : json) : outcome bool :=
  match keys with
  | [] => Ok true
  | key :: rest =>
      present <- has_key key product ;;
      if present then has_keys rest product else Ok false
  end.

(** Lines 190-194: the products that have every key, given the
    category and the id [start_id + i] of their position [i]. *)
Fixpoint valid_products (category : string) (start_id : Z) (i : Z)
         (batch_products : list json) : outcome (list dict) :=
  match batch_products with
  | [] => Ok []
  | product :: rest =>
      valid <- has_keys required_keys product ;;
      if valid then
        match product with
        | JObj members =>
            let product := store "product_id" (JInt (start_id + i))
                             (store "category" (JStr category) members) in
            products <- valid_products category start_id (i + 1) rest ;;
            Ok (product :: products)
        | _ => Raise (TypeError "object does not support item assignment")
        end
      else valid_products category start_id (i + 1) rest
  end.

(** [generate_base_products_batch] *)
Definition generate_base_products_batch (category : string) (batch_size : nat)
           (start_id : Z) (s : state) : list dict * state :=
  let (response, s) := chat_completion category batch_size s in
  match (content <- response ;;
         batch_products <- batch_of_content content ;;
         items <- iterate batch_products ;;
         valid <- valid_products category start_id 0 items ;;
         Ok (firstn batch_size valid)) with
  | Ok products => (products, s)
  | Raise _ => generate_fallback_batch category batch_size start_id s
  end.

(** *** [create_similar_product] *)

(** A JSON number as a float; [TypeError] for what cannot be
    multiplied by a float. *)
Definition number (v : json) : outcome pyfloat :=
  match v with
  | JInt n => Ok (Fin (inject_Z n))
  | JFloat x => Ok x
  | JBool b => Ok (Fin (if b then 1 else 0)%Q)
  | _ => Raise (TypeError "unsupported operand type(s) for *")
  end.

(** A JSON string; [AttributeError] for a value without the methods of
    [str]. *)
Definition text_of (v : json) : outcome string :=
  match v with
  | JStr t => Ok t
  | _ => Raise (AttributeError "object has no attribute")
  end.

Definition brand_variants (current_brand : string) : option (list string) :=
  if String.eqb current_brand "Whole Foods" then
    Some ["365 Everyday Value"; "Whole Foods Market"]
  else if String.eqb current_brand "Great Value" then Some ["Walmart"; "Equate"]
  else if String.eqb current_brand "Kroger" then
    Some ["Simple Truth"; "Private Selection"]
  else if String.eqb current_brand "Target" then Some ["Good & Gather"; "Market Pantry"]
  else if String.eqb current_brand "Safeway" then Some ["O Organics"; "Signature Select"]
  else None.

Definition generic_brands : list string :=
  ["Store Brand"; "Value Brand"; "Premium Choice"; "Fresh Select"].

(** Lines 257-273 *)
Definition vary_brand (similar_product : dict) : gen dict :=
  current_brand <== pure (item similar_product "brand") ;;
  match current_brand with
  | JArr _ | JObj _ => throw (TypeError "unhashable type")
  | JStr name =>
      match brand_variants name with
      | Some variants =>
          brand <== choice "" variants ;;
          ret (store "brand" (JStr brand) similar_product)
      | None =>
          brand <== choice "" generic_brands ;;
          ret (store "brand" (JStr brand) similar_product)
      end
  | _ =>
      brand <== choice "" generic_brands ;;
      ret (store "brand" (JStr brand) similar_product)
  end.

(** [s.split()]: the words between runs of white space. *)
Fixpoint words_from (word : string) (s : string) : list string :=
  match s with
  | EmptyString => match word with EmptyString => [] | _ => [reverse word] end
  | String c s' =>
      if is_space c then
        match word with
        | EmptyString => words_from EmptyString s'
        | _ => reverse word :: words_from EmptyString s'
        end
      else words_from (String c word) s'
  end.

Definition words (s : string) : list string := words_from EmptyString s.

(** [' '.join(parts)] *)
Fixpoint join_with_space (parts : list string) : string :=
  match parts with
  | [] => EmptyString
  | [part] => part
  | part :: rest => (part ++ " " ++ join_with_space rest)%string
  end.

(** [s.replace('.', '')] *)
Fixpoint without_dots (s : string) : string :=
  match s with
  | EmptyString => EmptyString
  | String c s' => if Ascii.eqb c "." then without_dots s' else String c (without_dots s')
  end.

(** [s.isdigit()] on ASCII text *)
Fixpoint all_digits (s : string) : bool :=
  match s with
  | EmptyString => true
  | String c s' => match digit_of c with Some _ => all_digits s' | None => false end
  end.

Definition isdigit (s : string) : bool :=
  match s with
  | EmptyString => false
  | _ => all_digits s
  end.

(** The value of a run of digits, and the number of digits. *)
Fixpoint digits_number (acc : Z) (count : nat) (s : string) : Z * nat :=
  match s with
  | EmptyString => (acc, count)
  | String c s' =>
      match digit_of c with
      | Some d => digits_number (10 * acc + d) (S count) s'
      | None => (acc, count)
      end
  end.

(** [float(s)] for text made of digits and dots with at least one
    digit: [ValueError] when there is more than one dot. *)
Definition float_of_digits_and_dots (s : string) : outcome Q :=
  match split_on "." s with
  | [whole] => Ok (inject_Z (fst (digits_number 0 0 whole)))
  | [whole; fraction] =>
      let (num, count) := digits_number 0 0 fraction in
      Ok (inject_Z (fst (digits_number 0 0 whole))
          + inject_Z num / inject_Z (10 ^ Z.of_nat count))%Q
  | _ => Raise (ValueError "could not convert string to float")
  end.

(** Lines 276-292 *)
Definition vary_size (similar_product : dict) : gen dict :=
  current_size <== pure (item similar_product "size") ;;
  unit <== pure (item similar_product "unit") ;;
  size_text <== pure (text_of current_size) ;;
  match words size_text with
  | first :: others =>
      if isdigit (without_dots first) then
        current_amount <== pure (float_of_digits_and_dots first) ;;
        variation_factor <== random_uniform 0.8 1.5 ;;
        let new_amount := py_round (current_amount * variation_factor) 1 in
        if Qltb 0.1 new_amount then
          ret (store "size"
                     (JStr (float_text new_amount ++ " " ++ join_with_space others)%string)
                     similar_product)
        else ret similar_product
      else ret similar_product
  | [] => ret similar_product
  end.

(** [max(0.99, x)] *)
Definition at_least_099 (x : pyfloat) : pyfloat :=
  match x with
  | Fin q => if Qltb 0.99 q then Fin q else Fin 0.99
  | NaN => Fin 0.99
  end.

(** Lines 295-300 *)
Definition vary_price (similar_product : dict) : gen dict :=
  current_price <== pure (item similar_product "price_per_unit") ;;
  price_variation <== random_uniform 0.7 1.3 ;;
  price <== pure (number current_price) ;;
  let new_price := match price with
                   | Fin q => Fin (py_round (q * price_variation) 2)
                   | NaN => NaN
                   end in
  ret (store "price_per_unit" (JFloat (at_least_099 new_price)) similar_product).

Definition name_modifiers : list string :=
  ["Premium"; "Organic"; "Natural"; "Fresh"; "Classic"; "Original"; "Extra"].

(** Lines 303-311 *)
Definition vary_name (similar_product : dict) : gen dict :=
  current_name <== pure (item similar_product "product_name") ;;
  modifier <== choice "" name_modifiers ;;
  name <== pure (text_of current_name) ;;
  if contains (lower modifier) (lower name) then ret similar_product
  else ret (store "product_name" (JStr (modifier ++ " " ++ name)%string) similar_product).

(** [if random.random() < p: ...] *)
Definition with_chance (p : Q) (change : dict -> gen dict) (d : dict) : gen dict :=
  u <== draw random_random ;;
  if Qltb u p then change d else ret d.

(** [create_similar_product] *)
Definition create_similar_product (base_product : dict) (new_id : Z) : gen dict :=
  let similar_product := store "product_id" (JInt new_id) base_product in
  similar_product <== with_chance 0.7 vary_brand similar_product ;;
  similar_product <== with_chance 0.6 vary_size similar_product ;;
  similar_product <== with_chance 0.8 vary_price similar_product ;;
  with_chance 0.3 vary_name similar_product.

(** *** [generate_similar_products] *)

(** A dictionary from product ids to lists of product ids. *)
Definition id_map : Type := list (Z * list Z).

(** [m[key] = ids] *)
Fixpoint map_store (key : Z) (ids : list Z) (m : id_map) : id_map :=
  match m with
  | [] => [(key, ids)]
  | (k, old) :: m' =>
      if k =? key then (k, ids) :: m' else (k, old) :: map_store key ids m'
  end.

(** [m.update(other)] *)
Definition map_update (m other : id_map) : id_map :=
  fold_left (fun acc kv => map_store (fst kv) (snd kv) acc) other m.

(** [max(1, int(n * pct))] *)
Definition share (n : nat) (pct : Q) : nat :=
  Nat.max 1 (Z.to_nat (Qfloor (inject_Z (Z.of_nat n) * pct))).

(** The inner loop [for _ in range(num_variants)]. *)
Fixpoint variants (base_product : dict) (current_id : Z) (num_variants : nat)
  : gen (list dict) :=
  match num_variants with
  | O => ret []
  | S n =>
      similar_product <== create_similar_product base_product current_id ;;
      others <== variants base_product (current_id + 1) n ;;
      ret (similar_product :: others)
  end.

(** [base_product['product_id']] used as a key of the map *)
Definition id_of (product : dict) : outcome Z :=
  v <- item product "product_id" ;;
  match v with
  | JInt n => Ok n
  | _ => Raise (TypeError "product_id is not an int")
  end.

(** The loop over the products that get variants. *)
Fixpoint variants_of_all (products_getting_variants : list dict) (current_id : Z)
         (substitution_map : id_map) : gen (list dict * id_map) :=
  match products_getting_variants with
  | [] => ret ([], substitution_map)
  | base_product :: rest =>
      num_variants <== choice 1%nat [1%nat; 2%nat] ;;
      similar <== variants base_product current_id num_variants ;;
      base_id <== pure (id_of base_product) ;;
      let variant_ids := map (fun k => current_id + Z.of_nat k) (seq 0 num_variants) in
      more <== variants_of_all rest (current_id + Z.of_nat num_variants)
                               (map_store base_id variant_ids substitution_map) ;;
      ret (similar ++ fst more, snd more)
  end.

(** [generate_similar_products] *)
Definition generate_similar_products (base_products : list dict) (start_id : Z)
           (similar_batch_pct similar_subset_pct : Q) : gen (list dict * id_map) :=
  match base_products with
  | [] => ret ([], [])
  | _ :: _ =>
      let batch_selection_count := share (List.length base_products) similar_batch_pct in
      selected_for_similarity <==
        sample base_products (Nat.min batch_selection_count (List.length base_products)) ;;
      let variant_count := share (List.length selected_for_similarity) similar_subset_pct in
      products_getting_variants <==
        sample selected_for_similarity
               (Nat.min variant_count (List.length selected_for_similarity)) ;;
      variants_of_all products_getting_variants start_id []
  end.

(** *** [generate_products_via_api] *)

Definition categories : list string :=
  ["Produce"; "Dairy"; "Bakery"; "Meat & Seafood"; "Pantry Staples"; "Snacks";
   "Beverages"; "Household"].

(** What the loops of [generate_products_via_api] carry along. *)
Record progress : Type := {
  category_products : list dict;
  substitution_map : id_map;
  product_id_counter : Z
}.

(** Lines 63-105: one turn of the loop over the batches of a category;
    [None] stands for the [break]. *)
Definition batch_step (category : string) (products_per_category batch_size : nat)
           (similar_batch_pct similar_subset_pct : Q) (p : progress) (s : state)
  : option progress * state :=
  let remaining_in_category := (products_per_category - List.length (category_products p))%nat in
  let current_batch_size := Nat.min batch_size remaining_in_category in
  match current_batch_size with
  | O => (None, s)
  | S _ =>
      let (base_products, s) :=
        generate_base_products_batch category current_batch_size (product_id_counter p) s in
      match base_products with
      | [] => (Some p, s)
      | _ :: _ =>
          let p := {| category_products := category_products p ++ base_products;
                      substitution_map := substitution_map p;
                      product_id_counter :=
                        product_id_counter p + Z.of_nat (List.length base_products) |} in
          match generate_similar_products base_products (product_id_counter p)
                                          similar_batch_pct similar_subset_pct s with
          | (Ok (similar_products, new_substitution_map), s) =>
              match similar_products with
              | [] => (Some p, s)
              | _ :: _ =>
                  (Some {| category_products := category_products p ++ similar_products;
                           substitution_map :=
                             map_update (substitution_map p) new_substitution_map;
                           product_id_counter :=
                             product_id_counter p
                             + Z.of_nat (List.length similar_products) |}, s)
              end
          | (Raise _, s) =>
              let (fallback_products, s) :=
                generate_fallback_batch category current_batch_size
                                        (product_id_counter p) s in
              (Some {| category_products := category_products p ++ fallback_products;
                       substitution_map := substitution_map p;
                       product_id_counter :=
                         product_id_counter p
                         + Z.of_nat (List.length fallback_products) |}, s)
          end
      end
  end.

(** The loop [for batch_start in range(0, products_per_category,
    batch_size)], with [turns] turns left. *)
Fixpoint batches (category : string) (products_per_category batch_size : nat)
         (similar_batch_pct similar_subset_pct : Q) (turns : nat) (p : progress)
         (s : state) : progress * state :=
  match turns with
  | O => (p, s)
  | S turns' =>
      match batch_step category products_per_category batch_size
                       similar_batch_pct similar_subset_pct p s with
      | (None, s) => (p, s)
      | (Some p, s) =>
          batches category products_per_category batch_size
                  similar_batch_pct similar_subset_pct turns' p s
      end
  end.

(** [len(range(0, n, step))] for a positive step *)
Definition range_length (n step : nat) : nat := ((n + step - 1) / step)%nat.

(** The loop over the categories. *)
Fixpoint all_categories (cats : list string) (products_per_category batch_size : nat)
         (similar_batch_pct similar_subset_pct : Q) (all_products : list dict)
         (substitutions : id_map) (counter : Z) (s : state)
  : (list dict * id_map) * state :=
  match cats with
  | [] => ((all_products, substitutions), s)
  | category :: rest =>
      let (p, s) :=
        batches category products_per_category batch_size
                similar_batch_pct similar_subset_pct
                (range_length products_per_category batch_size)
                {| category_products := []; substitution_map := substitutions;
                   product_id_counter := counter |} s in
      all_categories rest products_per_category batch_size
                     similar_batch_pct similar_subset_pct
                     (all_products ++ category_products p)
                     (substitution_map p) (product_id_counter p) s
  end.

(** [generate_products_via_api], for a batch size that is not zero:
    the rows of the returned frame and [SUBSTITUTION_MAP]. *)
Definition generate_products_via_api (products_per_category batch_size : nat)
           (similar_batch_pct similar_subset_pct : Q) (s : state)
  : (list dict * id_map) * state :=
  all_categories categories products_per_category batch_size
                 similar_batch_pct similar_subset_pct [] [] 1 s.

(** The [product_id] column of the products. *)
Definition product_ids (products : list dict) : list (option json) :=
  map (lookup "product_id") products.

(** *** [generate_order_items] *)

(** [random.randint(a, b)] *)
Definition randint (a b : Z) (s : state) : Z * state :=
  let (i, s') := random_choice_index (Z.to_nat (b - a + 1)) s in
  (a + Z.of_nat i, s').

(** Lines 563-568: the dictionary appended for one item. *)
Definition order_item (order_id product_id quantity : Z) (was_substituted : bool)
  : list (string * value) :=
  [("order_id", VInt order_id);
   ("product_id", VInt product_id);
   ("quantity", VInt quantity);
   ("was_substituted", VBool was_substituted)].

(** [products_df[products_df['product_id'] == product_id].iloc[0]] *)
Fixpoint product_info (products : list dict) (pid : Z) : outcome dict :=
  match products with
  | [] => Raise (IndexError "single positional indexer is out-of-bounds")
  | product :: rest =>
      match lookup "product_id" product with
      | Some (JInt n) => if n =? pid then Ok product else product_info rest pid
      | _ => product_info rest pid
      end
  end.

(** [m.get(key)] on the substitution map *)
Fixpoint substitutes (m : id_map) (pid : Z) : list Z :=
  match m with
  | [] => []
  | (k, ids) :: m' => if k =? pid then ids else substitutes m' pid
  end.

(** Lines 541-568: the item of one selected product. *)
Definition item_of (products : list dict) (substitutions : id_map)
           (order_id household_size pid : Z) : gen (list (string * value)) :=
  base_quantity <==
    (if household_size >? 2 then
       u <== draw random_random ;;
       if Qltb u 0.4 then draw (randint 2 household_size) else ret 1
     else ret 1) ;;
  info <== pure (product_info products pid) ;;
  category <== pure (item info "category") ;;
  base_quantity <==
    (match category with
     | JStr c =>
         if String.eqb c "Produce" || String.eqb c "Snacks" then
           u <== draw random_random ;;
           if Qltb u 0.3 then
             extra <== draw (randint 1 2) ;; ret (base_quantity + extra)
           else ret base_quantity
         else ret base_quantity
     | _ => ret base_quantity
     end) ;;
  u <== draw random_random ;;
  if Qltb u 0.05 then
    match substitutes substitutions pid with
    | [] => ret (order_item order_id pid base_quantity true)
    | candidates =>
        substitute_id <== choice 0 candidates ;;
        ret (order_item order_id substitute_id base_quantity true)
    end
  else ret (order_item order_id pid base_quantity false).

(** The loop [for product_id in selected_products]. *)
Fixpoint items_of_basket (products : list dict) (substitutions : id_map)
         (order_id household_size : Z) (selected_products : list Z)
  : gen (list (list (string * value))) :=
  match selected_products with
  | [] => ret []
  | pid :: rest =>
      first <== item_of products substitutions order_id household_size pid ;;
      others <== items_of_basket products substitutions order_id household_size rest ;;
      ret (first :: others)
  end.

(** One order as the inner loop sees it: its id, the household size of
    its user, and the basket lines 506-537 selected for it. *)
Record basket : Type := {
  basket_order_id : Z;
  basket_household_size : Z;
  selected_products : list Z
}.

(** The loop over the orders, the selection of each basket taken as
    given. *)
Fixpoint items_of_orders (products : list dict) (substitutions : id_map)
         (baskets : list basket) : gen (list (list (string * value))) :=
  match baskets with
  | [] => ret []
  | b :: rest =>
      first <== items_of_basket products substitutions (basket_order_id b)
                                (basket_household_size b) (selected_products b) ;;
      others <== items_of_orders products substitutions rest ;;
      ret (first ++ others)
  end.

(** [generate_order_items]: the frame [pd.DataFrame(order_items)]. *)
Definition generate_order_items (products : list dict) (substitutions : id_map)
           (baskets : list basket) : gen DataFrame :=
  order_items <== items_of_orders products substitutions baskets ;;
  ret (frame_of_records order_items).

End Generate.

End Generator.
(** ** [grocery_dataset_generator.py]: the fallback catalogue, users and orders *)

Module Tables.

(** A row of the orders table. *)
Record Order : Type := {
  order_id : Z;
  order_user_id : Z;
  order_timestamp : datetime;
  delivery_method : string;
  delivery_time_window : string
}.

(** [t.weekday()]: Monday is 0.  Day 1 of the ordinal count, the first
    of January of the year 1, is a Monday. *)
Definition weekday (t : datetime) : Z := (dt_day t + 6) mod 7.

(** [day_mapping[day]] *)
Definition day_mapping (day : string) : outcome Z :=
  if String.eqb day "Monday" then Ok 0
  else if String.eqb day "Tuesday" then Ok 1
  else if String.eqb day "Wednesday" then Ok 2
  else if String.eqb day "Thursday" then Ok 3
  else if String.eqb day "Friday" then Ok 4
  else if String.eqb day "Saturday" then Ok 5
  else if String.eqb day "Sunday" then Ok 6
  else Raise (KeyError day).

Definition dietary_preferences : list string :=
  ["none"; "vegetarian"; "gluten-free"; "vegan"].

Definition shopping_days : list string := ["Saturday"; "Sunday"; "Monday"; "Wednesday"].

Definition delivery_methods : list string := ["pickup"; "delivery"].

Definition time_windows : list string := ["9am-11am"; "11am-1pm"; "3pm-5pm"; "5pm-7pm"].

(** [users_df[users_df['user_id'] == user_id].iloc[0]] *)
Fixpoint user_row (users : list User) (uid : Z) : outcome User :=
  match users with
  | [] => Raise (IndexError "single positional indexer is out-of-bounds")
  | user :: rest => if user_id user =? uid then Ok user else user_row rest uid
  end.

Section Generate.

Context {W : Generator.World}.

(** [datetime.now()] at line 414, and [fake.date_time_between] for a
    start and an end date. *)
Variable now : datetime.
Variable date_time_between :
  datetime -> datetime -> Generator.state -> datetime * Generator.state.

Notation "x <== m ;; k" := (Generator.and_then m (fun x => k))
  (at level 61, m at next level, right associativity).

(** *** [generate_fallback_products] *)

(** The loop over the categories; [product_id] is the id the next
    batch starts with. *)
Fixpoint fallback_catalogue (cats : list string) (products_per_category : nat)
         (product_id : Z) (s : Generator.state) : list Generator.dict * Generator.state :=
  match cats with
  | [] => ([], s)
  | category :: rest =>
      let (category_products, s) :=
        Generator.generate_fallback_batch category products_per_category product_id s in
      let (others, s) :=
        fallback_catalogue rest products_per_category
                           (product_id + Z.of_nat products_per_category) s in
      (category_products ++ others, s)
  end.

(** [generate_fallback_products], for a count that is not negative:
    the rows of the returned frame. *)
Definition generate_fallback_products (products_per_category : nat) (s : Generator.state)
  : list Generator.dict * Generator.state :=
  fallback_catalogue Generator.categories products_per_category 1 s.

(** *** [generate_users] *)

(** The dictionary appended for the user [i]; its values are drawn in
    the order of the keys. *)
Definition new_user (i : Z) (s : Generator.state) : User * Generator.state :=
  let (size, s) := Generator.randint 1 5 s in
  let (preference, s) := Generator.pick dietary_preferences s in
  let (day, s) := Generator.pick shopping_days s in
  ({| user_id := i; household_size := size; dietary_preference := preference;
      primary_shopping_day := day |}, s).

(** The loop [for i in range(...)] from [i] on, [count] turns. *)
Fixpoint users_from (i : Z) (count : nat) (s : Generator.state)
  : list User * Generator.state :=
  match count with
  | O => ([], s)
  | S count' =>
      let (user, s) := new_user i s in
      let (users, s) := users_from (i + 1) count' s in
      (user :: users, s)
  end.

(** [generate_users]: the rows of the returned frame. *)
Definition generate_users (s : Generator.state) : list User * Generator.state :=
  users_from 1 100 s.

(** *** [generate_orders] *)

(** Lines 414-415 *)
Definition end_date : datetime := now.

Definition start_date : datetime := plus_days end_date (- 730).

(** Lines 424-434: the timestamp of an order. *)
Definition target_date (preferred_weekday : Z) : Generator.gen datetime :=
  u <== Generator.draw Generator.random_random ;;
  if Qltb u 0.7 then
    random_date <== Generator.draw (date_time_between start_date end_date) ;;
    let days_ahead := (preferred_weekday - weekday random_date) mod 7 in
    if days_ahead =? 0 then Generator.ret random_date
    else Generator.ret (plus_days random_date days_ahead)
  else Generator.draw (date_time_between start_date end_date).

(** The body of the loop for one order id. *)
Definition new_order (users : list User) (oid : Z) : Generator.gen Order :=
  uid <== Generator.draw (Generator.randint 1 100) ;;
  user <== Generator.pure (user_row users uid) ;;
  let preferred_day := primary_shopping_day user in
  preferred_weekday <== Generator.pure (day_mapping preferred_day) ;;
  date <== target_date preferred_weekday ;;
  method <== Generator.choice "" delivery_methods ;;
  window <== Generator.choice "" time_windows ;;
  Generator.ret {| order_id := oid; order_user_id := uid; order_timestamp := date;
                   delivery_method := method; delivery_time_window := window |}.

(** The loop [for order_id in range(...)] from [oid] on, [count]
    turns. *)
Fixpoint orders_from (users : list User) (oid : Z) (count : nat)
  : Generator.gen (list Order) :=
  match count with
  | O => Generator.ret []
  | S count' =>
      order <== new_order users oid ;;
      orders <== orders_from users (oid + 1) count' ;;
      Generator.ret (order :: orders)
  end.

(** [generate_orders]: the rows of the returned frame. *)
Definition generate_orders (users : list User) : Generator.gen (list Order) :=
  orders_from users 1 2000.

End Generate.

End Tables.


(** * Sample data

    Small inputs on which the model is run: two products, one user, and
    stand-ins for the SDK and the file system. *)

Module Sample.

Definition apples : Product := {|
  product_id := 5; product_name := "Honeycrisp Apples"; brand := "Local Farm";
  category := "Produce"; size := "3 lb"; unit := "lb"; price_per_unit := Fin 4.99
|}.

Definition milk : Product := {|
  product_id := 7; product_name := "Whole Milk"; brand := "Horizon";
  category := "Dairy"; size := "1 gallon"; unit := "gallon";
  price_per_unit := Fin 12.50
|}.

Definition products : list Product := [apples; milk].

Definition user : User := {|
  user_id := 1; household_size := 3; dietary_preference := "vegetarian";
  primary_shopping_day := "Saturday"
|}.

(** The order items as the dataset generator writes them. *)
Definition order_items : DataFrame := {|
  columns := ["order_id"; "product_id"; "quantity"; "was_substituted"];
  rows := [[VInt 1; VInt 5; VInt 2; VBool false];
           [VInt 1; VInt 7; VInt 1; VBool true];
           [VInt 2; VInt 5; VInt 1; VBool true]]
|}.

Definition orders : DataFrame := {|
  columns := ["order_id"; "user_id"; "order_timestamp"; "delivery_method";
              "delivery_time_window"];
  rows := [[VInt 1; VInt 1; VStr "2025-01-04 10:00:00"; VStr "pickup"; VStr "9am-11am"];
           [VInt 2; VInt 1; VStr "2025-01-11 10:00:00"; VStr "delivery"; VStr "3pm-5pm"]]
|}.

(** Twelve o'clock on day 739000. *)
Definition noon : datetime :=
  {| dt_day := 739000; dt_hour := 12; dt_minute := 0; dt_rest := ":00" |}.

Definition price_le (ascending : bool) (a b : Product) : bool :=
  match price_per_unit a, price_per_unit b with
  | Fin x, Fin y => if ascending then Qle_bool x y else Qle_bool y x
  | _, NaN => true
  | NaN, Fin _ => false
  end.

Fixpoint insert_by_price (ascending : bool) (p : Product) (l : list Product)
  : list Product :=
  match l with
  | [] => [p]
  | q :: l' =>
      if price_le ascending p q then p :: l
      else q :: insert_by_price ascending p l'
  end.

(** An insertion sort by price, missing prices last. *)
Definition sample_sort (ascending : bool) (l : list Product) : list Product :=
  fold_right (insert_by_price ascending) [] l.

(** The two id lists the sample command lines use. *)
Definition sample_json_loads_ids (s : string) : outcome (list Z) :=
  if String.eqb s "[5, 7]" then Ok [5; 7]
  else if String.eqb s "[5, 5]" then Ok [5; 5]
  else Raise (JSONDecodeError "Expecting value").

(** A model whose every prediction fails. *)
Definition failing_model : Model :=
  fun _ => Raise (ExternalError "connection refused").

(** A model whose quantity forecast fails and whose rankings answer
    with product 7. *)
Definition quantity_fails : Model :=
  fun query =>
    if prefix "PREDICT SUM" query then Raise (ExternalError "timed out")
    else Ok (Some {| columns := ["CLASS"]; rows := [[VInt 7]] |}).

(** A model that ranks the given ids, whatever the query. *)
Definition ranking_model (ids : list Z) : Model :=
  fun _ => Ok (Some {| columns := ["CLASS"]; rows := map (fun n => [VInt n]) ids |}).

(** The data directory holds the four files; the SDK is installed and
    hands out the model [m]. *)
Definition online (m : Model) : Env := {|
  KUMO_AVAILABLE := true;
  rfm_init := Ok tt;
  read_users := Ok [user];
  read_products := Ok products;
  read_orders := Ok orders;
  read_order_items := Ok order_items;
  with_days_since_today := fun df => Ok df;
  merge := fun _ right => Ok right;
  mean_quantities := fun _ => Ok [(5, 2); (7, 1)];
  rfm_model := fun _ _ _ _ => Ok m;
  sort_by_price := sample_sort;
  now := fun _ => noon;
  known_timezone := fun name => String.eqb name "Europe/Paris";
  isoformat := fun t => ("day " ++ str_of_Z (dt_day t) ++ "T" ++ str_of_Z (dt_hour t)
                         ++ ":" ++ str_of_Z (dt_minute t))%string;
  str_of_float := fun _ => "0.0";
  json_loads_ids := sample_json_loads_ids
|}.

(** The same data directory without the SDK. *)
Definition offline : Env := {|
  KUMO_AVAILABLE := false;
  rfm_init := Raise (ExternalError "not installed");
  read_users := Ok [user];
  read_products := Ok products;
  read_orders := Ok orders;
  read_order_items := Ok order_items;
  with_days_since_today := fun df => Ok df;
  merge := fun _ right => Ok right;
  mean_quantities := fun _ => Ok [(5, 2); (7, 1)];
  rfm_model := fun _ _ _ _ => Raise (ExternalError "not installed");
  sort_by_price := sample_sort;
  now := fun _ => noon;
  known_timezone := fun name => String.eqb name "Europe/Paris";
  isoformat := fun t => ("day " ++ str_of_Z (dt_day t) ++ "T" ++ str_of_Z (dt_hour t)
                         ++ ":" ++ str_of_Z (dt_minute t))%string;
  str_of_float := fun _ => "0.0";
  json_loads_ids := sample_json_loads_ids
|}.


Definition ranker (m : option Model) : Ingredients.PersonalizedIngredientRanker := {|
  Ingredients.model := m;
  Ingredients.users_df := Some [user];
  Ingredients.products_df := Some products;
  Ingredients.orders_df := Some orders;
  Ingredients.order_items_df := Some order_items
|}.

Definition predictor (m : option Model) : Predictions.SmartGrocerPredictor := {|
  Predictions.model := m;
  Predictions.users_df := Some [user];
  Predictions.products_df := Some products;
  Predictions.orders_df := Some orders;
  Predictions.order_items_df := Some order_items;
  Predictions.order_items_join := Some order_items;
  Predictions.avg_quantities := [(5, 2); (7, 1)]
|}.


(** *** A world for the dataset generator *)

(** A double quote, and text between double quotes. *)
Definition dq : string := String (ascii_of_nat 34) EmptyString.

Definition quoted (s : string) : string := (dq ++ s ++ dq)%string.

(** A response in which the first product lacks most keys:
    {"products": [{"product_name": "Kale"},
                  {"product_name": "Apples", "brand": "Local Farm",
                   "size": "1 lb", "unit": "lb", "price_per_unit": 1.99}]} *)
Definition response_text : string :=
  ("{" ++ quoted "products" ++ ": [{" ++ quoted "product_name" ++ ": " ++ quoted "Kale"
   ++ "}, {" ++ quoted "product_name" ++ ": " ++ quoted "Apples" ++ ", "
   ++ quoted "brand" ++ ": " ++ quoted "Local Farm" ++ ", "
   ++ quoted "size" ++ ": " ++ quoted "1 lb" ++ ", "
   ++ quoted "unit" ++ ": " ++ quoted "lb" ++ ", "
   ++ quoted "price_per_unit" ++ ": 1.99}]}")%string.

(** What [json.loads] makes of [response_text]. *)
Definition response_document : json :=
  JObj [("products",
         JArr [JObj [("product_name", JStr "Kale")];
               JObj [("product_name", JStr "Apples"); ("brand", JStr "Local Farm");
                     ("size", JStr "1 lb"); ("unit", JStr "lb");
                     ("price_per_unit", JFloat (Fin 1.99))]])].

(** The state of the sample world: the state of the generator [lcg]
    and the number of calls made to the completion API. *)
Definition sample_state : Type := (Z * nat)%type.

(** The API answers the first call with [response_text] and refuses
    every later call; [random.sample] takes the first elements;
    [random.choice] and [random.random] follow [lcg]. *)
Definition sample_world : Generator.World := {|
  Generator.state := sample_state;
  Generator.random_random :=
    fun s => ((lcg_next (fst s) # 2147483648)%Q, (lcg_next (fst s), snd s));
  Generator.random_choice_index :=
    fun n s => (Z.to_nat (lcg_next (fst s) mod Z.of_nat (Nat.max n 1)),
                (lcg_next (fst s), snd s));
  Generator.random_sample_indices := fun n k s => (seq 0 (Nat.min k n), s);
  Generator.fake_word_title := fun s => ("Word", s);
  Generator.chat_completion :=
    fun _ _ s =>
      (match snd s with
       | O => Ok response_text
       | S _ => Raise (ExternalError "rate limit exceeded")
       end, (fst s, S (snd s)));
  Generator.json_loads :=
    fun text => if String.eqb text response_text then Ok response_document
                else Raise (JSONDecodeError "Expecting value");
  Generator.float_text := fun _ => "1.0"
|}.

(** A world whose API never answers. *)
Definition silent_world : Generator.World := {|
  Generator.state := sample_state;
  Generator.random_random := @Generator.random_random sample_world;
  Generator.random_choice_index := @Generator.random_choice_index sample_world;
  Generator.random_sample_indices := @Generator.random_sample_indices sample_world;
  Generator.fake_word_title := @Generator.fake_word_title sample_world;
  Generator.chat_completion :=
    fun _ _ s => (Raise (ExternalError "connection refused"), s);
  Generator.json_loads := @Generator.json_loads sample_world;
  Generator.float_text := @Generator.float_text sample_world
|}.

End Sample.

(** * Specification predicates *)

(** A rate with three decimals between [lo]/1000 and [hi]/1000. *)
Definition rate_in_thousandths (lo hi : Z) (r : Q) : Prop :=
  exists k : Z, r = (inject_Z k / inject_Z 1000)%Q /\ lo <= k <= hi.

(** The products table has a row for this id. *)
Definition in_table (products : list Product) (pid : Z) : bool :=
  match products_with_id products pid with
  | [] => false
  | _ :: _ => true
  end.

(** The ids of a list paired with their positions, counted from
    [i + 1]: what [enumerate] yields, shifted to 1-based ranks. *)
Fixpoint positions_from (i : Z) (ids : list Z) : list (Z * Z) :=
  match ids with
  | [] => []
  | pid :: rest => (pid, i + 1) :: positions_from (i + 1) rest
  end.

(** The product id and the rank of an entry of a ranking. *)
Definition id_and_rank (r : Ingredients.Ranked) : Z * Z :=
  (Ingredients.ranked_product_id r, Ingredients.kumo_rank r).

(** [pid in ids] *)
Definition mem (pid : Z) (ids : list Z) : bool := existsb (Z.eqb pid) ids.

(** The model call for this query raises. *)
Definition call_fails (m : Model) (query : string) : Prop :=
  exists e, m query = Raise e.



(** [r] is an exception. *)
Definition raises {A : Type} (r : outcome A) : bool :=
  match r with
  | Ok _ => false
  | Raise _ => true
  end.

(** Reading one of the four CSV files fails, or the age of the orders
    cannot be computed from their timestamps. *)
Definition reading_fails (E : Env) : bool :=
  raises (read_users E) || raises (read_products E) || raises (read_orders E)
  || raises (read_order_items E)
  || raises (orders <- read_orders E ;; with_days_since_today E orders).


(** Loading fails in [kumo_personalized_ingredients.py]. *)
Definition ingredients_loading_fails (E : Env) : bool := reading_fails E.

(** The predictor [main] hands to the requested prediction: the one
    left by [__init__], [load_csv_data] and [create_kumo_graph]. *)
Definition predictions_ready (E : Env) : Predictions.SmartGrocerPredictor :=
  fst (snd (Predictions.create_kumo_graph
              E (fst (snd (Predictions.load_csv_data E (snd (Predictions.init E))))))).

(** An exception leaves the cart or recommendations prediction the
    command line asks for: nothing in [main] catches it. *)
Definition prediction_escapes (E : Env) (argv : list string) : bool :=
  match Predictions.user_arguments argv with
  | Ok (Some (uid, num_items)) =>
      if String.eqb (arg argv 1) "cart" then
        raises (snd (Predictions.predict_cart_items E (predictions_ready E) uid num_items))
      else if String.eqb (arg argv 1) "recommendations" then
        raises (snd (Predictions.predict_recommendations
                       E (predictions_ready E) uid num_items))
      else false
  | _ => false
  end.

(** The ranker [main] hands to [rank_products_for_user]. *)
Definition ingredients_ready (E : Env) (product_ids : list Z)
  : Ingredients.PersonalizedIngredientRanker :=
  fst (snd (Ingredients.create_personalized_kumo_graph
              E (fst (snd (Ingredients.load_csv_data E (snd (Ingredients.init E)))))
              product_ids)).

(** An exception leaves the ranking the command line asks for. *)
Definition ranking_escapes (E : Env) (argv : list string) : bool :=
  match Ingredients.arguments E argv with
  | Ok (product_ids, uid) =>
      raises (snd (Ingredients.rank_products_for_user
                     E (ingredients_ready E product_ids) product_ids uid))
  | Raise _ => false
  end.


(** The ids [start_id], [start_id + 1], ... of a batch, as the cells of
    the [product_id] column hold them. *)
Definition consecutive_ids (start_id : Z) (count : nat) : list (option json) :=
  map (fun i => Some (JInt (start_id + Z.of_nat i))) (seq 0 count).

(** The columns of the frame the generator builds from its order
    items. *)
Definition order_item_columns : list string :=
  ["order_id"; "product_id"; "quantity"; "was_substituted"].

(** A dictionary built at lines 563-568. *)
Definition is_order_item (record : list (string * value)) : Prop :=
  exists order_id pid quantity was_substituted,
    record = Generator.order_item order_id pid quantity was_substituted.


(** ** Further specification predicates *)

(** The number of [True] cells of a list of flags. *)
Definition count_true (flags : list bool) : nat :=
  List.length (filter (fun b => b) flags).

(** [d.get(key)] for a dictionary with [int] keys kept in insertion
    order. *)
Fixpoint assoc {V : Type} (key : Z) (d : list (Z * V)) : option V :=
  match d with
  | [] => None
  | (k, v) :: d' => if k =? key then Some v else assoc key d'
  end.

(** The event was written to standard error. *)
Definition on_stderr (e : event) : Prop := fst e = stderr.

(** What the run wrote to standard output. *)
Definition stdout_of (out : list event) : list text :=
  map snd (filter (fun e => match fst e with stdout => true | stderr => false end) out).

(** The prediction describes the first row the products table has for
    its id. *)
Definition describes_table_row (products : list Product) (p : Predictions.Prediction)
  : Prop :=
  exists product others,
    products_with_id products (Predictions.pred_product_id p) = product :: others
    /\ Predictions.pred_product_name p = product_name product
    /\ Predictions.pred_brand p = brand product
    /\ Predictions.pred_category p = category product
    /\ Predictions.pred_size p = size product
    /\ Predictions.pred_unit p = unit product
    /\ Predictions.pred_price_per_unit p = price_per_unit product.

(** The prediction copies a row of the products table. *)
Definition copies_a_row (products : list Product) (p : Predictions.Prediction) : Prop :=
  exists product,
    In product products
    /\ Predictions.pred_product_id p = product_id product
    /\ Predictions.pred_product_name p = product_name product
    /\ Predictions.pred_brand p = brand product
    /\ Predictions.pred_category p = category product
    /\ Predictions.pred_size p = size product
    /\ Predictions.pred_unit p = unit product
    /\ Predictions.pred_price_per_unit p = price_per_unit product.

Definition vegetarian (u : User) : bool := String.eqb (dietary_preference u) "vegetarian".

(** The hours at which the five default delivery windows start. *)
Definition default_start_hours : list Z := [9; 11; 13; 15; 17].

(** The half-hour rule of the delivery slots: the window that starts
    at [hour] is past at time [t]. *)
Definition window_is_past (t : datetime) (hour : Z) : Prop :=
  hour < dt_hour t \/ (hour = dt_hour t /\ 30 <= dt_minute t).

(** [t] moved by [days] days, at [hour] o'clock sharp. *)
Definition on_the_hour (t : datetime) (days hour : Z) : datetime :=
  {| dt_day := dt_day t + days; dt_hour := hour; dt_minute := 0; dt_rest := dt_rest t |}.

(** The slot was made from a row of the result frame: the row's window
    and the row's score (0.5 without a score column). *)
Definition made_from_row (E : Env) (result : DataFrame) (slot : Predictions.Slot) : Prop :=
  exists row,
    In row (rows result)
    /\ Predictions.time_window slot
       = py_str E (row_get result row "delivery_window" (VStr ""))
    /\ py_float (row_get result row "score" (VFloat 0.5)) = Ok (Predictions.score slot).

(** Both scores are numbers and [b] scores no more than [a]. *)
Definition scores_no_more (a b : Predictions.Slot) : Prop :=
  exists x y,
    Predictions.score a = Fin x /\ Predictions.score b = Fin y /\ (y <= x)%Q.

(** The slots come best first. *)
Fixpoint best_first (slots : list Predictions.Slot) : Prop :=
  match slots with
  | [] => True
  | a :: rest => Forall (scores_no_more a) rest /\ best_first rest
  end.

(** The row has a number for a score. *)
Definition has_a_score (result : DataFrame) (row : list value) : Prop :=
  exists q, py_float (row_get result row "score" (VFloat 0.5)) = Ok (Fin q).

(** What was written is a result (a JSON document or a float), not a
    message. *)
Definition is_result (t : text) : Prop :=
  match t with
  | Json _ | FloatText _ => True
  | Text _ => False
  end.

(** The columns [generate_products_via_api] selects from the frame of
    the products (line 114). *)
Definition product_columns : list string :=
  ["product_id"; "product_name"; "category"; "brand"; "size"; "unit"; "price_per_unit"].

(** The dictionary has a value for every column. *)
Definition has_columns (d : Generator.dict) : Prop :=
  Forall (fun key => Generator.lookup key d <> None) product_columns.

(** The cells are integers, each larger than the one before, the first
    at least [lo]. *)
Fixpoint increasing_from (lo : Z) (ids : list (option json)) : Prop :=
  match ids with
  | [] => True
  | Some (JInt n) :: rest => lo <= n /\ increasing_from (n + 1) rest
  | _ :: _ => False
  end.

(** [d'] has the values of [d] under every key outside [keys]. *)
Definition agree_except (keys : list string) (d d' : Generator.dict) : Prop :=
  forall key, ~ In key keys -> Generator.lookup key d' = Generator.lookup key d.

(** [d'] has a value under every key of [d], and the values of [d]
    under the keys outside [keys]. *)
Definition variant_of (keys : list string) (d d' : Generator.dict) : Prop :=
  agree_except keys d d'
  /\ forall key, Generator.lookup key d <> None -> Generator.lookup key d' <> None.

(** Whenever the generator code [m] returns, its result satisfies [P]. *)
Definition whenever {W : Generator.World} {A : Type}
           (m : Generator.gen A) (P : A -> Prop) : Prop :=
  forall s a s', m s = (Ok a, s') -> P a.

(** The generator code [m] returns in every state, and its result
    satisfies [P]. *)
Definition always {W : Generator.World} {A : Type}
           (m : Generator.gen A) (P : A -> Prop) : Prop :=
  forall s, exists a s', m s = (Ok a, s') /\ P a.

(** The keys of an id map, and all the ids among its values. *)
Definition map_keys (m : Generator.id_map) : list Z := map fst m.

Definition map_values (m : Generator.id_map) : list Z := flat_map snd m.

(** [pid] is the id of one of the products. *)
Definition is_product_id (products : list Generator.dict) (pid : Z) : Prop :=
  In (Some (JInt pid)) (Generator.product_ids products).

(** The keys [create_similar_product] may change besides the id. *)
Definition varied_keys : list string :=
  ["brand"; "size"; "price_per_unit"; "product_name"].

(** The similar product is a variant of one of the base products. *)
Definition varies_a_base (base_products : list Generator.dict) (d : Generator.dict)
  : Prop :=
  exists base, In base base_products /\ variant_of ("product_id" :: varied_keys) base d.

(** What [generate_similar_products] promises about its two results. *)
Definition similar_products_ok (base_products : list Generator.dict) (start_id : Z)
           (result : list Generator.dict * Generator.id_map) : Prop :=
  Generator.product_ids (fst result)
  = consecutive_ids start_id (List.length (fst result))
  /\ Forall (varies_a_base base_products) (fst result)
  /\ (forall key, In key (map_keys (snd result)) -> is_product_id base_products key)
  /\ (forall v, In v (map_values (snd result)) -> is_product_id (fst result) v).

(** The product belongs to one of the eight categories. *)
Definition in_a_category (d : Generator.dict) : Prop :=
  exists c, In c Generator.categories /\ Generator.lookup "category" d = Some (JStr c).

(** The catalogue and [SUBSTITUTION_MAP] fit together: every product
    has the seven columns and one of the eight categories, and every id
    in the map, key or value, is the id of a product. *)
Definition catalogue_ok (products : list Generator.dict) (m : Generator.id_map) : Prop :=
  Forall has_columns products
  /\ Forall in_a_category products
  /\ (forall key, In key (map_keys m) -> is_product_id products key)
  /\ (forall v, In v (map_values m) -> is_product_id products v).

(** [random.choice] and [random.randint] pick inside the sequence or
    range they are given. *)
Definition choice_in_range (W : Generator.World) : Prop :=
  forall (n : nat) (s : Generator.state),
    (0 < n)%nat -> (fst (Generator.random_choice_index n s) < n)%nat.

(** The products table can answer for the product: it has a row with
    this id, and the first such row has a category. *)
Definition is_listed (products : list Generator.dict) (pid : Z) : Prop :=
  exists info category,
    Generator.product_info products pid = Ok info
    /\ Generator.lookup "category" info = Some category.

(** The selected products of the baskets, each with its basket, in the
    order of the two loops. *)
Definition selections (baskets : list Generator.basket) : list (Generator.basket * Z) :=
  flat_map (fun b => map (fun pid => (b, pid)) (Generator.selected_products b)) baskets.

(** What an order item says about the selected product it was made
    for: the order of the basket, a quantity between 1 and the
    household size plus 2, and either the product itself or, marked as
    substituted, one of its substitutes (the product itself when it has
    none). *)
Definition item_for (m : Generator.id_map) (selection : Generator.basket * Z)
           (record : list (string * value)) : Prop :=
  let (b, selected) := selection in
  exists pid quantity substituted,
    record = Generator.order_item (Generator.basket_order_id b) pid quantity substituted
    /\ 1 <= quantity <= Z.max 1 (Generator.basket_household_size b) + 2
    /\ (substituted = false -> pid = selected)
    /\ (substituted = true ->
        (Generator.substitutes m selected = [] /\ pid = selected)
        \/ In pid (Generator.substitutes m selected)).

(** The row of the frame made from an order item. *)
Definition row_of_item (record : list (string * value)) : list value :=
  map (fun c => cell_of c record) order_item_columns.

(** The amount at the head of a size can be read by [float]: when the
    first word is made of digits and dots, it has at most one dot. *)
Definition size_is_readable (size : string) : Prop :=
  match Generator.words size with
  | [] => True
  | first :: _ =>
      Generator.isdigit (Generator.without_dots first) = true ->
      exists amount, Generator.float_of_digits_and_dots first = Ok amount
  end.

(** A product [create_similar_product] can vary: text for the brand,
    the size and the name, a readable amount, a unit and a number for
    the price. *)
Definition can_be_varied (d : Generator.dict) : Prop :=
  (exists brand, Generator.lookup "brand" d = Some (JStr brand))
  /\ (exists size, Generator.lookup "size" d = Some (JStr size) /\ size_is_readable size)
  /\ (exists unit, Generator.lookup "unit" d = Some unit)
  /\ (exists price x, Generator.lookup "price_per_unit" d = Some price
                      /\ Generator.number price = Ok x)
  /\ (exists name, Generator.lookup "product_name" d = Some (JStr name)).

(** The price is the one of [base], or a new one of at least 0.99. *)
Definition price_kept_or_floored (base d : Generator.dict) : Prop :=
  Generator.lookup "price_per_unit" d = Generator.lookup "price_per_unit" base
  \/ exists x, Generator.lookup "price_per_unit" d = Some (JFloat (Fin x))
               /\ (0.99 <= x)%Q.

(** The ids [first], [first + 1], ... of [count] rows. *)
Definition numbered_from (first : Z) (count : nat) : list Z :=
  map (fun i => first + Z.of_nat i) (seq 0 count).

(** A user as [generate_users] makes them. *)
Definition plausible_user (u : User) : Prop :=
  1 <= household_size u <= 5
  /\ In (dietary_preference u) Tables.dietary_preferences
  /\ In (primary_shopping_day u) Tables.shopping_days.

(** The timestamp of an order of a user whose shopping day is the
    weekday [preferred]: a date drawn between the start and the end
    date, or the first day after such a date that falls on the
    preferred weekday, at the same time of day. *)
Definition timestamp_ok {W : Generator.World} (now : datetime)
           (date_time_between : datetime -> datetime -> Generator.state
                                -> datetime * Generator.state)
           (preferred : Z) (timestamp : datetime) : Prop :=
  exists s,
    let drawn := fst (date_time_between (Tables.start_date now) (Tables.end_date now) s) in
    timestamp = drawn
    \/ (Tables.weekday timestamp = preferred
        /\ exists days, 1 <= days <= 6 /\ timestamp = plus_days drawn days).

(** An order that refers to one of the users and fits that user's
    shopping day. *)
Definition order_ok {W : Generator.World} (now : datetime)
           (date_time_between : datetime -> datetime -> Generator.state
                                -> datetime * Generator.state)
           (users : list User) (o : Tables.Order) : Prop :=
  exists user preferred,
    Tables.user_row users (Tables.order_user_id o) = Ok user
    /\ Tables.day_mapping (primary_shopping_day user) = Ok preferred
    /\ timestamp_ok now date_time_between preferred (Tables.order_timestamp o)
    /\ In (Tables.delivery_method o) Tables.delivery_methods
    /\ In (Tables.delivery_time_window o) Tables.time_windows.

(** The completion API refuses every call. *)
Definition api_down (W : Generator.World) : Prop :=
  forall (category : string) (n : nat) (s : Generator.state),
  exists e s', Generator.chat_completion category n s = (Raise e, s').

(** The products made so far carry the ids 1, 2, ... in order, and the
    counter is the next free id. *)
Definition numbered (finished : list Generator.dict) (p : Generator.progress) : Prop :=
  let products := finished ++ Generator.category_products p in
  Generator.product_ids products = consecutive_ids 1 (List.length products)
  /\ Generator.product_id_counter p = 1 + Z.of_nat (List.length products).

(** [product['category'] == c] *)
Definition has_category (c : string) (d : Generator.dict) : bool :=
  match Generator.lookup "category" d with
  | Some (JStr c') => String.eqb c' c
  | _ => false
  end.

(** The number of products of the catalogue in category [c]. *)
Definition count_in_category (c : string) (products : list Generator.dict) : nat :=
  List.length (filter (has_category c) products).


(** * Properties *)

(** ** Rounding *)

Lemma round_half_even_lower (y : Q) (n : Z) :
  (inject_Z n <= y)%Q -> n <= round_half_even y.
Proof.
  intros H. unfold round_half_even.
  assert (Hf : n <= Qfloor y).
  { rewrite <- (Qfloor_Z n). now apply Qfloor_resp_le. }
  destruct (Qcompare _ _); [destruct (Z.even _)| |]; lia.
Qed.

Lemma round_half_even_upper (y : Q) (n : Z) :
  (y <= inject_Z n)%Q -> round_half_even y <= n.
Proof.
  intros H. unfold round_half_even.
  assert (Hf : Qfloor y <= n).
  { rewrite <- (Qfloor_Z n). now apply Qfloor_resp_le. }
  destruct (Z.eq_dec (Qfloor y) n) as [E | NE].
  - assert (Hlt : (y - inject_Z (Qfloor y) < 1 # 2)%Q).
    { rewrite E. apply Qle_lt_trans with (y := 0%Q); [| reflexivity].
      apply (Qplus_le_l _ _ (inject_Z n)). ring_simplify. exact H. }
    rewrite Qlt_alt in Hlt. rewrite Hlt. lia.
  - destruct (Qcompare _ _); [destruct (Z.even _)| |]; lia.
Qed.

Lemma py_round_3_between (x : Q) (A B : Z) :
  (inject_Z A / 1000 <= x)%Q -> (x <= inject_Z B / 1000)%Q ->
  exists k : Z, py_round x 3 = (inject_Z k / inject_Z 1000)%Q /\ A <= k <= B.
Proof.
  intros Hlo Hhi.
  exists (round_half_even (x * inject_Z 1000)). split; [reflexivity|].
  split.
  - apply round_half_even_lower.
    setoid_replace (inject_Z A) with (inject_Z A / 1000 * 1000)%Q by (field).
    apply Qmult_le_compat_r; [exact Hlo | discriminate].
  - apply round_half_even_upper.
    setoid_replace (inject_Z B) with (inject_Z B / 1000 * 1000)%Q by (field).
    apply Qmult_le_compat_r; [exact Hhi | discriminate].
Qed.

Lemma uniform_between {R : Random} (a b : Q) (g : rng) :
  random_in_unit_interval R -> (a <= b)%Q ->
  (a <= fst (uniform a b g) /\ fst (uniform a b g) <= b)%Q.
Proof.
  intros HR Hab. unfold uniform.
  destruct (HR g) as [H0 H1]. destruct (random g) as [u g']. simpl in *.
  assert (Hd : (0 <= b - a)%Q) by (apply (Qplus_le_l _ _ a); ring_simplify; exact Hab).
  split.
  - rewrite <- (Qplus_0_r a) at 1. apply Qplus_le_r.
    apply Qmult_le_0_compat; assumption.
  - assert (Hu : ((b - a) * u <= (b - a) * 1)%Q).
    { rewrite (Qmult_comm (b - a) u), (Qmult_comm (b - a) 1).
      apply Qmult_le_compat_r; [apply Qlt_le_weak; exact H1 | exact Hd]. }
    apply Qle_trans with (y := (a + (b - a) * 1)%Q).
    + apply Qplus_le_r. exact Hu.
    + ring_simplify. apply Qle_refl.
Qed.

Lemma rounded_uniform_range {R : Random} (a b : Q) (A B : Z) (g : rng) :
  random_in_unit_interval R ->
  (a == inject_Z A / 1000)%Q -> (b == inject_Z B / 1000)%Q -> A <= B ->
  exists k : Z,
    fst (rounded_uniform a b g) = (inject_Z k / inject_Z 1000)%Q /\ A <= k <= B.
Proof.
  intros HR Ha Hb HAB.
  assert (Hab : (a <= b)%Q).
  { rewrite Ha, Hb. apply Qmult_le_compat_r; [| discriminate].
    rewrite <- Zle_Qle. exact HAB. }
  destruct (uniform_between a b g HR Hab) as [Hlo Hhi].
  unfold rounded_uniform. destruct (uniform a b g) as [x g']. simpl in *.
  apply py_round_3_between.
  - rewrite <- Ha. exact Hlo.
  - rewrite <- Hb. exact Hhi.
Qed.

Lemma lcg_in_unit_interval : random_in_unit_interval lcg.
Proof.
  intros g. simpl.
  assert (H : 0 <= lcg_next g < lcg_modulus).
  { unfold lcg_next. apply Z.mod_pos_bound. reflexivity. }
  unfold Qle, Qlt. simpl. unfold lcg_modulus in H. lia.
Qed.

Lemma rate_in_thousandths_weaken (lo hi lo' hi' : Z) (r : Q) :
  lo' <= lo -> hi <= hi' ->
  rate_in_thousandths lo hi r -> rate_in_thousandths lo' hi' r.
Proof.
  intros Hlo Hhi (k & Hk & Hrange). exists k. split; [exact Hk | lia].
Qed.

Ltac rounded_uniform_in_range HR :=
  match goal with
  | |- rate_in_thousandths _ _ (fst (rounded_uniform ?a ?b ?g)) =>
      let A := eval vm_compute in (Qfloor (a * 1000)) in
      let B := eval vm_compute in (Qfloor (b * 1000)) in
      apply (rate_in_thousandths_weaken A B); [lia | lia |];
      apply (rounded_uniform_range a b A B g HR); [reflexivity | reflexivity | lia]
  end.

Lemma rate_by_price_range {R : Random} (HR : random_in_unit_interval R)
      (products : option (list Product)) (pid : Z) :
  rate_in_thousandths 10 400 (fst (Predictions.rate_by_price products pid)).
Proof.
  unfold Predictions.rate_by_price.
  destruct products as [df |]; [| rounded_uniform_in_range HR].
  destruct (products_with_id df pid) as [| product ?]; [rounded_uniform_in_range HR |].
  repeat match goal with
         | |- context [if ?c then _ else _] => destruct c
         | |- context [let (_, _) := random ?g in _] => destruct (random g)
         end; rounded_uniform_in_range HR.
Qed.

Lemma rate_without_data_range {R : Random} (HR : random_in_unit_interval R) (pid : Z) :
  rate_in_thousandths 10 400 (fst (Predictions.rate_without_data pid)).
Proof.
  unfold Predictions.rate_without_data.
  repeat match goal with
         | |- context [if ?c then _ else _] => destruct c
         | |- context [let (_, _) := random ?g in _] => destruct (random g)
         end; rounded_uniform_in_range HR.
Qed.

Lemma rate_without_orders_range {R : Random} (HR : random_in_unit_interval R) (pid : Z) :
  rate_in_thousandths 10 400 (fst (Predictions.rate_without_orders pid)).
Proof.
  unfold Predictions.rate_without_orders.
  repeat match goal with
         | |- context [if ?c then _ else _] => destruct c
         | |- context [let (_, _) := random ?g in _] => destruct (random g)
         end; rounded_uniform_in_range HR.
Qed.

Lemma rate_in_thousandths_bounds (r : Q) :
  rate_in_thousandths 10 400 r ->
  (0.01 <= r /\ r <= 0.40)%Q /\ exists k : Z, (r == k # 1000)%Q.
Proof.
  intros (k & -> & Hk). split; [split |].
  - unfold Qle. simpl. lia.
  - unfold Qle. simpl. lia.
  - exists k. unfold Qeq. simpl. lia.
Qed.

(** ** The substitution rate *)

(** C1.  For a fixed predictor (its order items and products, loaded or
    not) and a product id, [get_product_substitution_rate] returns the
    same rate and prints the same text whatever the state of [random]
    on entry: every branch that draws re-seeds with the product id
    first. *)
Theorem substitution_rate_deterministic {R : Random}
        (self : Predictions.SmartGrocerPredictor) (pid : Z) (g1 g2 : rng) :
  Predictions.returned_rate (Predictions.get_product_substitution_rate self pid g1)
  = Predictions.returned_rate (Predictions.get_product_substitution_rate self pid g2)
  /\ Predictions.printed (Predictions.get_product_substitution_rate self pid g1)
     = Predictions.printed (Predictions.get_product_substitution_rate self pid g2).
Proof.
  unfold Predictions.get_product_substitution_rate, Predictions.substitution_rate_body.
  destruct (Predictions.order_items_df self) as [order_items |]; [| split; reflexivity].
  destruct (df_filter_eq order_items "product_id" pid) as [product_orders | e];
    [| split; reflexivity].
  destruct (df_empty product_orders); [split; reflexivity |].
  destruct (has_column "substituted" product_orders); [| split; reflexivity].
  destruct (s <- df_column product_orders "substituted" ;; series_mean s);
    split; reflexivity.
Qed.

(** C10.  Whenever the rate is not the mean of a ['substituted'] column
    (order items not loaded, no order item for the product, no such
    column, or an exception inside the method), the returned rate lies
    between 0.01 and 0.40 and is a multiple of 0.001. *)
Theorem substitution_rate_fallback_range {R : Random}
        (HR : random_in_unit_interval R)
        (self : Predictions.SmartGrocerPredictor) (pid : Z) (g : rng) :
  Predictions.rate_from_column self pid = false ->
  exists r : Q,
    Predictions.returned_rate (Predictions.get_product_substitution_rate self pid g) = Fin r
    /\ (0.01 <= r /\ r <= 0.40)%Q
    /\ exists k : Z, (r == k # 1000)%Q.
Proof.
  intros Hcol.
  enough (H : exists r : Q,
             Predictions.returned_rate
               (Predictions.get_product_substitution_rate self pid g) = Fin r
             /\ rate_in_thousandths 10 400 r).
  { destruct H as (r & Hr & Hk). exists r. split; [exact Hr |].
    apply rate_in_thousandths_bounds. exact Hk. }
  revert Hcol.
  unfold Predictions.rate_from_column, Predictions.get_product_substitution_rate,
    Predictions.substitution_rate_body, Predictions.returned_rate, Predictions.drawn.
  destruct (Predictions.order_items_df self) as [order_items |].
  2:{ intros _. eexists. split; [reflexivity |]. apply rate_without_data_range, HR. }
  destruct (df_filter_eq order_items "product_id" pid) as [product_orders | e].
  2:{ intros _. eexists. split; [reflexivity |]. simpl. rounded_uniform_in_range HR. }
  destruct (df_empty product_orders).
  { intros _. eexists. split; [reflexivity |]. apply rate_without_orders_range, HR. }
  destruct (has_column "substituted" product_orders).
  2:{ intros _. eexists. split; [reflexivity |]. apply rate_by_price_range, HR. }
  destruct (s <- df_column product_orders "substituted" ;; series_mean s).
  { discriminate. }
  intros _. eexists. split; [reflexivity |]. simpl. rounded_uniform_in_range HR.
Qed.

(** ** Ranking of ingredients *)

Lemma positions_from_nth (ids : list Z) (i : Z) (pid rank : Z) :
  In (pid, rank) (positions_from i ids) ->
  i < rank /\ nth_error ids (Z.to_nat (rank - i - 1)) = Some pid.
Proof.
  revert i. induction ids as [| x rest IH]; intros i Hin; simpl in Hin.
  - contradiction.
  - destruct Hin as [Heq | Hin].
    + inversion Heq; subst. split; [lia |].
      replace (i + 1 - i - 1) with 0 by lia. reflexivity.
    + apply IH in Hin. destruct Hin as [Hlt Hnth]. split; [lia |].
      replace (Z.to_nat (rank - i - 1)) with (S (Z.to_nat (rank - (i + 1) - 1))) by lia.
      exact Hnth.
Qed.

Lemma fallback_ranking_spec (products : list Product) (ids : list Z) (i : Z) :
  exists results,
    Ingredients.fallback_ranking (Some products) i ids = Ok results
    /\ map id_and_rank results
       = filter (fun p => in_table products (fst p)) (positions_from i ids).
Proof.
  revert i. induction ids as [| pid rest IH]; intros i; simpl.
  - exists []. split; reflexivity.
  - destruct (IH (i + 1)) as (results & Hres & Hmap).
    unfold in_table at 1. simpl.
    destruct (products_with_id products pid) as [| product others].
    + exists results. split; assumption.
    + rewrite Hres. simpl. eexists. split; [reflexivity |].
      simpl. unfold id_and_rank at 1. simpl. f_equal. exact Hmap.
Qed.

(** C6.  When the model is missing, the SDK is unavailable, or the
    prediction raises, [rank_products_for_user] returns one entry per
    input id that has a row in the products table, in the input order,
    each ranked by the 1-based position of its id in the input. *)
Theorem fallback_ranking_is_input_order
        (E : Env) (self : Ingredients.PersonalizedIngredientRanker)
        (products : list Product) (product_ids : list Z) (user_id : Z) :
  Ingredients.products_df self = Some products ->
  (Ingredients.model self = None
   \/ KUMO_AVAILABLE E = false
   \/ exists m e, Ingredients.model self = Some m
                  /\ m (Ingredients.ranking_query product_ids user_id) = Raise e) ->
  exists results,
    snd (Ingredients.rank_products_for_user E self product_ids user_id) = Ok results
    /\ map id_and_rank results
       = filter (fun p => in_table products (fst p)) (positions_from 0 product_ids)
    /\ map Ingredients.ranked_product_id results
       = filter (in_table products) product_ids
    /\ forall r, In r results ->
         1 <= Ingredients.kumo_rank r
         /\ nth_error product_ids (Z.to_nat (Ingredients.kumo_rank r - 1))
            = Some (Ingredients.ranked_product_id r).
Proof.
  intros Hproducts Hcase.
  destruct (fallback_ranking_spec products product_ids 0) as (results & Hres & Hmap).
  exists results.
  assert (Hrun : snd (Ingredients.rank_products_for_user E self product_ids user_id)
                 = Ok results).
  { unfold Ingredients.rank_products_for_user. rewrite Hproducts.
    destruct Hcase as [Hnone | [Hoff | (m & e & Hm & Hraise)]].
    - rewrite Hnone. simpl. exact Hres.
    - rewrite Hoff. destruct (Ingredients.model self); simpl; exact Hres.
    - rewrite Hm. destruct (KUMO_AVAILABLE E); [| simpl; exact Hres].
      rewrite Hraise. simpl. rewrite Hres. reflexivity. }
  split; [exact Hrun |]. split; [exact Hmap |]. split.
  - assert (Hfst : forall i ids,
               map fst (filter (fun p => in_table products (fst p)) (positions_from i ids))
               = filter (in_table products) ids).
    { intros i ids. revert i. induction ids as [| x rest IH]; intros i; simpl.
      - reflexivity.
      - destruct (in_table products x); simpl; rewrite IH; reflexivity. }
    rewrite <- (Hfst 0 product_ids), <- Hmap, map_map. reflexivity.
  - intros r Hin.
    assert (Hpair : In (id_and_rank r)
                       (filter (fun p => in_table products (fst p))
                               (positions_from 0 product_ids))).
    { rewrite <- Hmap. apply in_map. exact Hin. }
    apply filter_In in Hpair. destruct Hpair as [Hpos _].
    apply positions_from_nth in Hpos. simpl in Hpos.
    destruct Hpos as [Hlt Hnth]. split; [lia |].
    replace (Ingredients.kumo_rank r - 1) with (Ingredients.kumo_rank r - 0 - 1) by lia.
    exact Hnth.
Qed.

Lemma cell_in_int (pid : Z) (ids : list Z) :
  Ingredients.cell_in (VInt pid) ids = mem pid ids.
Proof. reflexivity. Qed.

Lemma mem_In (pid : Z) (ids : list Z) : mem pid ids = true <-> In pid ids.
Proof.
  unfold mem. rewrite existsb_exists. split.
  - intros (x & Hx & Heq). apply Z.eqb_eq in Heq. subst. exact Hx.
  - intros H. exists pid. split; [exact H | apply Z.eqb_refl].
Qed.

Lemma kumo_ranking_spec (products : list Product) (ids ranked : list Z) (i : Z) :
  exists results,
    Ingredients.kumo_ranking (Some products) ids i (map VInt ranked) = Ok results
    /\ map Ingredients.ranked_product_id results
       = filter (fun p => mem p ids && in_table products p) ranked.
Proof.
  revert i. induction ranked as [| pid rest IH]; intros i; simpl.
  - exists []. split; reflexivity.
  - destruct (IH (i + 1)) as (results & Hres & Hmap).
    rewrite cell_in_int. destruct (mem pid ids); simpl.
    + unfold in_table at 1.
      replace (filter (fun p => pid =? product_id p) products)
        with (products_with_id products pid)
        by (unfold products_with_id; apply filter_ext; intros p; apply Z.eqb_sym).
      destruct (products_with_id products pid) as [| product others].
      * exists results. split; assumption.
      * rewrite Hres. simpl. eexists. split; [reflexivity |].
        simpl. f_equal. exact Hmap.
    + exists results. split; assumption.
Qed.

Lemma append_missing_spec (products : list Product) (ranked_ids ids : list Z)
      (acc : list Ingredients.Ranked) :
  exists results,
    Ingredients.append_missing (Some products) ranked_ids acc ids = Ok results
    /\ map Ingredients.ranked_product_id results
       = map Ingredients.ranked_product_id acc
         ++ filter (fun p => negb (mem p ranked_ids) && in_table products p) ids.
Proof.
  revert acc. induction ids as [| pid rest IH]; intros acc; simpl.
  - exists acc. split; [reflexivity | now rewrite app_nil_r].
  - fold (mem pid ranked_ids). destruct (mem pid ranked_ids); simpl.
    + apply IH.
    + unfold in_table at 1.
      destruct (products_with_id products pid) as [| product others].
      * apply IH.
      * destruct (IH (acc ++ [Ingredients.entry pid product
                                 (Z.of_nat (List.length acc) + 1)]))
          as (results & Hres & Hmap).
        exists results. split; [exact Hres |].
        rewrite Hmap, map_app, <- app_assoc. reflexivity.
Qed.


(** C9, as amended.  When the model returns a ranked list without
    duplicates and the input list has no duplicates either, the result
    of [rank_products_for_user] has an entry for an id exactly when the
    id is in the input and in the products table; no id appears twice;
    the ids ranked by the model come first, in the model's order, and
    the remaining input ids follow in input order. *)
Theorem model_ranking_covers_input_once
        (E : Env) (self : Ingredients.PersonalizedIngredientRanker) (m : Model)
        (products : list Product) (product_ids ranked : list Z) (user_id : Z)
        (frame : option DataFrame) :
  Ingredients.model self = Some m ->
  KUMO_AVAILABLE E = true ->
  Ingredients.products_df self = Some products ->
  m (Ingredients.ranking_query product_ids user_id) = Ok frame ->
  result_attr frame "CLASS" = Ok (map VInt ranked) ->
  NoDup ranked ->
  NoDup product_ids ->
  exists results,
    snd (Ingredients.rank_products_for_user E self product_ids user_id) = Ok results
    /\ map Ingredients.ranked_product_id results
       = filter (fun p => mem p product_ids && in_table products p) ranked
         ++ filter (fun p => negb (mem p ranked) && in_table products p) product_ids
    /\ (forall pid, In pid (map Ingredients.ranked_product_id results)
                    <-> In pid product_ids /\ in_table products pid = true)
    /\ NoDup (map Ingredients.ranked_product_id results).
Proof.
  intros Hm Hon Hproducts Hpredict Hclass Hranked Hids.
  destruct (kumo_ranking_spec products product_ids ranked 0) as (first & Hfirst & Hfirst_ids).
  destruct (append_missing_spec products (map Ingredients.ranked_product_id first)
                                product_ids first) as (results & Hres & Hres_ids).
  exists results.
  assert (Hsecond :
            filter (fun p => negb (mem p (map Ingredients.ranked_product_id first))
                             && in_table products p) product_ids
            = filter (fun p => negb (mem p ranked) && in_table products p) product_ids).
  { apply filter_ext_in. intros p Hp.
    destruct (in_table products p) eqn:Htable; [| now rewrite !andb_false_r].
    rewrite !andb_true_r. f_equal.
    apply eq_true_iff_eq. rewrite !mem_In, Hfirst_ids, filter_In, andb_true_iff, mem_In.
    tauto. }
  rewrite Hsecond, Hfirst_ids in Hres_ids.
  split; [| split; [exact Hres_ids | split]].
  - unfold Ingredients.rank_products_for_user.
    rewrite Hm, Hon, Hproducts, Hpredict. simpl. rewrite Hclass. simpl.
    rewrite Hfirst. simpl. rewrite Hres. reflexivity.
  - intros pid. rewrite Hres_ids, in_app_iff, !filter_In, !andb_true_iff,
      negb_true_iff, mem_In.
    split.
    + intros [(_ & Hin & Htable) | (Hin & _ & Htable)]; split; assumption.
    + intros (Hin & Htable).
      destruct (mem pid ranked) eqn:Hmem.
      * left. apply mem_In in Hmem. tauto.
      * right. tauto.
  - rewrite Hres_ids. apply NoDup_app.
    + apply NoDup_filter. exact Hranked.
    + apply NoDup_filter. exact Hids.
    + intros pid Hin1 Hin2. apply filter_In in Hin1, Hin2.
      destruct Hin1 as [Hin1 _]. destruct Hin2 as [_ Hin2].
      apply andb_true_iff in Hin2. destruct Hin2 as [Hin2 _].
      apply negb_true_iff in Hin2. apply mem_In in Hin1. congruence.
Qed.

(** C9 as stated fails on an input list that repeats an id the model
    did not rank: the id is appended once per occurrence. *)
Lemma repeated_input_is_ranked_twice :
  let m := Sample.ranking_model [] in
  let results := [Ingredients.entry 5 Sample.apples 1; Ingredients.entry 5 Sample.apples 2] in
  (result_attr (Some {| columns := ["CLASS"]; rows := [] |}) "CLASS" = Ok (map VInt [])
   /\ NoDup (@nil Z))
  /\ snd (Ingredients.rank_products_for_user
            (Sample.online m) (Sample.ranker (Some m)) [5; 5] 1) = Ok results
  /\ ~ NoDup (map Ingredients.ranked_product_id results).
Proof.
  simpl. split; [split; [reflexivity | constructor] | split; [reflexivity |]].
  intros H. inversion H as [| x l Hnotin _]; subst. apply Hnotin. left. reflexivity.
Qed.

Lemma model_ranking_covers_input_once_witness :
  exists results,
    snd (Ingredients.rank_products_for_user
           (Sample.online (Sample.ranking_model [7]))
           (Sample.ranker (Some (Sample.ranking_model [7]))) [5; 7; 9] 1) = Ok results
    /\ map Ingredients.ranked_product_id results
       = filter (fun p => mem p [5; 7; 9] && in_table Sample.products p) [7]
         ++ filter (fun p => negb (mem p [7]) && in_table Sample.products p) [5; 7; 9]
    /\ (forall pid, In pid (map Ingredients.ranked_product_id results)
                    <-> In pid [5; 7; 9] /\ in_table Sample.products pid = true)
    /\ NoDup (map Ingredients.ranked_product_id results).
Proof.
  apply (model_ranking_covers_input_once
           (Sample.online (Sample.ranking_model [7]))
           (Sample.ranker (Some (Sample.ranking_model [7])))
           (Sample.ranking_model [7]) Sample.products [5; 7; 9] [7] 1
           (Some {| columns := ["CLASS"]; rows := [[VInt 7]] |})).
  - reflexivity.
  - reflexivity.
  - reflexivity.
  - reflexivity.
  - reflexivity.
  - constructor; [simpl; tauto | constructor].
  - repeat constructor; simpl; intuition lia.
Defined.

Lemma fallback_ranking_is_input_order_witness :
  exists results,
    snd (Ingredients.rank_products_for_user
           Sample.offline (Sample.ranker None) [7; 9; 5] 1) = Ok results
    /\ map id_and_rank results
       = filter (fun p => in_table Sample.products (fst p)) (positions_from 0 [7; 9; 5])
    /\ map Ingredients.ranked_product_id results
       = filter (in_table Sample.products) [7; 9; 5]
    /\ forall r, In r results ->
         1 <= Ingredients.kumo_rank r
         /\ nth_error [7; 9; 5] (Z.to_nat (Ingredients.kumo_rank r - 1))
            = Some (Ingredients.ranked_product_id r).
Proof.
  apply (fallback_ranking_is_input_order
           Sample.offline (Sample.ranker None) Sample.products [7; 9; 5] 1).
  - reflexivity.
  - left. reflexivity.
Defined.

Lemma substitution_rate_fallback_range_witness :
  exists r : Q,
    Predictions.returned_rate
      (Predictions.get_product_substitution_rate (R := lcg) (Sample.predictor None) 5 0)
    = Fin r
    /\ (0.01 <= r /\ r <= 0.40)%Q
    /\ exists k : Z, (r == k # 1000)%Q.
Proof.
  apply (substitution_rate_fallback_range (R := lcg) lcg_in_unit_interval
           (Sample.predictor None) 5 0).
  reflexivity.
Defined.

Example sample_fallback_ranking :
  map id_and_rank
      (match snd (Ingredients.rank_products_for_user
                    Sample.offline (Sample.ranker None) [7; 9; 5] 1) with
       | Ok results => results
       | Raise _ => []
       end)
  = [(7, 1); (5, 3)].
Proof. reflexivity. Qed.

Example sample_substitution_rate :
  Predictions.returned_rate
    (Predictions.get_product_substitution_rate (R := lcg) (Sample.predictor None) 5 0)
  = Fin (inject_Z 119 / inject_Z 1000)%Q.
Proof. vm_compute. reflexivity. Qed.

(** ** Failures of the model *)

Lemma py_int_of_string_raises (s : string) (e : exn) :
  py_int_of_string s = Raise e -> Predictions.is_value_or_index_error e = true.
Proof.
  unfold py_int_of_string.
  destruct (strip s) as [| c t]; simpl.
  - intros H. inversion H. reflexivity.
  - repeat match goal with
           | |- context [match ?x with _ => _ end] => destruct x
           end; intros H; inversion H; reflexivity.
Qed.

Lemma make_slot_raises (E : Env) (t : datetime) (window : string) (sc : pyfloat) (e : exn) :
  Predictions.make_slot E t window (Ok sc) = Raise e ->
  Predictions.is_value_or_index_error e = true.
Proof.
  unfold Predictions.make_slot, Predictions.start_hour, replace_hour, bind.
  repeat match goal with
         | |- context [if ?c then _ else _] => destruct c
         | |- context [match py_int_of_string ?x with _ => _ end] =>
             let H := fresh "Hint" in
             destruct (py_int_of_string x) eqn:H;
             [| apply py_int_of_string_raises in H]
         end;
    intros H; inversion H; subst; try reflexivity;
    match goal with
    | Hv : Predictions.is_value_or_index_error ?e = true |- _ => exact Hv
    end.
Qed.

Lemma fallback_slots_total (E : Env) (t : datetime) (windows : list string) (i : Z) :
  exists slots, Predictions.fallback_slots E t i windows = Ok slots.
Proof.
  revert i. induction windows as [| window rest IH]; intros i; simpl.
  - eexists. reflexivity.
  - destruct (Predictions.make_slot E t window _) as [slot | e] eqn:Hslot.
    + destruct (IH (i + 1)) as (slots & ->). simpl. eexists. reflexivity.
    + apply make_slot_raises in Hslot. rewrite Hslot. apply IH.
Qed.

Lemma fallback_delivery_times_total (E : Env) (uid num_slots : Z) (timezone : string) :
  exists slots,
    snd (Predictions._fallback_delivery_times E uid num_slots timezone) = Ok slots.
Proof.
  unfold Predictions._fallback_delivery_times, Predictions.current_time_in.
  destruct (String.eqb timezone "UTC"); [| destruct (known_timezone E timezone)];
    simpl;
    match goal with
    | |- context [Predictions.fallback_slots E ?t ?i ?w] =>
        destruct (fallback_slots_total E t w i) as (slots & ->)
    end; simpl; eexists; reflexivity.
Qed.

Lemma try_except_total {A : Type} (body : io A) (handler : exn -> io A) :
  (forall e, exists a, snd (handler e) = Ok a) ->
  exists a, snd (try_except body handler) = Ok a.
Proof.
  intros Hhandler. unfold try_except.
  destruct body as [out [a | e]].
  - exists a. reflexivity.
  - destruct (Hhandler e) as (a & Ha). destruct (handler e) as [out' r].
    simpl in *. exists a. exact Ha.
Qed.

Lemma predict_cart_items_total (E : Env) (self : Predictions.SmartGrocerPredictor)
      (uid num_predictions : Z) :
  exists predictions,
    snd (Predictions.predict_cart_items E self uid num_predictions) = Ok predictions.
Proof.
  unfold Predictions.predict_cart_items.
  destruct (Predictions.model self) as [m |]; [| eexists; reflexivity].
  destruct (KUMO_AVAILABLE E); [| eexists; reflexivity].
  apply try_except_total. intros e. eexists. reflexivity.
Qed.

Lemma predict_recommendations_total (E : Env) (self : Predictions.SmartGrocerPredictor)
      (uid num_recommendations : Z) :
  exists recommendations,
    snd (Predictions.predict_recommendations E self uid num_recommendations)
    = Ok recommendations.
Proof.
  unfold Predictions.predict_recommendations.
  destruct (Predictions.model self) as [m |]; [| eexists; reflexivity].
  destruct (KUMO_AVAILABLE E); [| eexists; reflexivity].
  apply try_except_total. intros e. eexists. reflexivity.
Qed.

Lemma predict_delivery_times_total (E : Env) (self : Predictions.SmartGrocerPredictor)
      (uid num_slots : Z) (timezone : string) :
  exists slots,
    snd (Predictions.predict_delivery_times E self uid num_slots timezone) = Ok slots.
Proof.
  unfold Predictions.predict_delivery_times.
  destruct (Predictions.model self) as [m |];
    [| apply fallback_delivery_times_total].
  destruct (KUMO_AVAILABLE E); [| apply fallback_delivery_times_total].
  apply try_except_total. intros e.
  destruct (fallback_delivery_times_total E uid num_slots timezone) as (slots & Hslots).
  exists slots. unfold io_bind, print.
  destruct (Predictions._fallback_delivery_times E uid num_slots timezone) as [out r].
  simpl in *. exact Hslots.
Qed.

(** C2, as amended.  With a model in place: when the ranking query
    raises, each of the three predict methods returns what its fallback
    returns; when the quantity query of [predict_cart_items] raises, the
    item count defaults to 20 and the method goes on to the ranking
    query; and whatever the model does, each method returns a list, so
    no failure of a model call reaches the caller. *)
Theorem model_failures_are_caught
        (E : Env) (self : Predictions.SmartGrocerPredictor) (m : Model)
        (uid num_items : Z) (timezone : string) :
  Predictions.model self = Some m ->
  KUMO_AVAILABLE E = true ->
  (call_fails m (Predictions.products_query
                   (Z.min num_items (Predictions.number_of_products m uid)) uid) ->
   snd (Predictions.predict_cart_items E self uid num_items)
   = Ok (Predictions._fallback_predictions E self uid num_items))
  /\ (call_fails m (Predictions.recommendations_query num_items uid) ->
      snd (Predictions.predict_recommendations E self uid num_items)
      = Ok (Predictions._fallback_recommendations self uid num_items))
  /\ (call_fails m (Predictions.delivery_query num_items uid) ->
      snd (Predictions.predict_delivery_times E self uid num_items timezone)
      = snd (Predictions._fallback_delivery_times E uid num_items timezone))
  /\ (call_fails m (Predictions.quantity_query uid) ->
      Predictions.number_of_products m uid = 20)
  /\ (exists predictions,
        snd (Predictions.predict_cart_items E self uid num_items) = Ok predictions)
  /\ (exists recommendations,
        snd (Predictions.predict_recommendations E self uid num_items)
        = Ok recommendations)
  /\ (exists slots,
        snd (Predictions.predict_delivery_times E self uid num_items timezone)
        = Ok slots).
Proof.
  intros Hm Hon.
  repeat split.
  - intros (e & He). unfold Predictions.predict_cart_items.
    rewrite Hm, Hon, He. reflexivity.
  - intros (e & He). unfold Predictions.predict_recommendations.
    rewrite Hm, Hon, He. reflexivity.
  - intros (e & He). unfold Predictions.predict_delivery_times.
    rewrite Hm, Hon, He. simpl.
    destruct (Predictions._fallback_delivery_times E uid num_items timezone) as [out r].
    reflexivity.
  - intros (e & He). unfold Predictions.number_of_products. rewrite He. reflexivity.
  - apply predict_cart_items_total.
  - apply predict_recommendations_total.
  - apply predict_delivery_times_total.
Qed.

(** C2 as stated fails for the quantity query of [predict_cart_items]:
    its exception is caught by the inner [except], the count becomes
    20, and the method returns the model's ranking, not the fallback. *)
Lemma quantity_failure_is_not_a_fallback :
  let m := Sample.quantity_fails in
  let E := Sample.online m in
  let self := Sample.predictor (Some m) in
  call_fails m (Predictions.quantity_query 1)
  /\ map Predictions.pred_product_id
         (match snd (Predictions.predict_cart_items E self 1 5) with
          | Ok predictions => predictions
          | Raise _ => []
          end) = [7]
  /\ map Predictions.pred_product_id (Predictions._fallback_predictions E self 1 5) = [5]
  /\ snd (Predictions.predict_cart_items E self 1 5)
     <> Ok (Predictions._fallback_predictions E self 1 5).
Proof.
  simpl. split; [eexists; reflexivity |].
  split; [reflexivity |]. split; [reflexivity |].
  intros H. apply (f_equal (fun r => match r with
                                     | Ok l => map Predictions.pred_product_id l
                                     | Raise _ => []
                                     end)) in H.
  vm_compute in H. discriminate H.
Qed.

Lemma model_failures_are_caught_witness :
  let m := Sample.failing_model in
  let E := Sample.online m in
  let self := Sample.predictor (Some m) in
  snd (Predictions.predict_cart_items E self 1 5)
  = Ok (Predictions._fallback_predictions E self 1 5)
  /\ snd (Predictions.predict_recommendations E self 1 5)
     = Ok (Predictions._fallback_recommendations self 1 5)
  /\ snd (Predictions.predict_delivery_times E self 1 5 "UTC")
     = snd (Predictions._fallback_delivery_times E 1 5 "UTC")
  /\ Predictions.number_of_products m 1 = 20.
Proof.
  intros m E self.
  destruct (model_failures_are_caught E self m 1 5 "UTC" eq_refl eq_refl)
    as (Hcart & Hrec & Hslots & Hquantity & _).
  assert (Hfails : forall query, call_fails m query).
  { intros query. eexists. reflexivity. }
  split; [apply Hcart, Hfails |].
  split; [apply Hrec, Hfails |].
  split; [apply Hslots, Hfails | apply Hquantity, Hfails].
Defined.

Example sample_fallback_slots :
  map (fun s => (Predictions.time_window s, Predictions.date_label s))
      (match snd (Predictions._fallback_delivery_times (Sample.online Sample.failing_model)
                                                        1 3 "UTC") with
       | Ok slots => slots
       | Raise _ => []
       end)
  = [("9am-11am", "Tomorrow"); ("11am-1pm", "Tomorrow"); ("1pm-3pm", "Today")].
Proof. reflexivity. Qed.

(** ** Exit status and streams of the two scripts *)








Lemma ingredients_load_products (E : Env)
      (self : Ingredients.PersonalizedIngredientRanker) :
  snd (snd (Ingredients.load_csv_data E self)) = true ->
  exists products,
    Ingredients.products_df (fst (snd (Ingredients.load_csv_data E self)))
    = Some products.
Proof.
  unfold Ingredients.load_csv_data, Ingredients.loading_failed.
  repeat match goal with
         | |- context [match ?x with Ok _ => _ | Raise _ => _ end] => destruct x
         end; simpl; intros H; try discriminate; eexists; reflexivity.
Qed.

Lemma create_graph_keeps_products (E : Env)
      (self : Ingredients.PersonalizedIngredientRanker) (product_ids : list Z) :
  Ingredients.products_df
    (fst (snd (Ingredients.create_personalized_kumo_graph E self product_ids)))
  = Ingredients.products_df self.
Proof.
  unfold Ingredients.create_personalized_kumo_graph.
  destruct (negb (KUMO_AVAILABLE E)); [reflexivity |].
  match goal with
  | |- context [match ?x with Ok _ => _ | Raise _ => _ end] => destruct x
  end; reflexivity.
Qed.

Lemma rank_products_for_user_total (E : Env)
      (self : Ingredients.PersonalizedIngredientRanker) (products : list Product)
      (product_ids : list Z) (uid : Z) :
  Ingredients.products_df self = Some products ->
  exists ranked,
    snd (Ingredients.rank_products_for_user E self product_ids uid) = Ok ranked.
Proof.
  intros Hproducts.
  destruct (fallback_ranking_spec products product_ids 0) as (results & Hres & _).
  unfold Ingredients.rank_products_for_user. rewrite Hproducts.
  destruct (Ingredients.model self) as [m |]; [| exists results; exact Hres].
  destruct (KUMO_AVAILABLE E); [| exists results; exact Hres].
  apply try_except_total. intros e. exists results.
  simpl. rewrite Hres. reflexivity.
Qed.

Lemma ingredients_load_flag (E : Env) (self : Ingredients.PersonalizedIngredientRanker) :
  snd (snd (Ingredients.load_csv_data E self)) = negb (ingredients_loading_fails E).
Proof.
  unfold Ingredients.load_csv_data, Ingredients.loading_failed,
    ingredients_loading_fails, reading_fails.
  destruct (read_users E); [| reflexivity].
  destruct (read_products E); [| reflexivity].
  destruct (read_orders E) as [orders |]; [| reflexivity].
  destruct (read_order_items E) as [order_items |]; [| reflexivity]. simpl.
  destruct (with_days_since_today E orders); reflexivity.
Qed.


(** On the typed tables of [Env] no exception leaves a prediction or
    the ranking: the escape is left to files that [read_csv] accepts
    while a column the fallback reads is missing or holds text, which
    [read_users] and [read_products] do not represent. *)
Lemma typed_tables_do_not_escape (E : Env) (argv : list string) :
  prediction_escapes E argv = false
  /\ (ingredients_loading_fails E = false -> ranking_escapes E argv = false).
Proof.
  split.
  - unfold prediction_escapes.
    destruct (Predictions.user_arguments argv) as [[[uid num_items] |] | e];
      try reflexivity.
    destruct (String.eqb (arg argv 1) "cart").
    { destruct (predict_cart_items_total E (predictions_ready E) uid num_items)
        as (l & ->). reflexivity. }
    destruct (String.eqb (arg argv 1) "recommendations"); [| reflexivity].
    destruct (predict_recommendations_total E (predictions_ready E) uid num_items)
      as (l & ->). reflexivity.
  - intros Hloads. unfold ranking_escapes, ingredients_ready.
    destruct (Ingredients.arguments E argv) as [[product_ids uid] | e]; [| reflexivity].
    pose proof (ingredients_load_flag E (snd (Ingredients.init E))) as Hflag.
    rewrite Hloads in Hflag.
    destruct (ingredients_load_products E (snd (Ingredients.init E)) Hflag)
      as (products & Hproducts).
    pose proof (create_graph_keeps_products
                  E (fst (snd (Ingredients.load_csv_data E (snd (Ingredients.init E)))))
                  product_ids) as Hkeep.
    rewrite Hproducts in Hkeep.
    destruct (rank_products_for_user_total E _ products product_ids uid Hkeep)
      as (ranked & ->).
    reflexivity.
Qed.





(** C4 fails in [kumo_predictions.py]: the usage message and the
    message about an invalid prediction type are written to standard
    output. *)
Theorem diagnostics_on_stdout {R : Random} (E : Env) (g : rng) :
  In (stdout, Text Predictions.usage)
     (output (Predictions.main E ["kumo_predictions.py"] g))
  /\ status (Predictions.main E ["kumo_predictions.py"] g) = 1
  /\ In (stdout, Text Predictions.invalid_type)
        (output (Predictions.main (R := lcg) Sample.offline
                                  ["kumo_predictions.py"; "basket"; "1"] 0))
  /\ output (Ingredients.main E ["kumo_personalized_ingredients.py"])
     = (if KUMO_AVAILABLE E then [] else [(stderr, Text Ingredients.not_installed)])
       ++ [(stderr, Text Ingredients.usage)].
Proof.
  split; [| split; [| split]].
  - unfold Predictions.main, Predictions.after. simpl.
    apply in_or_app. right. left. reflexivity.
  - reflexivity.
  - vm_compute. tauto.
  - reflexivity.
Qed.

(** ** The dataset generator *)

Lemma fallback_products_spec {W : Generator.World} (category : string) (start_id : Z)
      (count i : nat) (s : Generator.state) :
  let products := fst (Generator.fallback_products category start_id i count s) in
  List.length products = count
  /\ map (Generator.lookup "category") products = repeat (Some (JStr category)) count
  /\ Generator.product_ids products
     = map (fun k => Some (JInt (start_id + Z.of_nat k))) (seq i count).
Proof.
  revert i s. induction count as [| count IH]; intros i s; simpl.
  - repeat split.
  - unfold Generator.fallback_product.
    destruct (Generator.pick (Generator.brands category) s) as [brand s1].
    destruct (Generator.category_profile category s1)
      as [[[[items size_options] unit] price_range] s2].
    destruct (Generator.pick items s2) as [name s3].
    destruct (Generator.pick size_options s3) as [size s4].
    destruct (Generator.random_random s4) as [u s5].
    specialize (IH (S i) s5). simpl in IH.
    destruct (Generator.fallback_products category start_id (S i) count s5)
      as [products s6].
    simpl in *. destruct IH as (Hlen & Hcat & Hids).
    repeat split.
    + f_equal. exact Hlen.
    + f_equal. exact Hcat.
    + unfold Generator.product_ids in *. simpl. f_equal. exact Hids.
Qed.

(** C7.  When the call to the completion API raises,
    [generate_base_products_batch] returns what
    [generate_fallback_batch] returns: [batch_size] products, each with
    the requested category, with the ids [start_id], [start_id + 1],
    ..., [start_id + batch_size - 1] in this order. *)
Theorem fallback_batch_on_api_failure {W : Generator.World}
        (category : string) (batch_size : nat) (start_id : Z)
        (s s' : Generator.state) (e : exn) :
  Generator.chat_completion category batch_size s = (Raise e, s') ->
  Generator.generate_base_products_batch category batch_size start_id s
  = Generator.generate_fallback_batch category batch_size start_id s'
  /\ (let products := fst (Generator.generate_fallback_batch
                             category batch_size start_id s') in
      List.length products = batch_size
      /\ map (Generator.lookup "category") products
         = repeat (Some (JStr category)) batch_size
      /\ Generator.product_ids products = consecutive_ids start_id batch_size).
Proof.
  intros Hcall. split.
  - unfold Generator.generate_base_products_batch. rewrite Hcall. reflexivity.
  - apply fallback_products_spec.
Qed.

Lemma fallback_batch_on_api_failure_witness :
  let s := (0, 0%nat) in
  Generator.generate_base_products_batch (W := Sample.silent_world) "Dairy" 3 10 s
  = Generator.generate_fallback_batch (W := Sample.silent_world) "Dairy" 3 10 s
  /\ (let products := fst (Generator.generate_fallback_batch
                             (W := Sample.silent_world) "Dairy" 3 10 s) in
      List.length products = 3%nat
      /\ map (Generator.lookup "category") products = repeat (Some (JStr "Dairy")) 3
      /\ Generator.product_ids products = consecutive_ids 10 3).
Proof.
  apply (fallback_batch_on_api_failure (W := Sample.silent_world) "Dairy" 3 10
           (0, 0%nat) (0, 0%nat) (ExternalError "connection refused")).
  reflexivity.
Defined.

(** C5 fails for the product ids.  The API answers the first call with
    a list whose first entry lacks the required keys; the valid second
    entry gets the id [start_id + 1] = 2 while the counter advances by
    one, to 2, so the first similar product gets the id 2 as well. *)
Theorem product_ids_collide :
  let products :=
    fst (fst (Generator.generate_products_via_api (W := Sample.sample_world)
                50 30 0.6 0.4 (0, 0%nat))) in
  nth_error (Generator.product_ids products) 0 = Some (Some (JInt 2))
  /\ nth_error (Generator.product_ids products) 1 = Some (Some (JInt 2))
  /\ ~ NoDup (Generator.product_ids products).
Proof.
  intros products.
  assert (Hids : exists rest,
             Generator.product_ids products = Some (JInt 2) :: Some (JInt 2) :: rest).
  { eexists. subst products. vm_compute. reflexivity. }
  destruct Hids as (rest & ->). simpl.
  split; [reflexivity |]. split; [reflexivity |].
  intros H. inversion H as [| x l Hnotin _]; subst. apply Hnotin. left. reflexivity.
Qed.

Lemma and_then_ok {W : Generator.World} {A B : Type}
      (m : Generator.gen A) (k : A -> Generator.gen B)
      (s s' : Generator.state) (b : B) :
  Generator.and_then m k s = (Ok b, s') ->
  exists a s1, m s = (Ok a, s1) /\ k a s1 = (Ok b, s').
Proof.
  unfold Generator.and_then. destruct (m s) as [[a | e] s1]; intros H.
  - exists a, s1. split; [reflexivity | exact H].
  - discriminate.
Qed.

Ltac invert_and_then H :=
  apply and_then_ok in H;
  let a := fresh "a" in
  let s1 := fresh "s" in
  let Hm := fresh "Hm" in
  destruct H as (a & s1 & Hm & H).

Lemma item_of_is_order_item {W : Generator.World}
      (products : list Generator.dict) (substitutions : Generator.id_map)
      (order_id household_size pid : Z) (s s' : Generator.state)
      (record : list (string * value)) :
  Generator.item_of products substitutions order_id household_size pid s
  = (Ok record, s') ->
  is_order_item record.
Proof.
  unfold Generator.item_of. intros H.
  do 5 invert_and_then H.
  destruct (Qltb _ 0.05).
  - destruct (Generator.substitutes substitutions pid) as [| candidate candidates].
    + inversion H. eexists _, _, _, _. reflexivity.
    + invert_and_then H. inversion H. eexists _, _, _, _. reflexivity.
  - inversion H. eexists _, _, _, _. reflexivity.
Qed.

Lemma items_of_basket_are_order_items {W : Generator.World}
      (products : list Generator.dict) (substitutions : Generator.id_map)
      (order_id household_size : Z) (selected : list Z) (s s' : Generator.state)
      (records : list (list (string * value))) :
  Generator.items_of_basket products substitutions order_id household_size selected s
  = (Ok records, s') ->
  Forall is_order_item records.
Proof.
  revert s records. induction selected as [| pid rest IH]; intros s records H; simpl in H.
  - inversion H. constructor.
  - do 2 invert_and_then H. inversion H; subst.
    constructor.
    + eapply item_of_is_order_item. eassumption.
    + eapply IH. eassumption.
Qed.

Lemma items_of_orders_are_order_items {W : Generator.World}
      (products : list Generator.dict) (substitutions : Generator.id_map)
      (baskets : list Generator.basket) (s s' : Generator.state)
      (records : list (list (string * value))) :
  Generator.items_of_orders products substitutions baskets s = (Ok records, s') ->
  Forall is_order_item records.
Proof.
  revert s records. induction baskets as [| b rest IH]; intros s records H; simpl in H.
  - inversion H. constructor.
  - do 2 invert_and_then H. inversion H; subst.
    apply Forall_app. split.
    + eapply items_of_basket_are_order_items. eassumption.
    + eapply IH. eassumption.
Qed.

Lemma order_item_keys (cols : list string) (records : list (list (string * value))) :
  Forall is_order_item records ->
  cols = [] \/ cols = order_item_columns ->
  fold_left add_keys records cols = [] \/ fold_left add_keys records cols = order_item_columns.
Proof.
  intros Hall. revert cols. induction Hall as [| record rest Hrecord _ IH]; intros cols Hcols.
  - exact Hcols.
  - simpl. apply IH. right.
    destruct Hrecord as (order_id & pid & quantity & sub & ->).
    destruct Hcols as [-> | ->]; reflexivity.
Qed.

Lemma generated_frame_has_no_substituted_column {W : Generator.World}
      (products : list Generator.dict) (substitutions : Generator.id_map)
      (baskets : list Generator.basket) (s s' : Generator.state) (frame : DataFrame) :
  Generator.generate_order_items products substitutions baskets s = (Ok frame, s') ->
  has_column "substituted" frame = false.
Proof.
  unfold Generator.generate_order_items. intros H.
  invert_and_then H. inversion H; subst.
  apply items_of_orders_are_order_items in Hm.
  unfold has_column, frame_of_records. simpl.
  destruct (order_item_keys [] a Hm (or_introl eq_refl)) as [-> | ->]; reflexivity.
Qed.

(** C8.  When the order items have rows for the product and no column
    named ['substituted'], [get_product_substitution_rate] does not
    return the mean of a column: it returns the rate drawn by price band
    after seeding with the product id, which does not depend on the
    order items at all.  Every frame [generate_order_items] returns is
    such a table: its columns are named [order_id], [product_id],
    [quantity] and [was_substituted]. *)
Theorem generated_tables_never_give_the_empirical_rate
        {R : Random} {W : Generator.World} :
  (forall (self : Predictions.SmartGrocerPredictor) (order_items product_orders : DataFrame)
          (pid : Z) (g : rng),
      Predictions.order_items_df self = Some order_items ->
      has_column "substituted" order_items = false ->
      df_filter_eq order_items "product_id" pid = Ok product_orders ->
      df_empty product_orders = false ->
      Predictions.rate_from_column self pid = false
      /\ Predictions.returned_rate (Predictions.get_product_substitution_rate self pid g)
         = Fin (fst (Predictions.rate_by_price (Predictions.products_df self) pid)))
  /\ (forall (products : list Generator.dict) (substitutions : Generator.id_map)
             (baskets : list Generator.basket) (s s' : Generator.state)
             (frame : DataFrame),
         Generator.generate_order_items products substitutions baskets s = (Ok frame, s') ->
         has_column "substituted" frame = false).
Proof.
  split.
  - intros self order_items product_orders pid g Hdf Hcol Hfilter Hrows.
    assert (Hcol' : has_column "substituted" product_orders = false).
    { unfold df_filter_eq in Hfilter.
      destruct (index_of "product_id" (columns order_items)); [| discriminate].
      inversion Hfilter. exact Hcol. }
    unfold Predictions.rate_from_column, Predictions.get_product_substitution_rate,
      Predictions.substitution_rate_body, Predictions.returned_rate.
    rewrite Hdf, Hfilter, Hrows, Hcol'. split; reflexivity.
  - intros products substitutions baskets s s' frame.
    apply generated_frame_has_no_substituted_column.
Qed.

Lemma generated_tables_never_give_the_empirical_rate_witness :
  Predictions.rate_from_column (Sample.predictor None) 5 = false
  /\ Predictions.returned_rate
       (Predictions.get_product_substitution_rate (R := lcg) (Sample.predictor None) 5 0)
     = Fin (fst (Predictions.rate_by_price (R := lcg) (Some Sample.products) 5)).
Proof.
  apply (proj1 (generated_tables_never_give_the_empirical_rate
                  (R := lcg) (W := Sample.sample_world))
               (Sample.predictor None) Sample.order_items
               {| columns := columns Sample.order_items;
                  rows := [[VInt 1; VInt 5; VInt 2; VBool false];
                           [VInt 2; VInt 5; VInt 1; VBool true]] |} 5 0);
    reflexivity.
Defined.


Example sample_generated_frame :
  exists frame s',
    Generator.generate_order_items
      (W := Sample.sample_world)
      (fst (Generator.generate_fallback_batch (W := Sample.sample_world)
                                              "Produce" 3 1 (0, 0%nat)))
      [(1, [2])]
      [{| Generator.basket_order_id := 1; Generator.basket_household_size := 4;
          Generator.selected_products := [1; 3] |}]
      (7, 0%nat) = (Ok frame, s')
    /\ columns frame = order_item_columns
    /\ List.length (rows frame) = 2%nat.
Proof. eexists _, _. vm_compute. repeat split. Qed.

(** * Further properties of the code *)

(** ** The substitution rate *)

Lemma index_of_has_column (c : string) (df : DataFrame) (i : nat) :
  index_of c (columns df) = Some i -> has_column c df = true.
Proof.
  unfold has_column. generalize (columns df). intros cols. revert i.
  induction cols as [| c' cols IH]; intros i H; simpl in *.
  - discriminate.
  - destruct (String.eqb c c'); [reflexivity |]. simpl.
    destruct (index_of c cols) as [j |]; [| discriminate].
    apply (IH j). reflexivity.
Qed.

Lemma numeric_cells_of_flags (flags : list bool) :
  numeric_cells (map VBool flags)
  = Ok (map (fun b : bool => if b then 1%Q else 0%Q) flags).
Proof.
  induction flags as [| b flags IH]; simpl.
  - reflexivity.
  - rewrite IH. reflexivity.
Qed.

Lemma Qsum_of_flags (flags : list bool) :
  (Qsum (map (fun b : bool => if b then 1 else 0) flags)
   == inject_Z (Z.of_nat (count_true flags)))%Q.
Proof.
  unfold count_true. induction flags as [| b flags IH]; simpl.
  - reflexivity.
  - rewrite IH. destruct b; simpl List.length.
    + rewrite Nat2Z.inj_succ, <- Z.add_1_l, inject_Z_plus. reflexivity.
    + ring.
Qed.

Lemma count_true_le (flags : list bool) : (count_true flags <= List.length flags)%nat.
Proof. unfold count_true. apply filter_length_le. Qed.

(** X1.  When the order items have rows for the product and a
    ['substituted'] column that holds booleans there, the rate is the
    fraction of these rows that were substituted: a number between 0
    and 1, returned without printing anything. *)
Theorem rate_is_fraction_of_substituted_rows {R : Random}
        (self : Predictions.SmartGrocerPredictor) (order_items product_orders : DataFrame)
        (flags : list bool) (pid : Z) (g : rng) :
  Predictions.order_items_df self = Some order_items ->
  df_filter_eq order_items "product_id" pid = Ok product_orders ->
  df_column product_orders "substituted" = Ok (map VBool flags) ->
  flags <> [] ->
  exists q : Q,
    Predictions.returned_rate (Predictions.get_product_substitution_rate self pid g) = Fin q
    /\ (q * inject_Z (Z.of_nat (List.length flags))
        == inject_Z (Z.of_nat (count_true flags)))%Q
    /\ (0 <= q /\ q <= 1)%Q
    /\ Predictions.printed (Predictions.get_product_substitution_rate self pid g) = [].
Proof.
  intros Hdf Hfilter Hcolumn Hflags.
  assert (Hhas : has_column "substituted" product_orders = true).
  { unfold df_column in Hcolumn.
    destruct (index_of "substituted" (columns product_orders)) as [i |] eqn:Hi;
      [| discriminate].
    eapply index_of_has_column. exact Hi. }
  assert (Hrows : df_empty product_orders = false).
  { unfold df_empty. unfold df_column in Hcolumn.
    destruct (index_of "substituted" (columns product_orders)) as [i |] eqn:Hi;
      [| discriminate].
    inversion Hcolumn as [Hmap].
    destruct (rows product_orders) as [| row rest].
    - destruct flags; [congruence | discriminate].
    - destruct (columns product_orders); [discriminate | reflexivity]. }
  assert (Hlen : (0 < List.length flags)%nat).
  { destruct flags; [congruence | simpl; lia]. }
  exists (Qsum (map (fun b : bool => if b then 1%Q else 0%Q) flags)
          / inject_Z (Z.of_nat (List.length flags)))%Q.
  assert (Hpos : (0 < inject_Z (Z.of_nat (List.length flags)))%Q).
  { rewrite <- (Zlt_Qlt 0). lia. }
  split; [| split; [| split; [split |]]].
  - unfold Predictions.returned_rate, Predictions.get_product_substitution_rate,
      Predictions.substitution_rate_body.
    rewrite Hdf, Hfilter, Hrows, Hhas, Hcolumn. simpl.
    unfold series_mean. rewrite numeric_cells_of_flags. simpl.
    destruct flags as [| b flags]; [congruence |].
    simpl. rewrite length_map. reflexivity.
  - rewrite <- Qsum_of_flags. field.
    intros H0. rewrite H0 in Hpos. discriminate.
  - apply Qle_shift_div_l; [exact Hpos |]. rewrite Qmult_0_l, Qsum_of_flags.
    rewrite <- (Zle_Qle 0). lia.
  - apply Qle_shift_div_r; [exact Hpos |]. rewrite Qmult_1_l, Qsum_of_flags.
    rewrite <- Zle_Qle. pose proof (count_true_le flags). lia.
  - unfold Predictions.printed, Predictions.get_product_substitution_rate,
      Predictions.substitution_rate_body.
    rewrite Hdf, Hfilter, Hrows, Hhas, Hcolumn. simpl.
    unfold series_mean. rewrite numeric_cells_of_flags. reflexivity.
Qed.

Lemma rate_is_fraction_of_substituted_rows_witness :
  let order_items := {| columns := ["product_id"; "substituted"];
                        rows := [[VInt 5; VBool true]; [VInt 7; VBool true];
                                 [VInt 5; VBool false]; [VInt 5; VBool false]] |} in
  let self := {| Predictions.model := None; Predictions.users_df := None;
                 Predictions.products_df := None; Predictions.orders_df := None;
                 Predictions.order_items_df := Some order_items;
                 Predictions.order_items_join := None;
                 Predictions.avg_quantities := [] |} in
  exists q : Q,
    Predictions.returned_rate
      (Predictions.get_product_substitution_rate (R := lcg) self 5 0) = Fin q
    /\ (q * inject_Z 3 == inject_Z 1)%Q
    /\ (0 <= q /\ q <= 1)%Q
    /\ Predictions.printed
         (Predictions.get_product_substitution_rate (R := lcg) self 5 0) = [].
Proof.
  intros order_items self.
  apply (rate_is_fraction_of_substituted_rows
           (R := lcg) self order_items
           {| columns := ["product_id"; "substituted"];
              rows := [[VInt 5; VBool true]; [VInt 5; VBool false];
                       [VInt 5; VBool false]] |}
           [true; false; false] 5 0).
  - reflexivity.
  - reflexivity.
  - reflexivity.
  - discriminate.
Defined.

Lemma rate_in_thousandths_between (lo hi : Z) (r : Q) :
  rate_in_thousandths lo hi r ->
  (inject_Z lo / 1000 <= r /\ r <= inject_Z hi / 1000)%Q
  /\ exists k : Z, (r == k # 1000)%Q.
Proof.
  intros (k & -> & Hk). split; [split |].
  - unfold Qle. simpl. lia.
  - unfold Qle. simpl. lia.
  - exists k. unfold Qeq. simpl. lia.
Qed.

(** X2.  Whatever exception the body of [get_product_substitution_rate]
    raises, the method reports it in one message on standard error and
    returns a rate between 0.01 and 0.05 with three decimals. *)
Theorem internal_exception_is_reported {R : Random}
        (HR : random_in_unit_interval R)
        (self : Predictions.SmartGrocerPredictor) (pid : Z) (g : rng) (e : exn) :
  fst (Predictions.substitution_rate_body self pid g) = Raise e ->
  Predictions.printed (Predictions.get_product_substitution_rate self pid g)
  = [(stderr, Text ("Error calculating substitution rate for product "
                    ++ str_of_Z pid ++ ": " ++ exn_message e)%string)]
  /\ exists r : Q,
       Predictions.returned_rate (Predictions.get_product_substitution_rate self pid g)
       = Fin r
       /\ (0.01 <= r /\ r <= 0.05)%Q
       /\ exists k : Z, (r == k # 1000)%Q.
Proof.
  intros Hraise.
  unfold Predictions.printed, Predictions.returned_rate,
    Predictions.get_product_substitution_rate.
  destruct (Predictions.substitution_rate_body self pid g) as [[rate | e'] g'];
    simpl in Hraise; [discriminate |].
  inversion Hraise; subst e'. simpl. split; [reflexivity |].
  eexists. split; [reflexivity |].
  assert (H : rate_in_thousandths 10 50 (fst (rounded_uniform 0.01 0.05 (seed pid)))).
  { rounded_uniform_in_range HR. }
  apply rate_in_thousandths_between in H. destruct H as [[Hlo Hhi] Hk].
  split; [split | exact Hk].
  - eapply Qle_trans; [| exact Hlo]. unfold Qle. simpl. lia.
  - eapply Qle_trans; [exact Hhi |]. unfold Qle. simpl. lia.
Qed.

Lemma internal_exception_is_reported_witness :
  let order_items := {| columns := ["order_id"; "quantity"];
                        rows := [[VInt 1; VInt 2]] |} in
  let self := {| Predictions.model := None; Predictions.users_df := None;
                 Predictions.products_df := None; Predictions.orders_df := None;
                 Predictions.order_items_df := Some order_items;
                 Predictions.order_items_join := None;
                 Predictions.avg_quantities := [] |} in
  Predictions.printed (Predictions.get_product_substitution_rate (R := lcg) self 5 0)
  = [(stderr, Text "Error calculating substitution rate for product 5: 'product_id'")]
  /\ exists r : Q,
       Predictions.returned_rate
         (Predictions.get_product_substitution_rate (R := lcg) self 5 0) = Fin r
       /\ (0.01 <= r /\ r <= 0.05)%Q
       /\ exists k : Z, (r == k # 1000)%Q.
Proof.
  intros order_items self.
  apply (internal_exception_is_reported (R := lcg) lcg_in_unit_interval self 5 0
           (KeyError "product_id")).
  reflexivity.
Defined.




(** Only the bound falls with the price.  The bands overlap, and the
    rates are not monotone in the price: with the sample generator a
    product at 12.50 gets a higher rate than a product at 1.99. *)
Example sample_rates_are_not_monotone :
  let dear := {| product_id := 12; product_name := "Olive Oil"; brand := "Bertolli";
                 category := "Pantry Staples"; size := "1 l"; unit := "l";
                 price_per_unit := Fin 12.50 |} in
  let cheap := {| product_id := 2; product_name := "Bananas"; brand := "Local Farm";
                  category := "Produce"; size := "1 lb"; unit := "lb";
                  price_per_unit := Fin 1.99 |} in
  let self := {| Predictions.model := None;
                 Predictions.users_df := Some [Sample.user];
                 Predictions.products_df := Some [dear; cheap];
                 Predictions.orders_df := Some Sample.orders;
                 Predictions.order_items_df :=
                   Some {| columns := ["order_id"; "product_id"; "quantity";
                                       "was_substituted"];
                           rows := [[VInt 1; VInt 12; VInt 1; VBool false];
                                    [VInt 1; VInt 2; VInt 3; VBool false]] |};
                 Predictions.order_items_join := None;
                 Predictions.avg_quantities := [] |} in
  exists r_dear r_cheap : Q,
    Predictions.returned_rate
      (Predictions.get_product_substitution_rate (R := lcg) self 12 0) = Fin r_dear
    /\ Predictions.returned_rate
         (Predictions.get_product_substitution_rate (R := lcg) self 2 0) = Fin r_cheap
    /\ (r_cheap < r_dear)%Q.
Proof.
  intros dear cheap self. eexists _, _.
  split; [vm_compute; reflexivity |]. split; [vm_compute; reflexivity |].
  vm_compute. reflexivity.
Qed.

(** ** Batches of substitution rates *)

Lemma rate_ignores_random_state {R : Random}
      (self : Predictions.SmartGrocerPredictor) (pid : Z) (g1 g2 : rng) :
  Predictions.returned_rate (Predictions.get_product_substitution_rate self pid g1)
  = Predictions.returned_rate (Predictions.get_product_substitution_rate self pid g2).
Proof.
  unfold Predictions.get_product_substitution_rate, Predictions.substitution_rate_body.
  destruct (Predictions.order_items_df self) as [order_items |]; [| reflexivity].
  destruct (df_filter_eq order_items "product_id" pid) as [product_orders | e];
    [| reflexivity].
  destruct (df_empty product_orders); [reflexivity |].
  destruct (has_column "substituted" product_orders); [| reflexivity].
  destruct (s <- df_column product_orders "substituted" ;; series_mean s); reflexivity.
Qed.

Lemma assoc_dict_set {V : Type} (d : list (Z * V)) (key key' : Z) (v : V) :
  assoc key' (Predictions.dict_set d key v)
  = if key =? key' then Some v else assoc key' d.
Proof.
  induction d as [| [k old] d IH]; simpl.
  - reflexivity.
  - destruct (k =? key) eqn:Hk; simpl.
    + apply Z.eqb_eq in Hk. subst k. destruct (key =? key'); reflexivity.
    + destruct (k =? key') eqn:Hk'; [| exact IH].
      apply Z.eqb_eq in Hk'. subst k. rewrite Z.eqb_sym, Hk. reflexivity.
Qed.

Lemma dict_set_keys {V : Type} (d : list (Z * V)) (key : Z) (v : V) :
  map fst (Predictions.dict_set d key v)
  = if mem key (map fst d) then map fst d else map fst d ++ [key].
Proof.
  unfold mem. induction d as [| [k old] d IH]; simpl.
  - reflexivity.
  - rewrite (Z.eqb_sym key k). destruct (k =? key); simpl; [reflexivity |].
    rewrite IH. destruct (existsb (Z.eqb key) (map fst d)); reflexivity.
Qed.

Lemma batch_rates_spec {R : Random} (self : Predictions.SmartGrocerPredictor)
      (g0 : rng) (ids : list Z) (rates : list (Z * pyfloat)) (g : rng) :
  let result := snd (fst (Predictions.batch_rates self ids rates g)) in
  (forall pid,
      assoc pid result
      = if mem pid ids
        then Some (Predictions.returned_rate
                     (Predictions.get_product_substitution_rate self pid g0))
        else assoc pid rates)
  /\ (NoDup (map fst rates) -> NoDup (map fst result))
  /\ (forall pid, In pid (map fst result) <-> In pid (map fst rates) \/ In pid ids).
Proof.
  revert rates g. induction ids as [| pid0 rest IH]; intros rates g; simpl.
  - repeat split; auto. tauto.
  - pose proof (rate_ignores_random_state self pid0 g g0) as Hsame.
    unfold Predictions.returned_rate in Hsame.
    destruct (Predictions.get_product_substitution_rate self pid0 g)
      as [[out rate] g1]. simpl in Hsame. subst rate.
    specialize (IH (Predictions.dict_set rates pid0
                      (snd (fst (Predictions.get_product_substitution_rate self pid0 g0))))
                   g1).
    destruct (Predictions.batch_rates self rest _ g1) as [[out' rates'] g2].
    simpl in *. destruct IH as (Hlookup & Hnodup & Hkeys).
    split; [| split].
    + intros pid. rewrite Hlookup, assoc_dict_set. unfold mem. simpl.
      rewrite (Z.eqb_sym pid pid0).
      destruct (existsb (Z.eqb pid) rest); [rewrite orb_true_r; reflexivity |].
      rewrite orb_false_r. destruct (pid0 =? pid) eqn:Heq; [| reflexivity].
      apply Z.eqb_eq in Heq. subst pid. reflexivity.
    + intros Hrates. apply Hnodup. rewrite dict_set_keys.
      destruct (mem pid0 (map fst rates)) eqn:Hmem; [exact Hrates |].
      apply NoDup_app; [exact Hrates | repeat constructor; simpl; tauto |].
      intros x Hx [<- | []].
      apply mem_In in Hx. congruence.
    + intros pid. rewrite Hkeys, dict_set_keys.
      destruct (mem pid0 (map fst rates)) eqn:Hmem.
      * apply mem_In in Hmem. split; [tauto |].
        intros [H | [<- | H]]; tauto.
      * rewrite in_app_iff. simpl. tauto.
Qed.

(** X4.  A batch of substitution rates holds, for every requested id,
    the rate a single request for this id returns, whatever the order
    of the batch and however often the id is repeated; every requested
    id appears once among the keys, and no other key appears. *)
Theorem batch_rates_are_the_single_rates {R : Random}
        (self : Predictions.SmartGrocerPredictor) (ids : list Z) (g g0 : rng) :
  let result := snd (fst (Predictions.batch_rates self ids [] g)) in
  (forall pid, In pid ids ->
      assoc pid result
      = Some (Predictions.returned_rate
                (Predictions.get_product_substitution_rate self pid g0)))
  /\ NoDup (map fst result)
  /\ (forall pid, In pid (map fst result) <-> In pid ids).
Proof.
  destruct (batch_rates_spec self g0 ids [] g) as (Hlookup & Hnodup & Hkeys).
  split; [| split].
  - intros pid Hin. rewrite Hlookup. apply mem_In in Hin. rewrite Hin. reflexivity.
  - apply Hnodup. constructor.
  - intros pid. rewrite Hkeys. simpl. tauto.
Qed.

Example sample_batch_rates :
  map fst (snd (fst (Predictions.batch_rates (R := lcg) (Sample.predictor None)
                                             [7; 5; 7] [] 0)))
  = [7; 5].
Proof. vm_compute. reflexivity. Qed.

(** ** Predictions from the model *)

Lemma matching_rows_of_int (products : list Product) (pid : Z) :
  filter (fun p => pid =? product_id p) products = products_with_id products pid.
Proof.
  unfold products_with_id. apply filter_ext. intros p. apply Z.eqb_sym.
Qed.

Lemma cart_predictions_spec (self : Predictions.SmartGrocerPredictor)
      (products : list Product) (ids : list Z) :
  Predictions.products_df self = Some products ->
  exists predictions,
    Predictions.cart_predictions self (map VInt ids) = Ok predictions
    /\ map Predictions.pred_product_id predictions = filter (in_table products) ids
    /\ Forall (fun p =>
                 Predictions.pred_confidence p = 0.95%Q
                 /\ Predictions.pred_quantity p
                    = Some (dict_get (Predictions.avg_quantities self)
                                     (VInt (Predictions.pred_product_id p)) 1)
                 /\ describes_table_row products p) predictions.
Proof.
  intros Hproducts. induction ids as [| pid rest IH]; simpl.
  - exists []. repeat split; constructor.
  - destruct IH as (predictions & Hrest & Hids & Hall).
    rewrite Hproducts. simpl. rewrite matching_rows_of_int. unfold in_table at 1.
    destruct (products_with_id products pid) as [| product others] eqn:Hrow.
    + exists predictions. repeat split; assumption.
    + rewrite Hrest. simpl. eexists. split; [reflexivity |].
      split; [simpl; f_equal; exact Hids |].
      constructor; [| exact Hall]. simpl.
      split; [reflexivity |]. split; [reflexivity |].
      exists product, others. simpl. rewrite Hrow. repeat split; reflexivity.
Qed.

(** X5.  When the model answers the ranking query of
    [predict_cart_items] with a list of ids, the method returns one
    prediction per id that has a row in the products table, in the
    model's order and however many there are: each describes that row,
    with confidence 0.95 and the average quantity of the product (1
    when none is known). *)
Theorem cart_predictions_follow_the_model
        (E : Env) (self : Predictions.SmartGrocerPredictor) (m : Model)
        (products : list Product) (ids : list Z) (uid num_predictions : Z)
        (frame : option DataFrame) :
  Predictions.model self = Some m ->
  KUMO_AVAILABLE E = true ->
  Predictions.products_df self = Some products ->
  m (Predictions.products_query
       (Z.min num_predictions (Predictions.number_of_products m uid)) uid) = Ok frame ->
  result_attr frame "CLASS" = Ok (map VInt ids) ->
  exists predictions,
    snd (Predictions.predict_cart_items E self uid num_predictions) = Ok predictions
    /\ map Predictions.pred_product_id predictions = filter (in_table products) ids
    /\ Forall (fun p =>
                 Predictions.pred_confidence p = 0.95%Q
                 /\ Predictions.pred_quantity p
                    = Some (dict_get (Predictions.avg_quantities self)
                                     (VInt (Predictions.pred_product_id p)) 1)
                 /\ describes_table_row products p) predictions.
Proof.
  intros Hm Hon Hproducts Hquery Hclass.
  destruct (cart_predictions_spec self products ids Hproducts)
    as (predictions & Hrun & Hids & Hall).
  exists predictions. split; [| split; assumption].
  unfold Predictions.predict_cart_items.
  rewrite Hm, Hon, Hquery. simpl. rewrite Hclass. simpl. rewrite Hrun. reflexivity.
Qed.

Lemma cart_predictions_follow_the_model_witness :
  let m := Sample.ranking_model [7; 9; 5] in
  exists predictions,
    snd (Predictions.predict_cart_items (Sample.online m)
                                        (Sample.predictor (Some m)) 1 2) = Ok predictions
    /\ map Predictions.pred_product_id predictions
       = filter (in_table Sample.products) [7; 9; 5]
    /\ Forall (fun p =>
                 Predictions.pred_confidence p = 0.95%Q
                 /\ Predictions.pred_quantity p
                    = Some (dict_get [(5, 2); (7, 1)]
                                     (VInt (Predictions.pred_product_id p)) 1)
                 /\ describes_table_row Sample.products p) predictions.
Proof.
  intros m.
  apply (cart_predictions_follow_the_model
           (Sample.online m) (Sample.predictor (Some m)) m Sample.products [7; 9; 5] 1 2
           (Some {| columns := ["CLASS"]; rows := [[VInt 7]; [VInt 9]; [VInt 5]] |}));
    reflexivity.
Defined.

Lemma recommendations_spec (self : Predictions.SmartGrocerPredictor)
      (products : list Product) (ids : list Z) :
  Predictions.products_df self = Some products ->
  exists recommendations,
    Predictions.recommendations_of self (map VInt ids) = Ok recommendations
    /\ map Predictions.pred_product_id recommendations = filter (in_table products) ids
    /\ Forall (fun p =>
                 Predictions.pred_confidence p = 0.9%Q
                 /\ Predictions.pred_quantity p = None
                 /\ describes_table_row products p) recommendations.
Proof.
  intros Hproducts. induction ids as [| pid rest IH]; simpl.
  - exists []. repeat split; constructor.
  - destruct IH as (recommendations & Hrest & Hids & Hall).
    rewrite Hproducts. simpl. rewrite matching_rows_of_int. unfold in_table at 1.
    destruct (products_with_id products pid) as [| product others] eqn:Hrow.
    + exists recommendations. repeat split; assumption.
    + rewrite Hrest. simpl. eexists. split; [reflexivity |].
      split; [simpl; f_equal; exact Hids |].
      constructor; [| exact Hall]. simpl.
      split; [reflexivity |]. split; [reflexivity |].
      exists product, others. simpl. rewrite Hrow. repeat split; reflexivity.
Qed.

(** X6.  When the model answers the query of
    [predict_recommendations] with a list of ids, the method returns
    one recommendation per id that has a row in the products table, in
    the model's order: each describes that row, with confidence 0.9 and
    no quantity. *)
Theorem recommendations_follow_the_model
        (E : Env) (self : Predictions.SmartGrocerPredictor) (m : Model)
        (products : list Product) (ids : list Z) (uid num_recommendations : Z)
        (frame : option DataFrame) :
  Predictions.model self = Some m ->
  KUMO_AVAILABLE E = true ->
  Predictions.products_df self = Some products ->
  m (Predictions.recommendations_query num_recommendations uid) = Ok frame ->
  result_attr frame "CLASS" = Ok (map VInt ids) ->
  exists recommendations,
    snd (Predictions.predict_recommendations E self uid num_recommendations)
    = Ok recommendations
    /\ map Predictions.pred_product_id recommendations = filter (in_table products) ids
    /\ Forall (fun p =>
                 Predictions.pred_confidence p = 0.9%Q
                 /\ Predictions.pred_quantity p = None
                 /\ describes_table_row products p) recommendations.
Proof.
  intros Hm Hon Hproducts Hquery Hclass.
  destruct (recommendations_spec self products ids Hproducts)
    as (recommendations & Hrun & Hids & Hall).
  exists recommendations. split; [| split; assumption].
  unfold Predictions.predict_recommendations.
  rewrite Hm, Hon, Hquery. simpl. rewrite Hclass. simpl. rewrite Hrun. reflexivity.
Qed.

Lemma recommendations_follow_the_model_witness :
  let m := Sample.ranking_model [7; 9; 5] in
  exists recommendations,
    snd (Predictions.predict_recommendations (Sample.online m)
                                             (Sample.predictor (Some m)) 1 8)
    = Ok recommendations
    /\ map Predictions.pred_product_id recommendations
       = filter (in_table Sample.products) [7; 9; 5]
    /\ Forall (fun p =>
                 Predictions.pred_confidence p = 0.9%Q
                 /\ Predictions.pred_quantity p = None
                 /\ describes_table_row Sample.products p) recommendations.
Proof.
  intros m.
  apply (recommendations_follow_the_model
           (Sample.online m) (Sample.predictor (Some m)) m Sample.products [7; 9; 5] 1 8
           (Some {| columns := ["CLASS"]; rows := [[VInt 7]; [VInt 9]; [VInt 5]] |}));
    reflexivity.
Defined.

(** ** The fallbacks *)

Lemma firstn_incl {A : Type} (k : nat) (l : list A) (x : A) :
  In x (firstn k l) -> In x l.
Proof.
  intros H. rewrite <- (firstn_skipn k l). apply in_or_app. left. exact H.
Qed.

Lemma take_incl {A : Type} (n : Z) (l : list A) (x : A) : In x (take n l) -> In x l.
Proof.
  unfold take. destruct (0 <=? n); apply firstn_incl.
Qed.

Lemma take_length {A : Type} (n : Z) (l : list A) :
  0 <= n -> (List.length (take n l) <= Z.to_nat n)%nat.
Proof.
  intros Hn. unfold take. destruct (0 <=? n) eqn:H; [| lia].
  apply firstn_le_length.
Qed.

Lemma suitable_for_incl (pref : string) (products : list Product) (p : Product) :
  In p (Predictions.suitable_for pref products) ->
  In p products /\ (String.eqb pref "vegetarian" = true -> category p = "Produce").
Proof.
  unfold Predictions.suitable_for. destruct (String.eqb pref "vegetarian").
  - intros H. apply filter_In in H. destruct H as [Hin Hcat].
    split; [exact Hin |]. intros _. apply String.eqb_eq. exact Hcat.
  - intros H. split; [exact H | discriminate].
Qed.

(** X7.  [_fallback_recommendations] answers an unknown user with the
    empty list.  For a known user every recommendation copies a row of
    the products table, has confidence 0.75 and no quantity; for a
    vegetarian user all of them are in category Produce; and a
    non-negative [num_recommendations] bounds their number. *)
Theorem fallback_recommendations_suit_the_user
        (self : Predictions.SmartGrocerPredictor) (users : list User)
        (products : list Product) (uid num_recommendations : Z) :
  Predictions.users_df self = Some users ->
  Predictions.products_df self = Some products ->
  let result := Predictions._fallback_recommendations self uid num_recommendations in
  (Predictions.users_with_id users uid = [] -> result = [])
  /\ (forall user others,
         Predictions.users_with_id users uid = user :: others ->
         Forall (fun r =>
                   copies_a_row products r
                   /\ Predictions.pred_confidence r = 0.75%Q
                   /\ Predictions.pred_quantity r = None
                   /\ (vegetarian user = true -> Predictions.pred_category r = "Produce"))
                result)
  /\ (0 <= num_recommendations ->
      (List.length result <= Z.to_nat num_recommendations)%nat).
Proof.
  intros Husers Hproducts result. subst result.
  unfold Predictions._fallback_recommendations. rewrite Husers, Hproducts.
  split; [| split].
  - intros Hnone. rewrite Hnone. reflexivity.
  - intros user others Hrow. rewrite Hrow. apply Forall_forall. intros r Hr.
    apply in_map_iff in Hr. destruct Hr as (product & Hr & Hin). subst r.
    apply take_incl in Hin. apply suitable_for_incl in Hin. destruct Hin as [Hin Hveg].
    split; [exists product; simpl; repeat split; auto |].
    split; [reflexivity |]. split; [reflexivity |]. exact Hveg.
  - intros Hn. destruct (Predictions.users_with_id users uid); simpl; [lia |].
    rewrite length_map. apply take_length. exact Hn.
Qed.

Lemma fallback_recommendations_suit_the_user_witness :
  let result := Predictions._fallback_recommendations (Sample.predictor None) 1 8 in
  (Predictions.users_with_id [Sample.user] 1 = [] -> result = [])
  /\ (forall user others,
         Predictions.users_with_id [Sample.user] 1 = user :: others ->
         Forall (fun r =>
                   copies_a_row Sample.products r
                   /\ Predictions.pred_confidence r = 0.75%Q
                   /\ Predictions.pred_quantity r = None
                   /\ (vegetarian user = true -> Predictions.pred_category r = "Produce"))
                result)
  /\ (0 <= 8 -> (List.length result <= Z.to_nat 8)%nat).
Proof.
  apply (fallback_recommendations_suit_the_user
           (Sample.predictor None) [Sample.user] Sample.products 1 8); reflexivity.
Defined.

(** X8.  [_fallback_predictions], when sorting by price only reorders
    the table: an unknown user gets the empty list; for a known user
    every prediction copies a row of the products table with the
    average quantity of its product (1 when none is known); its
    confidence is 0.8 exactly when the user is vegetarian, and then
    every prediction is in category Produce; a non-negative
    [num_predictions] bounds the number of predictions. *)
Theorem fallback_predictions_suit_the_user
        (E : Env) (self : Predictions.SmartGrocerPredictor) (users : list User)
        (products : list Product) (uid num_predictions : Z) :
  Predictions.users_df self = Some users ->
  Predictions.products_df self = Some products ->
  (forall ascending l p, In p (sort_by_price E ascending l) -> In p l) ->
  let result := Predictions._fallback_predictions E self uid num_predictions in
  (Predictions.users_with_id users uid = [] -> result = [])
  /\ (forall user others,
         Predictions.users_with_id users uid = user :: others ->
         Forall (fun r =>
                   copies_a_row products r
                   /\ Predictions.pred_confidence r
                      = (if vegetarian user then 0.8%Q else 0.7%Q)
                   /\ Predictions.pred_quantity r
                      = Some (dict_get (Predictions.avg_quantities self)
                                       (VInt (Predictions.pred_product_id r)) 1)
                   /\ (vegetarian user = true -> Predictions.pred_category r = "Produce"))
                result)
  /\ (0 <= num_predictions -> (List.length result <= Z.to_nat num_predictions)%nat).
Proof.
  intros Husers Hproducts Hsort result. subst result.
  unfold Predictions._fallback_predictions. rewrite Husers, Hproducts.
  split; [| split].
  - intros Hnone. rewrite Hnone. reflexivity.
  - intros user others Hrow. rewrite Hrow. apply Forall_forall. intros r Hr.
    apply in_map_iff in Hr. destruct Hr as (product & Hr & Hin). subst r.
    apply take_incl in Hin.
    assert (Hsuit : In product (Predictions.suitable_for (dietary_preference user) products)).
    { destruct (household_size user >? 2); apply Hsort in Hin; exact Hin. }
    apply suitable_for_incl in Hsuit. destruct Hsuit as [Hmem Hveg].
    split; [exists product; simpl; repeat split; auto |].
    unfold vegetarian. simpl.
    split; [| split; [reflexivity | exact Hveg]].
    destruct (String.eqb (dietary_preference user) "vegetarian") eqn:Hv;
      [| reflexivity].
    rewrite (Hveg eq_refl). reflexivity.
  - intros Hn. destruct (Predictions.users_with_id users uid); simpl; [lia |].
    rewrite length_map. apply take_length. exact Hn.
Qed.

Lemma insert_by_price_incl (ascending : bool) (p q : Product) (l : list Product) :
  In p (Sample.insert_by_price ascending q l) -> p = q \/ In p l.
Proof.
  induction l as [| r l IH]; simpl.
  - intros [H | []]. left. symmetry. exact H.
  - destruct (Sample.price_le ascending q r); simpl.
    + intros [H | H]; [left; symmetry; exact H | right; exact H].
    + intros [H | H]; [right; left; exact H |].
      destruct (IH H) as [Hq | Hl]; [left; exact Hq | right; right; exact Hl].
Qed.

Lemma sample_sort_incl (ascending : bool) (l : list Product) (p : Product) :
  In p (Sample.sample_sort ascending l) -> In p l.
Proof.
  induction l as [| q l IH]; simpl; [tauto |].
  intros H. apply insert_by_price_incl in H.
  destruct H as [H | H]; [left; symmetry; exact H | right; apply IH; exact H].
Qed.

Lemma fallback_predictions_suit_the_user_witness :
  let result :=
    Predictions._fallback_predictions Sample.offline (Sample.predictor None) 1 5 in
  (Predictions.users_with_id [Sample.user] 1 = [] -> result = [])
  /\ (forall user others,
         Predictions.users_with_id [Sample.user] 1 = user :: others ->
         Forall (fun r =>
                   copies_a_row Sample.products r
                   /\ Predictions.pred_confidence r
                      = (if vegetarian user then 0.8%Q else 0.7%Q)
                   /\ Predictions.pred_quantity r
                      = Some (dict_get [(5, 2); (7, 1)]
                                       (VInt (Predictions.pred_product_id r)) 1)
                   /\ (vegetarian user = true -> Predictions.pred_category r = "Produce"))
                result)
  /\ (0 <= 5 -> (List.length result <= Z.to_nat 5)%nat).
Proof.
  apply (fallback_predictions_suit_the_user
           Sample.offline (Sample.predictor None) [Sample.user] Sample.products 1 5);
    [reflexivity | reflexivity |].
  intros ascending l p. apply sample_sort_incl.
Defined.

(** ** Delivery windows *)

(** X9.  The start of a window written with a twelve-hour clock: for
    an hour [h] from 1 to 12, ["<h>am-..."] starts at [h] (at 0 for
    12am) and ["<h>pm-..."] at [h + 12] (at 12 for 12pm), whatever
    follows the hyphen. *)
Theorem start_hour_of_twelve_hour_clock (h : Z) (rest : string) :
  1 <= h <= 12 ->
  Predictions.start_hour (str_of_Z h ++ "am-" ++ rest) = Ok (h mod 12)
  /\ Predictions.start_hour (str_of_Z h ++ "pm-" ++ rest) = Ok (h mod 12 + 12).
Proof.
  intros Hh.
  assert (Hcases : h = 1 \/ h = 2 \/ h = 3 \/ h = 4 \/ h = 5 \/ h = 6 \/ h = 7
                   \/ h = 8 \/ h = 9 \/ h = 10 \/ h = 11 \/ h = 12) by lia.
  repeat (destruct Hcases as [-> | Hcases]); try subst h; split; reflexivity.
Qed.

Lemma start_hour_of_twelve_hour_clock_witness :
  Predictions.start_hour (str_of_Z 12 ++ "am-" ++ "2am") = Ok (12 mod 12)
  /\ Predictions.start_hour (str_of_Z 12 ++ "pm-" ++ "2am") = Ok (12 mod 12 + 12).
Proof.
  apply (start_hour_of_twelve_hour_clock 12 "2am"). lia.
Defined.

Lemma current_time_in_total (E : Env) (timezone : string) :
  exists t, snd (Predictions.current_time_in E timezone) = Ok t
            /\ Forall on_stderr (fst (Predictions.current_time_in E timezone)).
Proof.
  unfold Predictions.current_time_in.
  destruct (String.eqb timezone "UTC"); [| destruct (known_timezone E timezone)];
    simpl; eexists; (split; [reflexivity |]); repeat constructor.
Qed.

Lemma take_is_a_prefix {A : Type} (n : Z) (l : list A) :
  exists k, take n l = firstn k l.
Proof.
  unfold take. destruct (0 <=? n); eexists; reflexivity.
Qed.

Lemma firstn_of_five {A : Type} (k : nat) (a b c d e : A) :
  let l := [a; b; c; d; e] in
  firstn k l = [] \/ firstn k l = [a] \/ firstn k l = [a; b] \/ firstn k l = [a; b; c]
  \/ firstn k l = [a; b; c; d] \/ firstn k l = l.
Proof.
  intros l. subst l.
  do 5 (destruct k as [| k]; [simpl; auto 10 |]).
  simpl. rewrite firstn_nil. auto 10.
Qed.

Lemma make_slot_on_the_hour (E : Env) (t : datetime) (window : string) (hour : Z)
      (sc : pyfloat) :
  Predictions.start_hour window = Ok hour ->
  0 <= hour <= 23 ->
  exists slot,
    Predictions.make_slot E t window (Ok sc) = Ok slot
    /\ Predictions.time_window slot = window
    /\ Predictions.score slot = sc
    /\ (window_is_past t hour ->
        Predictions.date_label slot = "Tomorrow"
        /\ Predictions.full_datetime slot = isoformat E (on_the_hour t 1 hour))
    /\ (~ window_is_past t hour ->
        Predictions.date_label slot = "Today"
        /\ Predictions.full_datetime slot = isoformat E (on_the_hour t 0 hour)).
Proof.
  intros Hstart Hhour. unfold Predictions.make_slot. rewrite Hstart. simpl.
  unfold replace_hour.
  replace ((0 <=? hour) && (hour <=? 23)) with true
    by (symmetry; apply andb_true_iff; split; apply Z.leb_le; lia).
  simpl. eexists. split; [reflexivity |]. simpl.
  split; [reflexivity |]. split; [reflexivity |].
  unfold window_is_past, on_the_hour.
  destruct ((dt_hour t >? hour)
            || ((dt_hour t =? hour) && (dt_minute t >=? 30))) eqn:Hpast.
  - split; [intros _; split; reflexivity |]. intros Hnot. exfalso. apply Hnot.
    apply orb_true_iff in Hpast. destruct Hpast as [H | H].
    + left. apply Z.gtb_lt in H. exact H.
    + apply andb_true_iff in H. destruct H as [H1 H2].
      apply Z.eqb_eq in H1. apply Z.geb_le in H2. right. split; [lia | exact H2].
  - split.
    + intros Hp. exfalso. apply orb_false_iff in Hpast. destruct Hpast as [H1 H2].
      rewrite Z.gtb_ltb in H1. apply Z.ltb_ge in H1.
      apply andb_false_iff in H2.
      destruct Hp as [Hp | [Hp1 Hp2]]; [lia |].
      destruct H2 as [H2 | H2].
      * apply Z.eqb_neq in H2. lia.
      * rewrite Z.geb_leb in H2. apply Z.leb_gt in H2. lia.
    + intros _. split; [reflexivity |].
      replace (dt_day t + 0) with (dt_day t) by lia. reflexivity.
Qed.

Lemma fallback_slots_spec (E : Env) (t : datetime) (windows : list string) :
  forall (hours : list Z) (i : Z),
    Forall2 (fun w h => Predictions.start_hour w = Ok h /\ 0 <= h <= 23) windows hours ->
    exists slots,
      Predictions.fallback_slots E t i windows = Ok slots
      /\ map Predictions.time_window slots = windows
      /\ forall j slot,
          nth_error slots j = Some slot ->
          exists hour,
            nth_error hours j = Some hour
            /\ Predictions.score slot = Fin (0.7 - inject_Z (i + Z.of_nat j) * 0.1)%Q
            /\ (window_is_past t hour ->
                Predictions.date_label slot = "Tomorrow"
                /\ Predictions.full_datetime slot = isoformat E (on_the_hour t 1 hour))
            /\ (~ window_is_past t hour ->
                Predictions.date_label slot = "Today"
                /\ Predictions.full_datetime slot = isoformat E (on_the_hour t 0 hour)).
Proof.
  induction windows as [| window rest IH]; intros hours i Hall.
  - inversion Hall; subst. exists []. repeat split; try reflexivity.
    intros [| j] slot H; discriminate.
  - inversion Hall as [| w h ws hs [Hstart Hhour] Hrest]; subst. simpl.
    destruct (make_slot_on_the_hour E t window h
                (Fin (0.7 - inject_Z i * 0.1)%Q) Hstart Hhour)
      as (slot & Hslot & Hwindow & Hscore & Hpast & Htoday).
    rewrite Hslot.
    destruct (IH hs (i + 1) Hrest) as (slots & Hslots & Hwindows & Hnth).
    rewrite Hslots. simpl. eexists. split; [reflexivity |].
    split; [simpl; rewrite Hwindow, Hwindows; reflexivity |].
    intros [| j] s Hs; simpl in Hs.
    + inversion Hs; subst s. exists h. split; [reflexivity |].
      split; [| split; assumption].
      rewrite Hscore. simpl. rewrite Z.add_0_r. reflexivity.
    + destruct (Hnth j s Hs) as (hour & Hhours & Hsc & Hp & Ht).
      exists hour. split; [exact Hhours |]. split; [| split; assumption].
      rewrite Hsc. replace (i + 1 + Z.of_nat j) with (i + Z.of_nat (S j)) by lia.
      reflexivity.
Qed.

Lemma Forall2_firstn {A B : Type} (P : A -> B -> Prop) (k : nat) :
  forall (l : list A) (l' : list B),
    Forall2 P l l' -> Forall2 P (firstn k l) (firstn k l').
Proof.
  induction k as [| k IH]; intros l l' H; simpl; [constructor |].
  destruct H; constructor; [assumption | apply IH; assumption].
Qed.

Lemma nth_error_firstn_some {A : Type} (k j : nat) (l : list A) (x : A) :
  nth_error (firstn k l) j = Some x -> nth_error l j = Some x.
Proof.
  revert j l. induction k as [| k IH]; intros j l H.
  - destruct j; discriminate.
  - destruct l as [| a l]; [destruct j; discriminate |].
    destruct j as [| j]; simpl in *; [exact H | apply IH; exact H].
Qed.

Lemma fallback_delivery_times_spec (E : Env) (uid num_slots : Z) (timezone : string) :
  exists t slots,
    snd (Predictions.current_time_in E timezone) = Ok t
    /\ snd (Predictions._fallback_delivery_times E uid num_slots timezone) = Ok slots
    /\ Forall on_stderr
              (fst (Predictions._fallback_delivery_times E uid num_slots timezone))
    /\ map Predictions.time_window slots = take num_slots Predictions.default_slots
    /\ forall j slot,
        nth_error slots j = Some slot ->
        exists hour q,
          nth_error default_start_hours j = Some hour
          /\ Predictions.score slot = Fin q
          /\ (q == 0.7 - 0.1 * inject_Z (Z.of_nat j))%Q
          /\ (window_is_past t hour ->
              Predictions.date_label slot = "Tomorrow"
              /\ Predictions.full_datetime slot = isoformat E (on_the_hour t 1 hour))
          /\ (~ window_is_past t hour ->
              Predictions.date_label slot = "Today"
              /\ Predictions.full_datetime slot = isoformat E (on_the_hour t 0 hour)).
Proof.
  destruct (current_time_in_total E timezone) as (t & Ht & Hout).
  destruct (take_is_a_prefix num_slots Predictions.default_slots) as (k & Hk).
  assert (Hall : Forall2 (fun w h => Predictions.start_hour w = Ok h /\ 0 <= h <= 23)
                         (firstn k Predictions.default_slots)
                         (firstn k default_start_hours)).
  { apply Forall2_firstn.
    repeat constructor; try reflexivity; lia. }
  destruct (fallback_slots_spec E t _ _ 0 Hall) as (slots & Hslots & Hwindows & Hnth).
  exists t, slots. unfold Predictions._fallback_delivery_times.
  destruct (Predictions.current_time_in E timezone) as [out r].
  simpl in Ht, Hout. subst r. unfold io_bind, quiet. rewrite Hk, Hslots. simpl.
  split; [reflexivity |]. split; [reflexivity |].
  split; [rewrite app_nil_r; exact Hout |].
  split; [exact Hwindows |].
  intros j slot Hslot.
  destruct (Hnth j slot Hslot) as (hour & Hhour & Hscore & Hpast & Htoday).
  exists hour. eexists. split; [apply (nth_error_firstn_some k); exact Hhour |].
  split; [exact Hscore |]. split; [| split; assumption].
  rewrite Z.add_0_l. ring.
Qed.

(** X10.  [_fallback_delivery_times] never raises and writes nothing to
    standard output.  Its slots are the leading [num_slots] default
    windows, in order; the slot at position [j] has score 0.7 - 0.1 j
    and starts at 9, 11, 13, 15 or 17 o'clock sharp: tomorrow when the
    current hour is later than that hour, or is that hour with thirty
    minutes or more gone, and today otherwise. *)
Theorem fallback_delivery_slots (E : Env) (uid num_slots : Z) (timezone : string) :
  exists t slots,
    snd (Predictions.current_time_in E timezone) = Ok t
    /\ snd (Predictions._fallback_delivery_times E uid num_slots timezone) = Ok slots
    /\ Forall on_stderr
              (fst (Predictions._fallback_delivery_times E uid num_slots timezone))
    /\ map Predictions.time_window slots = take num_slots Predictions.default_slots
    /\ forall j slot,
        nth_error slots j = Some slot ->
        exists hour q,
          nth_error default_start_hours j = Some hour
          /\ Predictions.score slot = Fin q
          /\ (q == 0.7 - 0.1 * inject_Z (Z.of_nat j))%Q
          /\ (window_is_past t hour ->
              Predictions.date_label slot = "Tomorrow"
              /\ Predictions.full_datetime slot = isoformat E (on_the_hour t 1 hour))
          /\ (~ window_is_past t hour ->
              Predictions.date_label slot = "Today"
              /\ Predictions.full_datetime slot = isoformat E (on_the_hour t 0 hour)).
Proof.
  apply fallback_delivery_times_spec.
Qed.

Lemma make_slot_ok (E : Env) (t : datetime) (window : string) (r : outcome pyfloat)
      (slot : Predictions.Slot) :
  Predictions.make_slot E t window r = Ok slot ->
  Predictions.time_window slot = window /\ r = Ok (Predictions.score slot).
Proof.
  unfold Predictions.make_slot.
  destruct (Predictions.start_hour window) as [hour | e]; simpl; [| discriminate].
  destruct (replace_hour _ hour) as [at_hour | e]; simpl; [| discriminate].
  destruct r as [sc | e]; simpl; [| discriminate].
  intros H. inversion H; subst. simpl. split; reflexivity.
Qed.

Lemma make_slot_of_cell_raises (E : Env) (t : datetime) (window : string) (v : value)
      (e : exn) :
  Predictions.make_slot E t window (py_float v) = Raise e ->
  Predictions.is_value_or_index_error e = true.
Proof.
  destruct (py_float v) as [sc | e'] eqn:Hv.
  - apply make_slot_raises.
  - intros H.
    destruct (Predictions.make_slot E t window (Ok NaN)) as [slot | e0] eqn:H0.
    + unfold Predictions.make_slot in H, H0.
      destruct (Predictions.start_hour window) as [hour | e1]; simpl in *;
        [| discriminate].
      destruct (replace_hour _ hour) as [at_hour | e1]; simpl in *; [| discriminate].
      inversion H; subst e.
      destruct v; simpl in Hv; try discriminate. inversion Hv. reflexivity.
    + assert (e = e0).
      { unfold Predictions.make_slot in H, H0.
        destruct (Predictions.start_hour window) as [hour | e1]; simpl in *;
          [| congruence].
        destruct (replace_hour _ hour) as [at_hour | e1]; simpl in *;
          [discriminate | congruence]. }
      subst e0. apply make_slot_raises in H0. exact H0.
Qed.

Lemma processed_slots_spec (E : Env) (t : datetime) (result : DataFrame)
      (result_rows : list (list value)) :
  exists slots,
    snd (Predictions.processed_slots E t result result_rows) = Ok slots
    /\ Forall on_stderr (fst (Predictions.processed_slots E t result result_rows))
    /\ Forall (fun slot =>
                 exists row,
                   In row result_rows
                   /\ Predictions.time_window slot
                      = py_str E (row_get result row "delivery_window" (VStr ""))
                   /\ py_float (row_get result row "score" (VFloat 0.5))
                      = Ok (Predictions.score slot)) slots.
Proof.
  induction result_rows as [| row rest IH]; simpl.
  - exists []. repeat split; constructor.
  - destruct IH as (slots & Hslots & Hout & Hall).
    assert (Hweaken :
              Forall (fun slot =>
                        exists row0,
                          (row = row0 \/ In row0 rest)
                          /\ Predictions.time_window slot
                             = py_str E (row_get result row0 "delivery_window" (VStr ""))
                          /\ py_float (row_get result row0 "score" (VFloat 0.5))
                             = Ok (Predictions.score slot)) slots).
    { eapply Forall_impl; [| exact Hall]. intros slot (row0 & Hin & Hrest).
      exists row0. split; [right; exact Hin | exact Hrest]. }
    destruct (String.eqb _ "" || String.eqb _ "nan").
    { exists slots. repeat split; assumption. }
    destruct (Predictions.make_slot E t _ _) as [slot | e] eqn:Hslot.
    + destruct (Predictions.processed_slots E t result rest) as [out r].
      simpl in *. subst r. simpl. exists (slot :: slots).
      split; [reflexivity |]. split; [rewrite app_nil_r; exact Hout |].
      constructor; [| exact Hweaken].
      apply make_slot_ok in Hslot. destruct Hslot as [Hwindow Hscore].
      exists row. split; [left; reflexivity |]. split; assumption.
    + apply make_slot_of_cell_raises in Hslot. rewrite Hslot.
      destruct (Predictions.processed_slots E t result rest) as [out r].
      simpl in *. subst r. exists slots.
      split; [reflexivity |]. split; [| exact Hweaken].
      constructor; [reflexivity | exact Hout].
Qed.

Lemma insert_by_score_In (slot x : Predictions.Slot) (sorted : list Predictions.Slot) :
  In x (Predictions.insert_by_score slot sorted) <-> x = slot \/ In x sorted.
Proof.
  induction sorted as [| other sorted IH]; simpl.
  - intuition.
  - destruct (float_lt (Predictions.score other) (Predictions.score slot)); simpl.
    + intuition.
    + rewrite IH. intuition.
Qed.

Lemma insert_by_score_length (slot : Predictions.Slot) (sorted : list Predictions.Slot) :
  List.length (Predictions.insert_by_score slot sorted) = S (List.length sorted).
Proof.
  induction sorted as [| other sorted IH]; simpl; [reflexivity |].
  destruct (float_lt (Predictions.score other) (Predictions.score slot)); simpl;
    [reflexivity | rewrite IH; reflexivity].
Qed.

Lemma sort_from_In (slots acc : list Predictions.Slot) (x : Predictions.Slot) :
  In x (fold_left (fun sorted slot => Predictions.insert_by_score slot sorted) slots acc)
  <-> In x slots \/ In x acc.
Proof.
  revert acc. induction slots as [| slot slots IH]; intros acc; simpl.
  - intuition.
  - rewrite IH, insert_by_score_In. intuition.
Qed.

Lemma sort_by_score_In (slots : list Predictions.Slot) (x : Predictions.Slot) :
  In x (Predictions.sort_by_score slots) <-> In x slots.
Proof.
  unfold Predictions.sort_by_score. rewrite sort_from_In. simpl. intuition.
Qed.

Lemma insert_by_score_best_first (slot : Predictions.Slot)
      (sorted : list Predictions.Slot) (q : Q) :
  Predictions.score slot = Fin q ->
  Forall (fun s => exists x, Predictions.score s = Fin x) sorted ->
  best_first sorted ->
  best_first (Predictions.insert_by_score slot sorted).
Proof.
  intros Hq. induction sorted as [| other sorted IH]; intros Hfin Hsorted; simpl.
  - split; [constructor | exact I].
  - inversion Hfin as [| ? ? [x Hx] Hfin']; subst.
    destruct Hsorted as [Hrest Hsorted].
    unfold float_lt. rewrite Hx, Hq. unfold Qltb.
    destruct (Qle_bool q x) eqn:Hle; simpl.
    + apply Qle_bool_iff in Hle. split; [| apply IH; assumption].
      apply Forall_forall. intros s Hs. apply insert_by_score_In in Hs.
      destruct Hs as [-> | Hs].
      * exists x, q. repeat split; assumption.
      * rewrite Forall_forall in Hrest. apply Hrest. exact Hs.
    + assert (Hlt : (x < q)%Q).
      { apply Qnot_le_lt. intros H. apply Qle_bool_iff in H. congruence. }
      split; [| split; assumption].
      constructor.
      * exists q, x. repeat split; try assumption. apply Qlt_le_weak. exact Hlt.
      * rewrite Forall_forall in Hrest. apply Forall_forall. intros s Hs.
        destruct (Hrest s Hs) as (x' & y & Hx' & Hy & Hyx).
        rewrite Hx in Hx'. inversion Hx'; subst x'.
        exists q, y. repeat split; try assumption.
        apply Qle_trans with x; [exact Hyx | apply Qlt_le_weak; exact Hlt].
Qed.

Lemma sort_from_best_first (slots acc : list Predictions.Slot) :
  Forall (fun s => exists x, Predictions.score s = Fin x) slots ->
  Forall (fun s => exists x, Predictions.score s = Fin x) acc ->
  best_first acc ->
  best_first (fold_left (fun sorted slot => Predictions.insert_by_score slot sorted)
                        slots acc).
Proof.
  revert acc. induction slots as [| slot slots IH]; intros acc Hslots Hacc Hsorted; simpl.
  - exact Hsorted.
  - inversion Hslots as [| ? ? [q Hq] Hslots']; subst.
    apply IH; [exact Hslots' | |].
    + apply Forall_forall. intros s Hs. apply insert_by_score_In in Hs.
      destruct Hs as [-> | Hs]; [exists q; exact Hq |].
      rewrite Forall_forall in Hacc. apply Hacc. exact Hs.
    + apply (insert_by_score_best_first slot acc q); assumption.
Qed.

Lemma best_first_firstn (k : nat) (slots : list Predictions.Slot) :
  best_first slots -> best_first (firstn k slots).
Proof.
  revert slots. induction k as [| k IH]; intros slots H; simpl; [exact I |].
  destruct slots as [| a rest]; [exact I |].
  destruct H as [Hrest Hsorted]. simpl. split; [| apply IH; exact Hsorted].
  apply Forall_forall. intros s Hs. apply firstn_incl in Hs.
  rewrite Forall_forall in Hrest. apply Hrest. exact Hs.
Qed.

Lemma best_first_take (n : Z) (slots : list Predictions.Slot) :
  best_first slots -> best_first (take n slots).
Proof.
  unfold take. destruct (0 <=? n); apply best_first_firstn.
Qed.

Lemma fallback_delivery_times_bounded (E : Env) (uid num_slots : Z) (timezone : string) :
  0 <= num_slots ->
  exists out slots,
    Predictions._fallback_delivery_times E uid num_slots timezone = (out, Ok slots)
    /\ Forall on_stderr out
    /\ (List.length slots <= Z.to_nat num_slots)%nat.
Proof.
  intros Hn.
  destruct (fallback_delivery_times_spec E uid num_slots timezone)
    as (t & slots & _ & Hslots & Hout & Hwindows & _).
  destruct (Predictions._fallback_delivery_times E uid num_slots timezone) as [out r].
  simpl in *. subst r. exists out, slots.
  split; [reflexivity |]. split; [exact Hout |].
  rewrite <- (length_map Predictions.time_window), Hwindows.
  apply take_length. exact Hn.
Qed.

(** X11.  With a non-negative [num_slots], [predict_delivery_times]
    returns at most [num_slots] slots on every path (no model, a model
    that raises, an empty answer, an answer with rows), never raises,
    and writes to standard error only. *)
Theorem delivery_predictions_are_bounded
        (E : Env) (self : Predictions.SmartGrocerPredictor)
        (uid num_slots : Z) (timezone : string) :
  0 <= num_slots ->
  exists slots,
    snd (Predictions.predict_delivery_times E self uid num_slots timezone) = Ok slots
    /\ (List.length slots <= Z.to_nat num_slots)%nat
    /\ Forall on_stderr
              (fst (Predictions.predict_delivery_times E self uid num_slots timezone)).
Proof.
  intros Hn.
  destruct (fallback_delivery_times_bounded E uid num_slots timezone Hn)
    as (out & fallback & Hfallback & Hout & Hlen).
  unfold Predictions.predict_delivery_times.
  destruct (Predictions.model self) as [m |];
    [| rewrite Hfallback; exists fallback; repeat split; assumption].
  destruct (KUMO_AVAILABLE E);
    [| rewrite Hfallback; exists fallback; repeat split; assumption].
  destruct (m (Predictions.delivery_query num_slots uid)) as [[result |] | e]; simpl.
  - destruct (df_empty result).
    + rewrite Hfallback. simpl. exists fallback. repeat split; assumption.
    + destruct (current_time_in_total E timezone) as (t & Ht & Hclock).
      destruct (Predictions.current_time_in E timezone) as [out1 r1].
      simpl in Ht, Hclock. subst r1. simpl.
      destruct (processed_slots_spec E t result (rows result))
        as (slots & Hslots & Hprinted & _).
      destruct (Predictions.processed_slots E t result (rows result)) as [out2 r2].
      simpl in Hslots, Hprinted. subst r2. simpl. eexists.
      split; [reflexivity |]. split; [apply take_length; exact Hn |].
      apply Forall_app. split; [exact Hclock |].
      apply Forall_app. split; [exact Hprinted |]. repeat constructor.
  - rewrite Hfallback. simpl. exists fallback. repeat split; assumption.
  - rewrite Hfallback. simpl. exists fallback.
    split; [reflexivity |]. split; [exact Hlen |].
    constructor; [reflexivity | exact Hout].
Qed.

Lemma delivery_predictions_are_bounded_witness :
  exists slots,
    snd (Predictions.predict_delivery_times
           (Sample.online Sample.failing_model)
           (Sample.predictor (Some Sample.failing_model)) 1 3 "UTC") = Ok slots
    /\ (List.length slots <= Z.to_nat 3)%nat
    /\ Forall on_stderr
              (fst (Predictions.predict_delivery_times
                      (Sample.online Sample.failing_model)
                      (Sample.predictor (Some Sample.failing_model)) 1 3 "UTC")).
Proof.
  apply (delivery_predictions_are_bounded
           (Sample.online Sample.failing_model)
           (Sample.predictor (Some Sample.failing_model)) 1 3 "UTC").
  lia.
Defined.

(** X12.  When the model answers the delivery query with a frame that
    has rows and a number for every score, [predict_delivery_times]
    returns slots made from rows of that frame, each with its row's
    window and score, the best score first. *)
Theorem model_delivery_slots_come_best_first
        (E : Env) (self : Predictions.SmartGrocerPredictor) (m : Model)
        (result : DataFrame) (uid num_slots : Z) (timezone : string) :
  Predictions.model self = Some m ->
  KUMO_AVAILABLE E = true ->
  m (Predictions.delivery_query num_slots uid) = Ok (Some result) ->
  df_empty result = false ->
  Forall (has_a_score result) (rows result) ->
  exists slots,
    snd (Predictions.predict_delivery_times E self uid num_slots timezone) = Ok slots
    /\ Forall (made_from_row E result) slots
    /\ best_first slots.
Proof.
  intros Hm Hon Hquery Hrows Hscores.
  unfold Predictions.predict_delivery_times. rewrite Hm, Hon, Hquery. simpl.
  rewrite Hrows.
  destruct (current_time_in_total E timezone) as (t & Ht & _).
  destruct (Predictions.current_time_in E timezone) as [out1 r1].
  simpl in Ht. subst r1. simpl.
  destruct (processed_slots_spec E t result (rows result))
    as (slots & Hslots & _ & Hmade).
  destruct (Predictions.processed_slots E t result (rows result)) as [out2 r2].
  simpl in Hslots. subst r2. simpl. eexists. split; [reflexivity |].
  split.
  - apply Forall_forall. intros slot Hslot. apply take_incl in Hslot.
    apply (proj1 (sort_by_score_In _ _)) in Hslot. rewrite Forall_forall in Hmade.
    apply Hmade. exact Hslot.
  - apply best_first_take. unfold Predictions.sort_by_score.
    apply sort_from_best_first; [| constructor | exact I].
    apply Forall_forall. intros slot Hslot. rewrite Forall_forall in Hmade.
    destruct (Hmade slot Hslot) as (row & Hrow & _ & Hscore).
    rewrite Forall_forall in Hscores. destruct (Hscores row Hrow) as (q & Hq).
    exists q. congruence.
Qed.

Lemma model_delivery_slots_come_best_first_witness :
  let result := {| columns := ["delivery_window"; "score"];
                   rows := [[VStr "9am-11am"; VFloat 0.4];
                            [VStr "3pm-5pm"; VFloat 0.9]] |} in
  let m : Model := fun _ => Ok (Some result) in
  exists slots,
    snd (Predictions.predict_delivery_times
           (Sample.online m) (Sample.predictor (Some m)) 1 3 "UTC") = Ok slots
    /\ Forall (made_from_row (Sample.online m) result) slots
    /\ best_first slots.
Proof.
  intros result m.
  apply (model_delivery_slots_come_best_first
           (Sample.online m) (Sample.predictor (Some m)) m result 1 3 "UTC");
    try reflexivity.
  repeat constructor; eexists; reflexivity.
Defined.

(** ** Ranks of the personalized ranking *)

Lemma kumo_ranking_ranks (products : list Product) (ids ranked : list Z) (i : Z) :
  exists results,
    Ingredients.kumo_ranking (Some products) ids i (map VInt ranked) = Ok results
    /\ map id_and_rank results
       = filter (fun p => mem (fst p) ids && in_table products (fst p))
                (positions_from i ranked).
Proof.
  revert i. induction ranked as [| pid rest IH]; intros i; simpl.
  - exists []. split; reflexivity.
  - destruct (IH (i + 1)) as (results & Hres & Hmap).
    rewrite cell_in_int. destruct (mem pid ids); simpl.
    + unfold in_table at 1. rewrite matching_rows_of_int.
      destruct (products_with_id products pid) as [| product others].
      * exists results. split; assumption.
      * rewrite Hres. simpl. eexists. split; [reflexivity |].
        simpl. unfold id_and_rank at 1. simpl. f_equal. exact Hmap.
    + exists results. split; assumption.
Qed.

Lemma append_missing_ranks (products : list Product) (ranked_ids ids : list Z)
      (acc : list Ingredients.Ranked) :
  exists appended,
    Ingredients.append_missing (Some products) ranked_ids acc ids = Ok (acc ++ appended)
    /\ map Ingredients.ranked_product_id appended
       = filter (fun p => negb (mem p ranked_ids) && in_table products p) ids
    /\ forall k r,
        nth_error appended k = Some r ->
        Ingredients.kumo_rank r = Z.of_nat (List.length acc + k) + 1.
Proof.
  revert acc. induction ids as [| pid rest IH]; intros acc; simpl.
  - exists []. rewrite app_nil_r. repeat split; try reflexivity.
    intros [| k] r H; discriminate.
  - fold (mem pid ranked_ids). destruct (mem pid ranked_ids); simpl.
    + apply IH.
    + unfold in_table at 1.
      destruct (products_with_id products pid) as [| product others].
      * apply IH.
      * destruct (IH (acc ++ [Ingredients.entry pid product
                                 (Z.of_nat (List.length acc) + 1)]))
          as (appended & Hres & Hids & Hranks).
        eexists (_ :: appended). rewrite Hres, <- app_assoc. simpl.
        split; [reflexivity |]. split; [f_equal; exact Hids |].
        intros [| k] r Hr; simpl in Hr.
        -- inversion Hr; subst r. simpl. rewrite Nat.add_0_r. reflexivity.
        -- rewrite (Hranks k r Hr), length_app. simpl. f_equal. lia.
Qed.

Lemma filtered_positions_are_late (f : Z * Z -> bool) (ids : list Z) :
  forall (i : Z) (j : nat) (entry : Z * Z),
    nth_error (filter f (positions_from i ids)) j = Some entry ->
    i + Z.of_nat j + 1 <= snd entry.
Proof.
  induction ids as [| pid rest IH]; intros i j entry H; simpl in H.
  - destruct j; discriminate.
  - destruct (f (pid, i + 1)).
    + destruct j as [| j]; simpl in H.
      * inversion H; subst entry. simpl. lia.
      * apply IH in H. lia.
    + apply IH in H. lia.
Qed.

(** X13.  When the model answers the ranking query, the result of
    [rank_products_for_user] has two parts.  The entries the model
    ranked carry the 1-based position of their id in the model's list,
    counting the ids that were skipped.  The entries appended for the
    unranked input ids carry their own 1-based position in the result.
    So no entry has a rank below its position in the result. *)
Theorem ranks_of_the_model_ranking
        (E : Env) (self : Ingredients.PersonalizedIngredientRanker) (m : Model)
        (products : list Product) (product_ids ranked : list Z) (user_id : Z)
        (frame : option DataFrame) :
  Ingredients.model self = Some m ->
  KUMO_AVAILABLE E = true ->
  Ingredients.products_df self = Some products ->
  m (Ingredients.ranking_query product_ids user_id) = Ok frame ->
  result_attr frame "CLASS" = Ok (map VInt ranked) ->
  exists first appended,
    snd (Ingredients.rank_products_for_user E self product_ids user_id)
    = Ok (first ++ appended)
    /\ map id_and_rank first
       = filter (fun p => mem (fst p) product_ids && in_table products (fst p))
                (positions_from 0 ranked)
    /\ map Ingredients.ranked_product_id appended
       = filter (fun p => negb (mem p (map Ingredients.ranked_product_id first))
                          && in_table products p) product_ids
    /\ (forall k r, nth_error appended k = Some r ->
                    Ingredients.kumo_rank r = Z.of_nat (List.length first + k) + 1)
    /\ (forall j r, nth_error (first ++ appended) j = Some r ->
                    Z.of_nat j + 1 <= Ingredients.kumo_rank r).
Proof.
  intros Hm Hon Hproducts Hquery Hclass.
  destruct (kumo_ranking_ranks products product_ids ranked 0)
    as (first & Hfirst & Hfirst_ranks).
  destruct (append_missing_ranks products (map Ingredients.ranked_product_id first)
                                 product_ids first)
    as (appended & Hres & Hids & Hranks).
  exists first, appended.
  split; [| split; [exact Hfirst_ranks | split; [exact Hids | split; [exact Hranks |]]]].
  - unfold Ingredients.rank_products_for_user.
    rewrite Hm, Hon, Hproducts, Hquery. simpl. rewrite Hclass. simpl.
    rewrite Hfirst. simpl. rewrite Hres. reflexivity.
  - intros j r Hr.
    destruct (Nat.lt_ge_cases j (List.length first)) as [Hlt | Hge].
    + rewrite nth_error_app1 in Hr by exact Hlt.
      assert (Hentry : nth_error (map id_and_rank first) j = Some (id_and_rank r))
        by (rewrite nth_error_map, Hr; reflexivity).
      rewrite Hfirst_ranks in Hentry.
      apply filtered_positions_are_late in Hentry. simpl in Hentry. lia.
    + rewrite nth_error_app2 in Hr by exact Hge.
      rewrite (Hranks _ r Hr). lia.
Qed.

Lemma ranks_of_the_model_ranking_witness :
  let m := Sample.ranking_model [9; 5] in
  exists first appended,
    snd (Ingredients.rank_products_for_user
           (Sample.online m) (Sample.ranker (Some m)) [5; 7] 1)
    = Ok (first ++ appended)
    /\ map id_and_rank first
       = filter (fun p => mem (fst p) [5; 7] && in_table Sample.products (fst p))
                (positions_from 0 [9; 5])
    /\ map Ingredients.ranked_product_id appended
       = filter (fun p => negb (mem p (map Ingredients.ranked_product_id first))
                          && in_table Sample.products p) [5; 7]
    /\ (forall k r, nth_error appended k = Some r ->
                    Ingredients.kumo_rank r = Z.of_nat (List.length first + k) + 1)
    /\ (forall j r, nth_error (first ++ appended) j = Some r ->
                    Z.of_nat j + 1 <= Ingredients.kumo_rank r).
Proof.
  intros m.
  apply (ranks_of_the_model_ranking
           (Sample.online m) (Sample.ranker (Some m)) m Sample.products [5; 7] [9; 5] 1
           (Some {| columns := ["CLASS"]; rows := [[VInt 9]; [VInt 5]] |}));
    reflexivity.
Defined.

(** In the sample above the model ranks product 5 second, product 7 is
    appended second, and the result has the rank 2 twice. *)
Example sample_ranks_collide :
  map id_and_rank
      (match snd (Ingredients.rank_products_for_user
                    (Sample.online (Sample.ranking_model [9; 5]))
                    (Sample.ranker (Some (Sample.ranking_model [9; 5]))) [5; 7] 1) with
       | Ok results => results
       | Raise _ => []
       end)
  = [(5, 2); (7, 2)].
Proof. reflexivity. Qed.

(** ** What the scripts write to standard output *)

Lemma stdout_of_app (a b : list event) : stdout_of (a ++ b) = stdout_of a ++ stdout_of b.
Proof.
  unfold stdout_of. rewrite filter_app, map_app. reflexivity.
Qed.

Lemma stdout_of_stderr (out : list event) : Forall on_stderr out -> stdout_of out = [].
Proof.
  induction 1 as [| [s msg] out Hs _ IH]; [reflexivity |].
  unfold on_stderr in Hs. simpl in Hs. subst s. exact IH.
Qed.

Lemma io_bind_on_stderr {A B : Type} (m : io A) (k : A -> io B) :
  Forall on_stderr (fst m) ->
  (forall a, Forall on_stderr (fst (k a))) ->
  Forall on_stderr (fst (io_bind m k)).
Proof.
  intros Hm Hk. unfold io_bind. destruct m as [out [a | e]]; simpl in *; [| exact Hm].
  specialize (Hk a). destruct (k a) as [out' r]. simpl in *.
  apply Forall_app. split; assumption.
Qed.

Lemma try_except_on_stderr {A : Type} (body : io A) (handler : exn -> io A) :
  Forall on_stderr (fst body) ->
  (forall e, Forall on_stderr (fst (handler e))) ->
  Forall on_stderr (fst (try_except body handler)).
Proof.
  intros Hbody Hhandler. unfold try_except.
  destruct body as [out [a | e]]; simpl in *; [exact Hbody |].
  specialize (Hhandler e). destruct (handler e) as [out' r]. simpl in *.
  apply Forall_app. split; assumption.
Qed.

Lemma print_on_stderr (msg : string) : Forall on_stderr (fst (print stderr msg)).
Proof. repeat constructor. Qed.

Lemma quiet_on_stderr {A : Type} (r : outcome A) : Forall on_stderr (fst (quiet r)).
Proof. constructor. Qed.

Lemma rank_products_for_user_on_stderr (E : Env)
      (self : Ingredients.PersonalizedIngredientRanker) (product_ids : list Z) (uid : Z) :
  Forall on_stderr (fst (Ingredients.rank_products_for_user E self product_ids uid)).
Proof.
  unfold Ingredients.rank_products_for_user.
  destruct (Ingredients.model self) as [m |]; [| apply quiet_on_stderr].
  destruct (KUMO_AVAILABLE E); [| apply quiet_on_stderr].
  apply try_except_on_stderr.
  - apply io_bind_on_stderr; [apply quiet_on_stderr | intros ranked].
    apply io_bind_on_stderr; [apply quiet_on_stderr | intros results].
    apply io_bind_on_stderr; [apply quiet_on_stderr | intros results'].
    apply io_bind_on_stderr; [apply print_on_stderr | intros _]. constructor.
  - intros e. apply io_bind_on_stderr; [apply print_on_stderr | intros _].
    apply quiet_on_stderr.
Qed.

Lemma ingredients_init_on_stderr (E : Env) : Forall on_stderr (fst (Ingredients.init E)).
Proof.
  unfold Ingredients.init.
  destruct (KUMO_AVAILABLE E); [destruct (rfm_init E) |]; repeat constructor.
Qed.

Lemma ingredients_load_on_stderr (E : Env)
      (self : Ingredients.PersonalizedIngredientRanker) :
  Forall on_stderr (fst (Ingredients.load_csv_data E self)).
Proof.
  unfold Ingredients.load_csv_data, Ingredients.loading_failed.
  repeat match goal with
         | |- context [match ?x with Ok _ => _ | Raise _ => _ end] => destruct x
         end; repeat constructor.
Qed.

Lemma ingredients_graph_on_stderr (E : Env)
      (self : Ingredients.PersonalizedIngredientRanker) (product_ids : list Z) :
  Forall on_stderr
         (fst (Ingredients.create_personalized_kumo_graph E self product_ids)).
Proof.
  unfold Ingredients.create_personalized_kumo_graph.
  destruct (negb (KUMO_AVAILABLE E)); [constructor |].
  match goal with
  | |- context [match ?x with Ok _ => _ | Raise _ => _ end] => destruct x
  end; repeat constructor.
Qed.

Lemma ingredients_import_on_stderr (E : Env) :
  Forall on_stderr
         (if KUMO_AVAILABLE E then [] else [(stderr, Text Ingredients.not_installed)]).
Proof.
  destruct (KUMO_AVAILABLE E); repeat constructor.
Qed.

Ltac all_on_stderr :=
  repeat (apply Forall_app; split);
  try assumption; try apply ingredients_import_on_stderr; repeat constructor.

(** X14.  The ingredients script writes to standard output exactly
    one thing, the JSON list of the ranked products, and only when it
    exits with status 0; on every failure standard output stays
    empty. *)
Theorem ingredients_stdout_is_the_ranking (E : Env) (argv : list string) :
  let r := Ingredients.main E argv in
  (status r = 0 ->
   exists ranked, stdout_of (output r) = [Json (JArr (map Ingredients.ranked_json ranked))])
  /\ (status r <> 0 -> stdout_of (output r) = []).
Proof.
  unfold Ingredients.main.
  destruct (Z.of_nat (List.length argv) <? 3).
  { simpl. split; [discriminate |]. intros _. apply stdout_of_stderr. all_on_stderr. }
  destruct (Ingredients.arguments E argv) as [[product_ids uid] | e].
  2:{ destruct (Ingredients.is_invalid_argument e); simpl.
      - split; [discriminate |]. intros _. apply stdout_of_stderr. all_on_stderr.
      - split; [discriminate |]. intros _. apply stdout_of_stderr. all_on_stderr. }
  pose proof (ingredients_init_on_stderr E) as Hinit.
  destruct (Ingredients.init E) as [out_init ranker].
  pose proof (ingredients_load_on_stderr E ranker) as Hload.
  destruct (Ingredients.load_csv_data E ranker) as [out_load [ranker' loaded]].
  simpl in Hinit, Hload.
  destruct loaded; simpl.
  2:{ split; [discriminate |]. intros _. apply stdout_of_stderr. all_on_stderr. }
  pose proof (ingredients_graph_on_stderr E ranker' product_ids) as Hgraph.
  destruct (Ingredients.create_personalized_kumo_graph E ranker' product_ids)
    as [out_graph [ranker'' ok]]. simpl in Hgraph.
  pose proof (rank_products_for_user_on_stderr E ranker'' product_ids uid) as Hrank.
  destruct (Ingredients.rank_products_for_user E ranker'' product_ids uid)
    as [out [ranked | e]]; simpl in *.
  - split; [| intros H; contradiction H; reflexivity].
    intros _. exists ranked.
    rewrite !app_assoc, stdout_of_app.
    rewrite (stdout_of_stderr _) by all_on_stderr. reflexivity.
  - split; [discriminate |]. intros _. apply stdout_of_stderr. all_on_stderr.
Qed.





Lemma predict_cart_items_on_stderr (E : Env) (self : Predictions.SmartGrocerPredictor)
      (uid num_predictions : Z) :
  Forall on_stderr (fst (Predictions.predict_cart_items E self uid num_predictions)).
Proof.
  unfold Predictions.predict_cart_items.
  destruct (Predictions.model self) as [m |]; [| constructor].
  destruct (KUMO_AVAILABLE E); [| constructor].
  apply try_except_on_stderr.
  - apply io_bind_on_stderr; [apply quiet_on_stderr | intros ids].
    apply io_bind_on_stderr; [apply quiet_on_stderr | intros predictions].
    apply io_bind_on_stderr; [apply print_on_stderr | intros _]. constructor.
  - intros e. apply io_bind_on_stderr; [apply print_on_stderr | intros _]. constructor.
Qed.

Lemma predict_recommendations_on_stderr (E : Env)
      (self : Predictions.SmartGrocerPredictor) (uid num_recommendations : Z) :
  Forall on_stderr
         (fst (Predictions.predict_recommendations E self uid num_recommendations)).
Proof.
  unfold Predictions.predict_recommendations.
  destruct (Predictions.model self) as [m |]; [| constructor].
  destruct (KUMO_AVAILABLE E); [| constructor].
  apply try_except_on_stderr.
  - apply io_bind_on_stderr; [apply quiet_on_stderr | intros ids].
    apply io_bind_on_stderr; [apply quiet_on_stderr | intros recommendations].
    apply io_bind_on_stderr; [apply print_on_stderr | intros _]. constructor.
  - intros e. apply io_bind_on_stderr; [apply print_on_stderr | intros _]. constructor.
Qed.

Lemma fallback_delivery_times_on_stderr (E : Env) (uid num_slots : Z) (timezone : string) :
  Forall on_stderr (fst (Predictions._fallback_delivery_times E uid num_slots timezone)).
Proof.
  destruct (fallback_delivery_times_spec E uid num_slots timezone)
    as (t & slots & _ & _ & Hout & _).
  exact Hout.
Qed.

Lemma predict_delivery_times_on_stderr (E : Env) (self : Predictions.SmartGrocerPredictor)
      (uid num_slots : Z) (timezone : string) :
  Forall on_stderr
         (fst (Predictions.predict_delivery_times E self uid num_slots timezone)).
Proof.
  unfold Predictions.predict_delivery_times.
  destruct (Predictions.model self) as [m |];
    [| apply fallback_delivery_times_on_stderr].
  destruct (KUMO_AVAILABLE E); [| apply fallback_delivery_times_on_stderr].
  apply try_except_on_stderr.
  - apply io_bind_on_stderr; [apply quiet_on_stderr | intros [result |]];
      [| apply fallback_delivery_times_on_stderr].
    destruct (df_empty result); [apply fallback_delivery_times_on_stderr |].
    apply io_bind_on_stderr.
    { destruct (current_time_in_total E timezone) as (t & _ & Hout). exact Hout. }
    intros t. apply io_bind_on_stderr.
    { destruct (processed_slots_spec E t result (rows result)) as (slots & _ & Hout & _).
      exact Hout. }
    intros slots. apply io_bind_on_stderr; [apply print_on_stderr | intros _].
    constructor.
  - intros e. apply io_bind_on_stderr; [apply print_on_stderr | intros _].
    apply fallback_delivery_times_on_stderr.
Qed.

Lemma substitution_rate_on_stderr {R : Random} (self : Predictions.SmartGrocerPredictor)
      (pid : Z) (g : rng) :
  Forall on_stderr
         (Predictions.printed (Predictions.get_product_substitution_rate self pid g)).
Proof.
  unfold Predictions.get_product_substitution_rate, Predictions.printed.
  destruct (Predictions.substitution_rate_body self pid g) as [[rate | e] g'];
    repeat constructor.
Qed.

Lemma batch_rates_on_stderr {R : Random} (self : Predictions.SmartGrocerPredictor)
      (ids : list Z) :
  forall (rates : list (Z * pyfloat)) (g : rng),
    Forall on_stderr (fst (fst (Predictions.batch_rates self ids rates g))).
Proof.
  induction ids as [| pid rest IH]; intros rates g; simpl; [constructor |].
  pose proof (substitution_rate_on_stderr self pid g) as Hone.
  unfold Predictions.printed in Hone.
  destruct (Predictions.get_product_substitution_rate self pid g) as [[out rate] g'].
  specialize (IH (Predictions.dict_set rates pid rate) g').
  destruct (Predictions.batch_rates self rest (Predictions.dict_set rates pid rate) g')
    as [[out' rates'] g''].
  simpl in *. apply Forall_app. split; assumption.
Qed.

Lemma predictions_init_on_stderr (E : Env) : Forall on_stderr (fst (Predictions.init E)).
Proof.
  unfold Predictions.init.
  destruct (KUMO_AVAILABLE E); [destruct (rfm_init E) |]; repeat constructor.
Qed.

Lemma predictions_load_on_stderr (E : Env) (self : Predictions.SmartGrocerPredictor) :
  Forall on_stderr (fst (Predictions.load_csv_data E self)).
Proof.
  unfold Predictions.load_csv_data, Predictions.loading_failed.
  repeat match goal with
         | |- context [match ?x with Ok _ => _ | Raise _ => _ end] => destruct x
         end; repeat constructor.
Qed.

Lemma predictions_graph_on_stderr (E : Env) (self : Predictions.SmartGrocerPredictor) :
  Forall on_stderr (fst (Predictions.create_kumo_graph E self)).
Proof.
  unfold Predictions.create_kumo_graph.
  destruct (negb (KUMO_AVAILABLE E)); [constructor |].
  destruct (rfm_model E _ _ _ _); repeat constructor.
Qed.

Lemma dispatch_stdout {R : Random} (E : Env) (self : Predictions.SmartGrocerPredictor)
      (argv : list string) (arguments : option (Z * Z)) (g : rng) :
  let r := Predictions.dispatch E self argv arguments g in
  (status r = 0 -> exists doc, stdout_of (output r) = [doc] /\ is_result doc)
  /\ (status r <> 0 ->
      stdout_of (output r) = [] \/ stdout_of (output r) = [Text Predictions.invalid_type]).
Proof.
  unfold Predictions.dispatch.
  destruct arguments as [[uid num_items] |].
  - destruct (String.eqb (arg argv 1) "cart").
    { pose proof (predict_cart_items_on_stderr E self uid num_items) as Hout.
      destruct (Predictions.predict_cart_items E self uid num_items) as [out [l | e]];
        simpl in *.
      - split; [| intros H; contradiction H; reflexivity]. intros _.
        eexists. rewrite stdout_of_app, (stdout_of_stderr out Hout).
        split; [reflexivity | exact I].
      - split; [discriminate |]. intros _. left. apply stdout_of_stderr.
        apply Forall_app. split; [exact Hout | repeat constructor]. }
    destruct (String.eqb (arg argv 1) "recommendations").
    { pose proof (predict_recommendations_on_stderr E self uid num_items) as Hout.
      destruct (Predictions.predict_recommendations E self uid num_items)
        as [out [l | e]]; simpl in *.
      - split; [| intros H; contradiction H; reflexivity]. intros _.
        eexists. rewrite stdout_of_app, (stdout_of_stderr out Hout).
        split; [reflexivity | exact I].
      - split; [discriminate |]. intros _. left. apply stdout_of_stderr.
        apply Forall_app. split; [exact Hout | repeat constructor]. }
    destruct (String.eqb (arg argv 1) "delivery-times").
    { match goal with
      | |- context [Predictions.predict_delivery_times E self uid num_items ?tz] =>
          pose proof (predict_delivery_times_on_stderr E self uid num_items tz) as Hout;
          destruct (Predictions.predict_delivery_times E self uid num_items tz)
            as [out [l | e]]
      end; simpl in *.
      - split; [| intros H; contradiction H; reflexivity]. intros _.
        eexists. rewrite stdout_of_app, (stdout_of_stderr out Hout).
        split; [reflexivity | exact I].
      - split; [discriminate |]. intros _. left. apply stdout_of_stderr.
        apply Forall_app. split; [exact Hout | repeat constructor]. }
    destruct (String.eqb (arg argv 1) "substitution-rate").
    { pose proof (substitution_rate_on_stderr self uid g) as Hout.
      unfold Predictions.printed in Hout.
      destruct (Predictions.get_product_substitution_rate self uid g) as [[out rate] g'].
      simpl in *. split; [| intros H; contradiction H; reflexivity]. intros _.
      eexists. rewrite stdout_of_app, (stdout_of_stderr out Hout).
      split; [reflexivity | exact I]. }
    simpl. split; [discriminate |]. intros _. right. reflexivity.
  - destruct (Predictions.batch_ids (split_on "," (arg argv 2))) as [ids | e].
    + pose proof (batch_rates_on_stderr self ids [] g) as Hout.
      destruct (Predictions.batch_rates self ids [] g) as [[out rates] g'].
      simpl in *. split; [| intros H; contradiction H; reflexivity]. intros _.
      eexists. rewrite stdout_of_app, (stdout_of_stderr out Hout).
      split; [reflexivity | exact I].
    + simpl. split; [discriminate |]. intros _. left. reflexivity.
Qed.

(** X16.  The predictions script, when it exits with status 0, has
    written exactly one thing to standard output, and that is its
    result: a JSON document or a float.  When it fails, standard
    output holds nothing, or one of the two messages the script prints
    there: the usage line or the invalid-type line. *)
Theorem predictions_stdout_is_the_result {R : Random}
        (E : Env) (argv : list string) (g : rng) :
  let r := Predictions.main E argv g in
  (status r = 0 -> exists doc, stdout_of (output r) = [doc] /\ is_result doc)
  /\ (status r <> 0 ->
      stdout_of (output r) = []
      \/ stdout_of (output r) = [Text Predictions.usage]
      \/ stdout_of (output r) = [Text Predictions.invalid_type]).
Proof.
  unfold Predictions.main, Predictions.after. simpl.
  assert (Himport :
            stdout_of (if KUMO_AVAILABLE E then []
                       else [(stderr, Text Predictions.not_installed)]) = []).
  { destruct (KUMO_AVAILABLE E); reflexivity. }
  rewrite stdout_of_app, Himport. simpl.
  destruct (Z.of_nat (List.length argv) <? 3).
  { simpl. split; [discriminate |]. intros _. right. left. reflexivity. }
  destruct (Predictions.user_arguments argv) as [arguments | e].
  2:{ simpl. split; [discriminate |]. intros _. left. reflexivity. }
  pose proof (predictions_init_on_stderr E) as Hinit.
  destruct (Predictions.init E) as [out_init predictor].
  pose proof (predictions_load_on_stderr E predictor) as Hload.
  destruct (Predictions.load_csv_data E predictor) as [out_load [predictor' loaded]].
  simpl in Hinit, Hload.
  destruct loaded; simpl.
  2:{ split; [discriminate |]. intros _. left. apply stdout_of_stderr.
      apply Forall_app. split; assumption. }
  pose proof (predictions_graph_on_stderr E predictor') as Hgraph.
  destruct (Predictions.create_kumo_graph E predictor') as [out_graph [predictor'' ok]].
  simpl in Hgraph. simpl.
  rewrite stdout_of_app.
  rewrite (stdout_of_stderr (out_init ++ out_load ++ out_graph))
    by (repeat (apply Forall_app; split); assumption).
  simpl.
  destruct (dispatch_stdout E predictor'' argv arguments g) as [Hok Hfail].
  split; [exact Hok |].
  intros Hstatus. destruct (Hfail Hstatus) as [H | H]; [left | right; right]; exact H.
Qed.

(** ** Product batches of the dataset generator *)

Lemma lookup_store_same (key : string) (v : json) (d : Generator.dict) :
  Generator.lookup key (Generator.store key v d) = Some v.
Proof.
  induction d as [| [k old] d IH]; simpl.
  - rewrite String.eqb_refl. reflexivity.
  - destruct (String.eqb k key) eqn:Hk; simpl; rewrite Hk; [reflexivity | exact IH].
Qed.

Lemma lookup_store_other (key key' : string) (v : json) (d : Generator.dict) :
  key <> key' ->
  Generator.lookup key (Generator.store key' v d) = Generator.lookup key d.
Proof.
  intros Hne. induction d as [| [k old] d IH]; simpl.
  - destruct (String.eqb key' key) eqn:Hk; [| reflexivity].
    apply String.eqb_eq in Hk. congruence.
  - destruct (String.eqb k key') eqn:Hk; simpl.
    + apply String.eqb_eq in Hk. subst k.
      destruct (String.eqb key' key) eqn:Hk'; [| reflexivity].
      apply String.eqb_eq in Hk'. congruence.
    + destruct (String.eqb k key); [reflexivity | exact IH].
Qed.

Lemma lookup_store_some (key key' : string) (v : json) (d : Generator.dict) :
  Generator.lookup key d <> None ->
  Generator.lookup key (Generator.store key' v d) <> None.
Proof.
  intros H. destruct (string_dec key key') as [-> | Hne].
  - rewrite lookup_store_same. discriminate.
  - rewrite lookup_store_other by exact Hne. exact H.
Qed.

Lemma has_keys_lookup (keys : list string) (members : Generator.dict) :
  Generator.has_keys keys (JObj members) = Ok true ->
  Forall (fun key => Generator.lookup key members <> None) keys.
Proof.
  induction keys as [| key rest IH]; simpl; intros H; [constructor |].
  destruct (Generator.lookup key members) eqn:Hkey; simpl in H; [| discriminate H].
  constructor; [rewrite Hkey; discriminate | apply IH; exact H].
Qed.

Lemma increasing_from_weaken (lo lo' : Z) (ids : list (option json)) :
  lo' <= lo -> increasing_from lo ids -> increasing_from lo' ids.
Proof.
  intros Hle. destruct ids as [| [[] |] rest]; simpl; try tauto.
  intros [H1 H2]. split; [lia | exact H2].
Qed.

Lemma increasing_from_firstn (k : nat) :
  forall (lo : Z) (ids : list (option json)),
    increasing_from lo ids -> increasing_from lo (firstn k ids).
Proof.
  induction k as [| k IH]; intros lo ids H; simpl; [exact I |].
  destruct ids as [| [[] |] rest]; simpl in *; try tauto.
  destruct H as [H1 H2]. split; [exact H1 | apply IH; exact H2].
Qed.

Lemma increasing_from_consecutive (start_id : Z) (count i : nat) :
  increasing_from (start_id + Z.of_nat i)
                  (map (fun k => Some (JInt (start_id + Z.of_nat k))) (seq i count)).
Proof.
  revert i. induction count as [| count IH]; intros i; simpl; [exact I |].
  split; [lia |].
  replace (start_id + Z.of_nat i + 1) with (start_id + Z.of_nat (S i)) by lia.
  apply IH.
Qed.

Lemma valid_products_cons {W : Generator.World} (category : string) (start_id i : Z)
      (product : json) (rest : list json) :
  Generator.valid_products category start_id i (product :: rest)
  = (valid <- Generator.has_keys Generator.required_keys product ;;
     if valid then
       match product with
       | JObj members =>
           let product := Generator.store "product_id" (JInt (start_id + i))
                            (Generator.store "category" (JStr category) members) in
           products <- Generator.valid_products category start_id (i + 1) rest ;;
           Ok (product :: products)
       | _ => Raise (TypeError "object does not support item assignment")
       end
     else Generator.valid_products category start_id (i + 1) rest).
Proof. reflexivity. Qed.

Lemma valid_products_spec {W : Generator.World} (category : string) (start_id : Z)
      (items : list json) :
  forall (i : Z) (valid : list Generator.dict),
    Generator.valid_products category start_id i items = Ok valid ->
    Forall has_columns valid
    /\ Forall (fun d => Generator.lookup "category" d = Some (JStr category)) valid
    /\ increasing_from (start_id + i) (Generator.product_ids valid).
Proof.
  induction items as [| product rest IH]; intros i valid H.
  - inversion H; subst. repeat split; constructor.
  - rewrite valid_products_cons in H.
    destruct (Generator.has_keys Generator.required_keys product) as [[|] | e] eqn:Hkeys;
      cbn [bind] in H; try discriminate H.
    + destruct product as [| | | | | | members]; try discriminate H.
      destruct (Generator.valid_products category start_id (i + 1) rest)
        as [products | e] eqn:Hrest; cbn [bind] in H; [| discriminate H].
      inversion H; subst valid. clear H.
      destruct (IH (i + 1) products Hrest) as (Hcols & Hcat & Hids).
      apply has_keys_lookup in Hkeys.
      split; [| split].
      * constructor; [| exact Hcols].
        unfold has_columns, product_columns.
        unfold Generator.required_keys in Hkeys.
        repeat match goal with
               | H : Forall _ (_ :: _) |- _ => inversion H; subst; clear H
               end.
        repeat constructor;
          try (rewrite lookup_store_same; discriminate);
          try (apply lookup_store_some; rewrite lookup_store_same; discriminate);
          repeat apply lookup_store_some; assumption.
      * constructor; [| exact Hcat].
        rewrite lookup_store_other by discriminate. apply lookup_store_same.
      * unfold Generator.product_ids in *. simpl. rewrite lookup_store_same.
        split; [lia |].
        replace (start_id + i + 1) with (start_id + (i + 1)) by lia. exact Hids.
    + destruct (IH (i + 1) valid H) as (Hcols & Hcat & Hids).
      split; [exact Hcols |]. split; [exact Hcat |].
      apply increasing_from_weaken with (start_id + (i + 1)); [lia | exact Hids].
Qed.

Lemma fallback_products_columns {W : Generator.World} (category : string) (start_id : Z)
      (count i : nat) (s : Generator.state) :
  Forall has_columns (fst (Generator.fallback_products category start_id i count s)).
Proof.
  revert i s. induction count as [| count IH]; intros i s; simpl; [constructor |].
  unfold Generator.fallback_product.
  destruct (Generator.pick (Generator.brands category) s) as [brand s1].
  destruct (Generator.category_profile category s1)
    as [[[[items size_options] unit] price_range] s2].
  destruct (Generator.pick items s2) as [name s3].
  destruct (Generator.pick size_options s3) as [size s4].
  destruct (Generator.random_random s4) as [u s5].
  specialize (IH (S i) s5).
  destruct (Generator.fallback_products category start_id (S i) count s5)
    as [products s6].
  simpl in *. constructor; [| exact IH].
  repeat constructor; discriminate.
Qed.

Lemma Forall_firstn {A : Type} (P : A -> Prop) (k : nat) (l : list A) :
  Forall P l -> Forall P (firstn k l).
Proof.
  intros H. apply Forall_forall. intros x Hx. apply firstn_incl in Hx.
  rewrite Forall_forall in H. apply H. exact Hx.
Qed.

Lemma base_products_batch_spec {W : Generator.World}
      (category : string) (batch_size : nat) (start_id : Z) (s : Generator.state) :
  let products :=
    fst (Generator.generate_base_products_batch category batch_size start_id s) in
  (List.length products <= batch_size)%nat
  /\ Forall has_columns products
  /\ Forall (fun d => Generator.lookup "category" d = Some (JStr category)) products
  /\ increasing_from start_id (Generator.product_ids products).
Proof.
  unfold Generator.generate_base_products_batch.
  destruct (Generator.chat_completion category batch_size s) as [response s1].
  match goal with
  | |- context [match ?x with Ok _ => _ | Raise _ => _ end] => destruct x eqn:Hrun
  end.
  - simpl.
    destruct response as [content |]; simpl in Hrun; [| discriminate Hrun].
    destruct (Generator.batch_of_content content) as [batch |]; simpl in Hrun;
      [| discriminate Hrun].
    destruct (Generator.iterate batch) as [items |]; simpl in Hrun; [| discriminate Hrun].
    destruct (Generator.valid_products category start_id 0 items) as [valid |] eqn:Hvalid;
      simpl in Hrun; [| discriminate Hrun].
    inversion Hrun; subst. clear Hrun.
    destruct (valid_products_spec category start_id items 0 valid Hvalid)
      as (Hcols & Hcat & Hids).
    split; [apply firstn_le_length |].
    split; [apply Forall_firstn; exact Hcols |].
    split; [apply Forall_firstn; exact Hcat |].
    unfold Generator.product_ids in *. rewrite <- firstn_map.
    apply increasing_from_firstn. rewrite Z.add_0_r in Hids. exact Hids.
  - unfold Generator.generate_fallback_batch.
    destruct (fallback_products_spec category start_id batch_size 0 s1)
      as (Hlen & Hcat & Hids).
    split; [rewrite Hlen; apply Nat.le_refl |].
    split; [apply fallback_products_columns |].
    split.
    + apply Forall_forall. intros d Hd.
      apply (in_map (Generator.lookup "category")) in Hd. rewrite Hcat in Hd.
      apply repeat_spec in Hd. exact Hd.
    + rewrite Hids.
      replace start_id with (start_id + Z.of_nat 0) at 1 by (simpl; lia).
      apply increasing_from_consecutive.
Qed.

(** X17.  On both of its paths, the API's answer and the fallback,
    [generate_base_products_batch] returns at most [batch_size]
    products; each has a value for all seven columns of the products
    table and the requested category; and their ids are integers that
    start at [start_id] or above and grow strictly along the list. *)
Theorem base_batch_is_well_formed {W : Generator.World}
        (category : string) (batch_size : nat) (start_id : Z) (s : Generator.state) :
  let products :=
    fst (Generator.generate_base_products_batch category batch_size start_id s) in
  (List.length products <= batch_size)%nat
  /\ Forall has_columns products
  /\ Forall (fun d => Generator.lookup "category" d = Some (JStr category)) products
  /\ increasing_from start_id (Generator.product_ids products).
Proof.
  apply base_products_batch_spec.
Qed.

(** ** Similar products *)

Lemma whenever_ret {W : Generator.World} {A : Type} (a : A) (P : A -> Prop) :
  P a -> whenever (Generator.ret a) P.
Proof.
  intros Ha s a' s' H. unfold Generator.ret in H. inversion H; subst. exact Ha.
Qed.

Lemma whenever_throw {W : Generator.World} {A : Type} (e : exn) (P : A -> Prop) :
  whenever (Generator.throw e) P.
Proof.
  intros s a s' H. discriminate H.
Qed.

Lemma whenever_bind {W : Generator.World} {A B : Type}
      (m : Generator.gen A) (k : A -> Generator.gen B) (P : A -> Prop) (Q : B -> Prop) :
  whenever m P ->
  (forall a, P a -> whenever (k a) Q) ->
  whenever (Generator.and_then m k) Q.
Proof.
  intros Hm Hk s b s' H. unfold Generator.and_then in H.
  destruct (m s) as [[a | e] s1] eqn:Hrun; [| discriminate H].
  exact (Hk a (Hm s a s1 Hrun) s1 b s' H).
Qed.

Lemma whenever_pure {W : Generator.World} {A : Type} (r : outcome A) (P : A -> Prop) :
  (forall a, r = Ok a -> P a) -> whenever (Generator.pure r) P.
Proof.
  intros Hr s a s' H. unfold Generator.pure in H. inversion H; subst.
  apply Hr. reflexivity.
Qed.

Lemma whenever_draw {W : Generator.World} {A : Type}
      (f : Generator.state -> A * Generator.state) (P : A -> Prop) :
  (forall s, P (fst (f s))) -> whenever (Generator.draw f) P.
Proof.
  intros Hf s a s' H. unfold Generator.draw in H. specialize (Hf s).
  destruct (f s) as [a' s1]. inversion H; subst. exact Hf.
Qed.

Lemma whenever_anything {W : Generator.World} {A : Type} (m : Generator.gen A) :
  whenever m (fun _ => True).
Proof.
  intros s a s' _. exact I.
Qed.

Lemma variant_of_refl (keys : list string) (d : Generator.dict) : variant_of keys d d.
Proof.
  split; intros key H; [reflexivity | exact H].
Qed.

Lemma variant_of_store (key : string) (v : json) (d : Generator.dict) :
  variant_of [key] d (Generator.store key v d).
Proof.
  split.
  - intros k Hk. apply lookup_store_other. intros ->. apply Hk. left. reflexivity.
  - intros k Hk. apply lookup_store_some. exact Hk.
Qed.

Lemma variant_of_trans (keys keys' : list string) (d d' d'' : Generator.dict) :
  variant_of keys d d' -> variant_of keys' d' d'' -> variant_of (keys ++ keys') d d''.
Proof.
  intros [H1 K1] [H2 K2]. split.
  - intros key Hkey. rewrite H2, H1; [reflexivity | |];
      intros Hin; apply Hkey; apply in_or_app; [left | right]; exact Hin.
  - intros key Hkey. apply K2, K1. exact Hkey.
Qed.

Lemma vary_brand_keeps {W : Generator.World} (d : Generator.dict) :
  whenever (Generator.vary_brand d) (variant_of ["brand"] d).
Proof.
  unfold Generator.vary_brand.
  apply whenever_bind with (P := fun _ => True); [apply whenever_anything |].
  intros current_brand _.
  assert (Hgeneric :
            whenever (Generator.and_then
                        (Generator.choice "" Generator.generic_brands)
                        (fun brand => Generator.ret
                                        (Generator.store "brand" (JStr brand) d)))
                     (variant_of ["brand"] d)).
  { apply whenever_bind with (P := fun _ => True); [apply whenever_anything |].
    intros brand _. apply whenever_ret, variant_of_store. }
  destruct current_brand as [| | | | name | |];
    try exact Hgeneric; try apply whenever_throw.
  destruct (Generator.brand_variants name); [| exact Hgeneric].
  apply whenever_bind with (P := fun _ => True); [apply whenever_anything |].
  intros brand _. apply whenever_ret, variant_of_store.
Qed.

Lemma vary_size_keeps {W : Generator.World} (d : Generator.dict) :
  whenever (Generator.vary_size d) (variant_of ["size"] d).
Proof.
  unfold Generator.vary_size.
  apply whenever_bind with (P := fun _ => True); [apply whenever_anything |].
  intros current_size _.
  apply whenever_bind with (P := fun _ => True); [apply whenever_anything |].
  intros unit _.
  apply whenever_bind with (P := fun _ => True); [apply whenever_anything |].
  intros size_text _.
  destruct (Generator.words size_text) as [| first others];
    [apply whenever_ret, variant_of_refl |].
  destruct (Generator.isdigit (Generator.without_dots first));
    [| apply whenever_ret, variant_of_refl].
  apply whenever_bind with (P := fun _ => True); [apply whenever_anything |].
  intros current_amount _.
  apply whenever_bind with (P := fun _ => True); [apply whenever_anything |].
  intros variation_factor _.
  destruct (Qltb 0.1 _); apply whenever_ret;
    [apply variant_of_store | apply variant_of_refl].
Qed.

Lemma vary_price_keeps {W : Generator.World} (d : Generator.dict) :
  whenever (Generator.vary_price d) (variant_of ["price_per_unit"] d).
Proof.
  unfold Generator.vary_price.
  apply whenever_bind with (P := fun _ => True); [apply whenever_anything |].
  intros current_price _.
  apply whenever_bind with (P := fun _ => True); [apply whenever_anything |].
  intros price_variation _.
  apply whenever_bind with (P := fun _ => True); [apply whenever_anything |].
  intros price _. apply whenever_ret, variant_of_store.
Qed.

Lemma vary_name_keeps {W : Generator.World} (d : Generator.dict) :
  whenever (Generator.vary_name d) (variant_of ["product_name"] d).
Proof.
  unfold Generator.vary_name.
  apply whenever_bind with (P := fun _ => True); [apply whenever_anything |].
  intros current_name _.
  apply whenever_bind with (P := fun _ => True); [apply whenever_anything |].
  intros modifier _.
  apply whenever_bind with (P := fun _ => True); [apply whenever_anything |].
  intros name _.
  destruct (contains _ _); apply whenever_ret;
    [apply variant_of_refl | apply variant_of_store].
Qed.

Lemma with_chance_keeps {W : Generator.World} (p : Q)
      (change : Generator.dict -> Generator.gen Generator.dict)
      (keys : list string) (d : Generator.dict) :
  whenever (change d) (variant_of keys d) ->
  whenever (Generator.with_chance p change d) (variant_of keys d).
Proof.
  intros Hchange. unfold Generator.with_chance.
  apply whenever_bind with (P := fun _ => True); [apply whenever_anything |].
  intros u _. destruct (Qltb u p); [exact Hchange |].
  apply whenever_ret, variant_of_refl.
Qed.

Lemma create_similar_product_keeps {W : Generator.World}
      (base_product : Generator.dict) (new_id : Z) :
  whenever (Generator.create_similar_product base_product new_id)
           (fun d => Generator.lookup "product_id" d = Some (JInt new_id)
                     /\ variant_of ("product_id" :: varied_keys) base_product d).
Proof.
  unfold Generator.create_similar_product.
  set (d0 := Generator.store "product_id" (JInt new_id) base_product).
  apply whenever_bind with (P := variant_of ["brand"] d0).
  { apply with_chance_keeps, vary_brand_keeps. }
  intros d1 H1.
  apply whenever_bind with (P := variant_of ["size"] d1).
  { apply with_chance_keeps, vary_size_keeps. }
  intros d2 H2.
  apply whenever_bind with (P := variant_of ["price_per_unit"] d2).
  { apply with_chance_keeps, vary_price_keeps. }
  intros d3 H3.
  intros s d4 s' Hrun.
  apply (with_chance_keeps _ _ _ _ (vary_name_keeps d3)) in Hrun.
  pose proof (variant_of_trans _ _ _ _ _
                (variant_of_trans _ _ _ _ _
                   (variant_of_trans _ _ _ _ _ H1 H2) H3) Hrun) as Hall.
  simpl in Hall. split.
  - destruct Hall as [Hall _]. rewrite Hall by (simpl; intuition discriminate).
    apply lookup_store_same.
  - exact (variant_of_trans _ _ _ _ _
             (variant_of_store "product_id" (JInt new_id) base_product) Hall).
Qed.

Lemma consecutive_ids_cons (start_id : Z) (count : nat) :
  consecutive_ids start_id (S count)
  = Some (JInt start_id) :: consecutive_ids (start_id + 1) count.
Proof.
  unfold consecutive_ids. simpl. rewrite Z.add_0_r. f_equal.
  rewrite <- seq_shift, map_map. apply map_ext. intros i. do 2 f_equal. lia.
Qed.

Lemma consecutive_ids_app (start_id : Z) (n k : nat) :
  consecutive_ids start_id (n + k)
  = consecutive_ids start_id n ++ consecutive_ids (start_id + Z.of_nat n) k.
Proof.
  revert start_id. induction n as [| n IH]; intros start_id.
  - simpl. rewrite Z.add_0_r. reflexivity.
  - change (S n + k)%nat with (S (n + k)). rewrite !consecutive_ids_cons, IH.
    simpl. do 3 f_equal. lia.
Qed.

Lemma consecutive_ids_length (start_id : Z) (count : nat) :
  List.length (consecutive_ids start_id count) = count.
Proof.
  unfold consecutive_ids. rewrite length_map, length_seq. reflexivity.
Qed.

Lemma consecutive_ids_In (start_id : Z) (count : nat) (v : Z) :
  In (Some (JInt v)) (consecutive_ids start_id count)
  <-> start_id <= v < start_id + Z.of_nat count.
Proof.
  unfold consecutive_ids. rewrite in_map_iff. split.
  - intros (i & Hi & Hin). apply in_seq in Hin. inversion Hi; subst. lia.
  - intros Hv. exists (Z.to_nat (v - start_id)). split.
    + do 2 f_equal. lia.
    + apply in_seq. lia.
Qed.

Lemma variants_spec {W : Generator.World} (base_product : Generator.dict)
      (num_variants : nat) :
  forall current_id,
    whenever (Generator.variants base_product current_id num_variants)
             (fun similar =>
                Generator.product_ids similar = consecutive_ids current_id num_variants
                /\ Forall (fun d => variant_of ("product_id" :: varied_keys)
                                               base_product d) similar).
Proof.
  induction num_variants as [| n IH]; intros current_id; simpl.
  - apply whenever_ret. split; [reflexivity | constructor].
  - eapply whenever_bind; [apply create_similar_product_keeps |].
    intros d [Hid Hvariant].
    eapply whenever_bind; [apply IH |].
    intros others [Hids Hothers]. apply whenever_ret.
    split; [| constructor; assumption].
    rewrite consecutive_ids_cons. unfold Generator.product_ids in *. simpl.
    rewrite Hid, Hids. reflexivity.
Qed.

Lemma sample_incl {W : Generator.World} {A : Type} (population : list A) (k : nat) :
  whenever (Generator.sample population k)
           (fun chosen => forall x, In x chosen -> In x population).
Proof.
  unfold Generator.sample. apply whenever_draw. intros s.
  destruct (Generator.random_sample_indices (List.length population) k s)
    as [indices s'].
  simpl. intros x Hx. apply in_flat_map in Hx. destruct Hx as (i & _ & Hx).
  destruct (nth_error population i) as [a |] eqn:Hnth; [| contradiction].
  destruct Hx as [-> | []]. apply nth_error_In in Hnth. exact Hnth.
Qed.

Lemma map_store_In (key : Z) (ids : list Z) (m : Generator.id_map) (k : Z) (vs : list Z) :
  In (k, vs) (Generator.map_store key ids m) ->
  (k = key /\ vs = ids) \/ In (k, vs) m.
Proof.
  induction m as [| [k0 old] m IH]; simpl.
  - intros [H | []]. inversion H; subst. left. split; reflexivity.
  - destruct (k0 =? key) eqn:Hk; simpl.
    + apply Z.eqb_eq in Hk. subst k0.
      intros [H | H]; [inversion H; subst; left; split; reflexivity | right; right; exact H].
    + intros [H | H]; [right; left; exact H |].
      destruct (IH H) as [Hnew | Hold]; [left; exact Hnew | right; right; exact Hold].
Qed.

Lemma map_update_In (other m : Generator.id_map) (k : Z) (vs : list Z) :
  In (k, vs) (Generator.map_update m other) -> In (k, vs) m \/ In (k, vs) other.
Proof.
  unfold Generator.map_update. revert m.
  induction other as [| [key ids] other IH]; intros m; simpl.
  - intros H. left. exact H.
  - intros H. apply IH in H. destruct H as [H | H]; [| right; right; exact H].
    apply map_store_In in H. simpl in H.
    destruct H as [[-> ->] | H]; [right; left; reflexivity | left; exact H].
Qed.

Lemma id_of_is_product_id (product : Generator.dict) (pid : Z)
      (products : list Generator.dict) :
  Generator.id_of product = Ok pid -> In product products -> is_product_id products pid.
Proof.
  unfold Generator.id_of, Generator.item, is_product_id, Generator.product_ids.
  intros Hid Hin.
  destruct (Generator.lookup "product_id" product) as [[| | n | | | |] |] eqn:Hlookup;
    simpl in Hid; try discriminate Hid.
  inversion Hid; subst. rewrite <- Hlookup. apply in_map. exact Hin.
Qed.

Lemma variants_of_all_spec {W : Generator.World}
      (products_getting_variants : list Generator.dict) :
  forall (current_id : Z) (m0 : Generator.id_map),
    whenever (Generator.variants_of_all products_getting_variants current_id m0)
             (fun r =>
                Generator.product_ids (fst r)
                = consecutive_ids current_id (List.length (fst r))
                /\ Forall (varies_a_base products_getting_variants) (fst r)
                /\ forall k vs,
                    In (k, vs) (snd r) ->
                    In (k, vs) m0
                    \/ (is_product_id products_getting_variants k
                        /\ forall v, In v vs ->
                                     current_id <= v
                                     < current_id + Z.of_nat (List.length (fst r)))).
Proof.
  induction products_getting_variants as [| base_product rest IH];
    intros current_id m0; simpl.
  - apply whenever_ret. simpl. split; [reflexivity |]. split; [constructor |].
    intros k vs H. left. exact H.
  - apply whenever_bind with (P := fun _ => True); [apply whenever_anything |].
    intros num_variants _.
    eapply whenever_bind; [apply variants_spec |].
    intros similar [Hids Hvariants].
    eapply whenever_bind; [apply whenever_pure; intros a Ha; exact Ha |].
    intros base_id Hbase.
    eapply whenever_bind; [apply IH |].
    intros [more m] (Hmore & Hmore_variants & Hmap). apply whenever_ret. simpl in *.
    assert (Hlen : List.length similar = num_variants).
    { rewrite <- (length_map (Generator.lookup "product_id")).
      fold (Generator.product_ids similar). rewrite Hids.
      apply consecutive_ids_length. }
    split; [| split].
    + unfold Generator.product_ids in *. rewrite map_app, length_app, Hids, Hmore.
      rewrite consecutive_ids_app, Hlen. reflexivity.
    + apply Forall_app. split.
      * eapply Forall_impl; [| exact Hvariants]. intros d Hd.
        exists base_product. split; [left; reflexivity | exact Hd].
      * eapply Forall_impl; [| exact Hmore_variants]. intros d (base & Hin & Hd).
        exists base. split; [right; exact Hin | exact Hd].
    + intros k vs Hin. rewrite length_app, Hlen.
      destruct (Hmap k vs Hin) as [Hstored | [Hkey Hrange]].
      * apply map_store_In in Hstored. destruct Hstored as [[-> ->] | Hold];
          [| left; exact Hold].
        right. split.
        -- apply (id_of_is_product_id base_product); [exact Hbase | left; reflexivity].
        -- intros v Hv. apply in_map_iff in Hv. destruct Hv as (i & <- & Hi).
           apply in_seq in Hi. lia.
      * right. split.
        -- unfold is_product_id, Generator.product_ids in *. simpl. right. exact Hkey.
        -- intros v Hv. specialize (Hrange v Hv). lia.
Qed.

Lemma map_keys_In (m : Generator.id_map) (key : Z) :
  In key (map_keys m) -> exists vs, In (key, vs) m.
Proof.
  unfold map_keys. intros H. apply in_map_iff in H.
  destruct H as ([k vs] & <- & Hin). exists vs. exact Hin.
Qed.

Lemma map_values_In (m : Generator.id_map) (v : Z) :
  In v (map_values m) -> exists key vs, In (key, vs) m /\ In v vs.
Proof.
  unfold map_values. intros H. apply in_flat_map in H.
  destruct H as ([k vs] & Hin & Hv). exists k, vs. split; assumption.
Qed.

Lemma is_product_id_incl (products products' : list Generator.dict) (pid : Z) :
  (forall d, In d products -> In d products') ->
  is_product_id products pid -> is_product_id products' pid.
Proof.
  unfold is_product_id, Generator.product_ids. intros Hincl H.
  apply in_map_iff in H. destruct H as (d & Hd & Hin).
  rewrite <- Hd. apply in_map. apply Hincl. exact Hin.
Qed.

Lemma generate_similar_products_spec {W : Generator.World}
      (base_products : list Generator.dict) (start_id : Z)
      (similar_batch_pct similar_subset_pct : Q) :
  whenever (Generator.generate_similar_products base_products start_id
                                                similar_batch_pct similar_subset_pct)
           (similar_products_ok base_products start_id).
Proof.
  unfold Generator.generate_similar_products.
  destruct base_products as [| first others] eqn:Hbase.
  { apply whenever_ret. repeat split; simpl; try constructor; intros ? []. }
  rewrite <- Hbase. clear Hbase.
  eapply whenever_bind; [apply sample_incl |].
  intros selected Hselected.
  eapply whenever_bind; [apply sample_incl |].
  intros chosen Hchosen.
  intros s r s' Hrun.
  apply variants_of_all_spec in Hrun. destruct Hrun as (Hids & Hvariants & Hmap).
  assert (Hincl : forall d, In d chosen -> In d base_products)
    by (intros d Hd; apply Hselected, Hchosen, Hd).
  split; [exact Hids |]. split; [| split].
  - eapply Forall_impl; [| exact Hvariants]. intros d (base & Hin & Hd).
    exists base. split; [apply Hincl; exact Hin | exact Hd].
  - intros key Hkey. apply map_keys_In in Hkey. destruct Hkey as (vs & Hin).
    destruct (Hmap key vs Hin) as [[] | [Hkey _]].
    apply (is_product_id_incl chosen); assumption.
  - intros v Hv. apply map_values_In in Hv. destruct Hv as (key & vs & Hin & Hv).
    destruct (Hmap key vs Hin) as [[] | [_ Hrange]].
    unfold is_product_id. rewrite Hids. apply consecutive_ids_In. apply Hrange. exact Hv.
Qed.

(** X19.  Whenever [generate_similar_products] returns (it raises when
    [create_similar_product] does, and its caller then falls back), the
    similar products have the consecutive ids [start_id],
    [start_id + 1], ... in order; each is a variant of one of the base
    products, with every key of that product and the same values
    outside the id, brand, size, price and name; every key of the
    substitution map is the id of a base product, and every id among
    its values is the id of one of the similar products. *)
Theorem similar_products_are_numbered_variants {W : Generator.World}
        (base_products : list Generator.dict) (start_id : Z)
        (similar_batch_pct similar_subset_pct : Q)
        (s s' : Generator.state) (result : list Generator.dict * Generator.id_map) :
  Generator.generate_similar_products base_products start_id
                                      similar_batch_pct similar_subset_pct s
  = (Ok result, s') ->
  similar_products_ok base_products start_id result.
Proof.
  apply generate_similar_products_spec.
Qed.

Lemma similar_products_are_numbered_variants_witness :
  let base := fst (Generator.generate_fallback_batch (W := Sample.silent_world)
                                                     "Produce" 3 1 (0, 0%nat)) in
  exists result s',
    Generator.generate_similar_products (W := Sample.silent_world) base 4 0.6 0.4
                                        (5, 0%nat)
    = (Ok result, s')
    /\ similar_products_ok base 4 result.
Proof.
  intros base. eexists _, _. split; [vm_compute; reflexivity |].
  eapply (similar_products_are_numbered_variants (W := Sample.silent_world)
            base 4 0.6 0.4 (5, 0%nat)).
  vm_compute. reflexivity.
Defined.

(** ** The catalogue and the substitution map *)

Lemma has_columns_variant (keys : list string) (base d : Generator.dict) :
  variant_of keys base d -> has_columns base -> has_columns d.
Proof.
  intros [_ Hkeeps] Hbase. unfold has_columns in *.
  eapply Forall_impl; [| exact Hbase]. intros key Hkey. apply Hkeeps. exact Hkey.
Qed.

Lemma category_of_variant (base d : Generator.dict) :
  variant_of ("product_id" :: varied_keys) base d ->
  Generator.lookup "category" d = Generator.lookup "category" base.
Proof.
  intros [Hagree _]. apply Hagree. simpl. intuition discriminate.
Qed.

Lemma catalogue_ok_more (products extra : list Generator.dict) (m : Generator.id_map) :
  catalogue_ok products m ->
  Forall has_columns extra ->
  Forall in_a_category extra ->
  catalogue_ok (products ++ extra) m.
Proof.
  intros (Hcols & Hcats & Hkeys & Hvalues) Hcols' Hcats'.
  split; [apply Forall_app; split; assumption |].
  split; [apply Forall_app; split; assumption |].
  split; intros x Hx;
    [apply (is_product_id_incl products); [| apply Hkeys; exact Hx]
    | apply (is_product_id_incl products); [| apply Hvalues; exact Hx]];
    intros d Hd; apply in_or_app; left; exact Hd.
Qed.

Lemma catalogue_ok_update (products : list Generator.dict) (m new : Generator.id_map) :
  catalogue_ok products m ->
  (forall key, In key (map_keys new) -> is_product_id products key) ->
  (forall v, In v (map_values new) -> is_product_id products v) ->
  catalogue_ok products (Generator.map_update m new).
Proof.
  intros (Hcols & Hcats & Hkeys & Hvalues) Hkeys' Hvalues'.
  split; [exact Hcols |]. split; [exact Hcats |]. split.
  - intros key Hkey. apply map_keys_In in Hkey. destruct Hkey as (vs & Hin).
    apply map_update_In in Hin.
    destruct Hin as [Hin | Hin]; [apply Hkeys | apply Hkeys'];
      unfold map_keys; apply (in_map fst) in Hin; exact Hin.
  - intros v Hv. apply map_values_In in Hv. destruct Hv as (key & vs & Hin & Hv).
    apply map_update_In in Hin.
    destruct Hin as [Hin | Hin]; [apply Hvalues | apply Hvalues'];
      unfold map_values; apply in_flat_map; exists (key, vs); split; assumption.
Qed.

Lemma fallback_batch_in_category {W : Generator.World} (category : string)
      (batch_size : nat) (start_id : Z) (s : Generator.state) :
  In category Generator.categories ->
  let products := fst (Generator.generate_fallback_batch category batch_size start_id s) in
  Forall has_columns products /\ Forall in_a_category products.
Proof.
  intros Hcat. unfold Generator.generate_fallback_batch. split.
  - apply fallback_products_columns.
  - destruct (fallback_products_spec category start_id batch_size 0 s)
      as (_ & Hcats & _).
    apply Forall_forall. intros d Hd.
    apply (in_map (Generator.lookup "category")) in Hd. rewrite Hcats in Hd.
    apply repeat_spec in Hd. exists category. split; assumption.
Qed.

Lemma batch_step_keeps {W : Generator.World} (category : string)
      (products_per_category batch_size : nat) (similar_batch_pct similar_subset_pct : Q)
      (finished : list Generator.dict) (p p' : Generator.progress)
      (s s' : Generator.state) :
  In category Generator.categories ->
  Generator.batch_step category products_per_category batch_size
                       similar_batch_pct similar_subset_pct p s = (Some p', s') ->
  catalogue_ok (finished ++ Generator.category_products p) (Generator.substitution_map p) ->
  catalogue_ok (finished ++ Generator.category_products p')
               (Generator.substitution_map p').
Proof.
  intros Hcat Hstep Hok. unfold Generator.batch_step in Hstep.
  destruct (Nat.min batch_size _) as [| size'] eqn:Hsize; [discriminate Hstep |].
  pose proof (base_products_batch_spec category (S size')
                                       (Generator.product_id_counter p) s) as Hbase.
  destruct (Generator.generate_base_products_batch category (S size')
                                                   (Generator.product_id_counter p) s)
    as [base_products s1].
  simpl in Hbase. destruct Hbase as (_ & Hcols & Hcats & _).
  assert (Hcats' : Forall in_a_category base_products).
  { eapply Forall_impl; [| exact Hcats]. intros d Hd. exists category.
    split; assumption. }
  destruct base_products as [| first others] eqn:Hlist.
  { inversion Hstep; subst. exact Hok. }
  rewrite <- Hlist in *. clear Hlist first others.
  pose proof (catalogue_ok_more _ base_products _ Hok Hcols Hcats') as Hok1.
  rewrite <- app_assoc in Hok1.
  simpl in Hstep.
  match type of Hstep with
  | context [Generator.generate_similar_products ?b ?i ?x ?y ?st] =>
      pose proof (generate_similar_products_spec b i x y st) as Hsimilar;
      destruct (Generator.generate_similar_products b i x y st)
        as [[[similar new_map] | e] s2]
  end.
  - specialize (Hsimilar _ _ eq_refl).
    destruct Hsimilar as (_ & Hvariants & Hkeys & Hvalues).
    simpl in Hvariants, Hkeys, Hvalues.
    destruct similar as [| d0 similar'] eqn:Hsim.
    { inversion Hstep; subst. simpl. exact Hok1. }
    rewrite <- Hsim in *. clear Hsim d0 similar'.
    inversion Hstep; subst. clear Hstep. simpl.
    assert (Hsim_cols : Forall has_columns similar).
    { eapply Forall_impl; [| exact Hvariants]. intros d (base & Hin & Hd).
      apply (has_columns_variant ("product_id" :: varied_keys) base); [exact Hd |].
      rewrite Forall_forall in Hcols. apply Hcols. exact Hin. }
    assert (Hsim_cats : Forall in_a_category similar).
    { eapply Forall_impl; [| exact Hvariants]. intros d (base & Hin & Hd).
      exists category. split; [exact Hcat |].
      rewrite (category_of_variant base d Hd).
      rewrite Forall_forall in Hcats. apply Hcats. exact Hin. }
    pose proof (catalogue_ok_more _ similar _ Hok1 Hsim_cols Hsim_cats) as Hok2.
    rewrite <- app_assoc in Hok2.
    apply catalogue_ok_update; [exact Hok2 | |].
    + intros key Hkey. apply (is_product_id_incl base_products); [| apply Hkeys, Hkey].
      intros d Hd. apply in_or_app. right. apply in_or_app. left.
      apply in_or_app. right. exact Hd.
    + intros v Hv. apply (is_product_id_incl similar); [| apply Hvalues, Hv].
      intros d Hd. apply in_or_app. right. apply in_or_app. right. exact Hd.
  - match type of Hstep with
    | context [Generator.generate_fallback_batch ?c ?n ?i ?st] =>
        pose proof (fallback_batch_in_category c n i st Hcat) as Hfallback;
        destruct (Generator.generate_fallback_batch c n i st) as [fallback s3]
    end.
    simpl in Hfallback. destruct Hfallback as [Hfcols Hfcats].
    inversion Hstep; subst. clear Hstep. simpl.
    pose proof (catalogue_ok_more _ fallback _ Hok1 Hfcols Hfcats) as Hok2.
    rewrite <- app_assoc in Hok2. exact Hok2.
Qed.

Lemma batches_keep {W : Generator.World} (category : string)
      (products_per_category batch_size : nat) (similar_batch_pct similar_subset_pct : Q)
      (finished : list Generator.dict) (turns : nat) :
  In category Generator.categories ->
  forall (p : Generator.progress) (s : Generator.state),
    catalogue_ok (finished ++ Generator.category_products p)
                 (Generator.substitution_map p) ->
    let p' := fst (Generator.batches category products_per_category batch_size
                                     similar_batch_pct similar_subset_pct turns p s) in
    catalogue_ok (finished ++ Generator.category_products p')
                 (Generator.substitution_map p').
Proof.
  intros Hcat. induction turns as [| turns IH]; intros p s Hok; simpl; [exact Hok |].
  destruct (Generator.batch_step category products_per_category batch_size
                                 similar_batch_pct similar_subset_pct p s)
    as [[p1 |] s1] eqn:Hstep; [| exact Hok].
  apply IH. apply (batch_step_keeps _ _ _ _ _ _ _ _ _ _ Hcat Hstep Hok).
Qed.

Lemma all_categories_keep {W : Generator.World}
      (products_per_category batch_size : nat) (similar_batch_pct similar_subset_pct : Q)
      (cats : list string) :
  (forall c, In c cats -> In c Generator.categories) ->
  forall (all_products : list Generator.dict) (substitutions : Generator.id_map)
         (counter : Z) (s : Generator.state),
    catalogue_ok all_products substitutions ->
    let r := fst (Generator.all_categories cats products_per_category batch_size
                                           similar_batch_pct similar_subset_pct
                                           all_products substitutions counter s) in
    catalogue_ok (fst r) (snd r).
Proof.
  induction cats as [| category rest IH];
    intros Hcats all_products substitutions counter s Hok; simpl; [exact Hok |].
  match goal with
  | |- context [Generator.batches ?c ?n ?b ?x ?y ?t ?p ?st] =>
      pose proof (batches_keep c n b x y all_products t
                               (Hcats c (or_introl eq_refl)) p st) as Hbatches;
      destruct (Generator.batches c n b x y t p st) as [p' s']
  end.
  simpl in Hbatches. rewrite app_nil_r in Hbatches. specialize (Hbatches Hok).
  apply IH; [| exact Hbatches].
  intros c Hc. apply Hcats. right. exact Hc.
Qed.

(** X20.  For a batch size that is not zero (with zero, [range]
    raises before anything is generated), the catalogue of
    [generate_products_via_api] and the global [SUBSTITUTION_MAP] it
    leaves behind fit together, whatever the API answers: every
    product has a value for each of the seven columns
    selected at the end and carries one of the eight categories, and
    every id in the map, the key of a group or one of its substitutes,
    is the id of a product of the catalogue. *)
Theorem catalogue_and_substitution_map_fit {W : Generator.World}
        (products_per_category batch_size : nat)
        (similar_batch_pct similar_subset_pct : Q) (s : Generator.state) :
  (0 < batch_size)%nat ->
  let r := fst (Generator.generate_products_via_api
                  products_per_category batch_size
                  similar_batch_pct similar_subset_pct s) in
  catalogue_ok (fst r) (snd r).
Proof.
  intros _. unfold Generator.generate_products_via_api.
  apply all_categories_keep; [intros c Hc; exact Hc |].
  repeat split; try constructor; intros x [].
Qed.

Lemma catalogue_and_substitution_map_fit_witness :
  let r := fst (Generator.generate_products_via_api (W := Sample.sample_world)
                  50 30 0.6 0.4 (0, 0%nat)) in
  catalogue_ok (fst r) (snd r).
Proof.
  apply (catalogue_and_substitution_map_fit (W := Sample.sample_world)
           50 30 0.6 0.4 (0, 0%nat)).
  lia.
Defined.

(** ** Order items *)

Lemma always_ret {W : Generator.World} {A : Type} (a : A) (P : A -> Prop) :
  P a -> always (Generator.ret a) P.
Proof.
  intros Ha s. exists a, s. split; [reflexivity | exact Ha].
Qed.

Lemma always_bind {W : Generator.World} {A B : Type}
      (m : Generator.gen A) (k : A -> Generator.gen B) (P : A -> Prop) (Q : B -> Prop) :
  always m P ->
  (forall a, P a -> always (k a) Q) ->
  always (Generator.and_then m k) Q.
Proof.
  intros Hm Hk s. destruct (Hm s) as (a & s1 & Hrun & Ha).
  destruct (Hk a Ha s1) as (b & s2 & Hrun' & Hb).
  exists b, s2. unfold Generator.and_then. rewrite Hrun. split; assumption.
Qed.

Lemma always_pure {W : Generator.World} {A : Type} (r : outcome A) (a : A)
      (P : A -> Prop) :
  r = Ok a -> P a -> always (Generator.pure r) P.
Proof.
  intros -> Ha s. exists a, s. split; [reflexivity | exact Ha].
Qed.

Lemma always_draw {W : Generator.World} {A : Type}
      (f : Generator.state -> A * Generator.state) (P : A -> Prop) :
  (forall s, P (fst (f s))) -> always (Generator.draw f) P.
Proof.
  intros Hf s. unfold Generator.draw. specialize (Hf s).
  destruct (f s) as [a s']. exists a, s'. split; [reflexivity | exact Hf].
Qed.

Lemma always_random {W : Generator.World} :
  always (Generator.draw Generator.random_random) (fun _ => True).
Proof.
  apply always_draw. intros s. exact I.
Qed.

Lemma randint_in_range {W : Generator.World} (a b : Z) (s : Generator.state) :
  choice_in_range W -> a <= b ->
  a <= fst (Generator.randint a b s) <= b.
Proof.
  intros Hlaw Hab. unfold Generator.randint.
  specialize (Hlaw (Z.to_nat (b - a + 1)) s).
  destruct (Generator.random_choice_index (Z.to_nat (b - a + 1)) s) as [i s'].
  simpl in *. assert (i < Z.to_nat (b - a + 1))%nat by (apply Hlaw; lia). lia.
Qed.

Lemma choice_is_member {W : Generator.World} {A : Type} (default : A) (seq : list A) :
  choice_in_range W -> seq <> [] ->
  always (Generator.choice default seq) (fun a => In a seq).
Proof.
  intros Hlaw Hseq. unfold Generator.choice. apply always_draw. intros s.
  specialize (Hlaw (List.length seq) s).
  destruct (Generator.random_choice_index (List.length seq) s) as [i s'].
  simpl in *. apply nth_In. apply Hlaw.
  destruct seq; [contradiction | simpl; lia].
Qed.

Lemma item_of_spec {W : Generator.World}
      (products : list Generator.dict) (substitutions : Generator.id_map)
      (b : Generator.basket) (pid : Z) :
  choice_in_range W ->
  is_listed products pid ->
  always (Generator.item_of products substitutions (Generator.basket_order_id b)
                            (Generator.basket_household_size b) pid)
         (item_for substitutions (b, pid)).
Proof.
  intros Hlaw (info & category & Hinfo & Hcategory).
  set (hs := Generator.basket_household_size b).
  unfold Generator.item_of.
  apply always_bind with (P := fun q => 1 <= q <= Z.max 1 hs).
  { destruct (hs >? 2) eqn:Hhs; [| apply always_ret; lia].
    apply Z.gtb_lt in Hhs.
    eapply always_bind; [apply always_random |]. intros u _.
    destruct (Qltb u 0.4); [| apply always_ret; lia].
    apply always_draw. intros s.
    pose proof (randint_in_range 2 hs s Hlaw) as Hr. lia. }
  intros q Hq.
  eapply always_bind; [apply (always_pure _ info (fun i => i = info) Hinfo eq_refl) |].
  intros ? ->.
  eapply always_bind.
  { apply (always_pure _ category (fun c => c = category)); [| reflexivity].
    unfold Generator.item. rewrite Hcategory. reflexivity. }
  intros ? ->.
  apply always_bind with (P := fun q' => 1 <= q' <= Z.max 1 hs + 2).
  { assert (Hsame : always (Generator.ret q) (fun q' => 1 <= q' <= Z.max 1 hs + 2))
      by (apply always_ret; lia).
    destruct category as [| | | | c | |]; try exact Hsame.
    destruct (String.eqb c "Produce" || String.eqb c "Snacks"); [| exact Hsame].
    eapply always_bind; [apply always_random |]. intros u _.
    destruct (Qltb u 0.3); [| exact Hsame].
    apply always_bind with (P := fun extra => 1 <= extra <= 2).
    { apply always_draw. intros s. apply randint_in_range; [exact Hlaw | lia]. }
    intros extra Hextra. apply always_ret. lia. }
  intros q' Hq'.
  eapply always_bind; [apply always_random |]. intros u _.
  destruct (Qltb u 0.05).
  - destruct (Generator.substitutes substitutions pid) as [| candidate candidates] eqn:Hsub.
    + apply always_ret. exists pid, q', true.
      split; [reflexivity |]. split; [exact Hq' |].
      split; [discriminate |]. intros _. left. split; [exact Hsub | reflexivity].
    + eapply always_bind.
      { apply (choice_is_member 0 (candidate :: candidates) Hlaw). discriminate. }
      intros substitute_id Hin. apply always_ret. exists substitute_id, q', true.
      split; [reflexivity |]. split; [exact Hq' |].
      split; [discriminate |]. intros _. right. rewrite Hsub. exact Hin.
  - apply always_ret. exists pid, q', false.
    split; [reflexivity |]. split; [exact Hq' |].
    split; [reflexivity | discriminate].
Qed.

Lemma items_of_basket_spec {W : Generator.World}
      (products : list Generator.dict) (substitutions : Generator.id_map)
      (b : Generator.basket) (selected : list Z) :
  choice_in_range W ->
  Forall (is_listed products) selected ->
  always (Generator.items_of_basket products substitutions
                                    (Generator.basket_order_id b)
                                    (Generator.basket_household_size b) selected)
         (Forall2 (item_for substitutions) (map (fun pid => (b, pid)) selected)).
Proof.
  intros Hlaw. induction selected as [| pid rest IH]; intros Hall; simpl.
  - apply always_ret. constructor.
  - inversion Hall; subst.
    eapply always_bind; [apply item_of_spec; eassumption |]. intros first Hfirst.
    eapply always_bind; [apply IH; assumption |]. intros others Hothers.
    apply always_ret. constructor; assumption.
Qed.

Lemma items_of_orders_spec {W : Generator.World}
      (products : list Generator.dict) (substitutions : Generator.id_map)
      (baskets : list Generator.basket) :
  choice_in_range W ->
  Forall (fun b => Forall (is_listed products) (Generator.selected_products b)) baskets ->
  always (Generator.items_of_orders products substitutions baskets)
         (Forall2 (item_for substitutions) (selections baskets)).
Proof.
  intros Hlaw. induction baskets as [| b rest IH]; intros Hall; simpl.
  - apply always_ret. constructor.
  - inversion Hall; subst.
    eapply always_bind; [apply items_of_basket_spec; eassumption |]. intros first Hfirst.
    eapply always_bind; [apply IH; assumption |]. intros others Hothers.
    apply always_ret. apply Forall2_app; assumption.
Qed.

Lemma item_for_is_order_item (m : Generator.id_map) (selection : Generator.basket * Z)
      (record : list (string * value)) :
  item_for m selection record -> is_order_item record.
Proof.
  destruct selection as [b selected]. intros (pid & q & sub & -> & _).
  eexists _, _, _, _. reflexivity.
Qed.

Lemma frame_of_order_items (records : list (list (string * value))) :
  Forall is_order_item records ->
  records <> [] ->
  frame_of_records records
  = {| columns := order_item_columns; rows := map row_of_item records |}.
Proof.
  intros Hall Hsome. unfold frame_of_records.
  assert (Hcols : fold_left add_keys records [] = order_item_columns).
  { destruct records as [| record rest]; [contradiction |].
    inversion Hall as [| ? ? Hrecord Hrest]; subst. simpl.
    destruct Hrecord as (oid & pid & q & sub & ->). simpl.
    destruct (order_item_keys order_item_columns rest Hrest (or_intror eq_refl))
      as [H | H]; [| exact H].
    exfalso. clear - H Hrest. revert H.
    assert (Hgen : forall cols, cols <> [] ->
                                fold_left add_keys rest cols <> []).
    { induction Hrest as [| record rest' Hrecord _ IH]; intros cols Hcols; simpl;
        [exact Hcols |].
      apply IH. destruct Hrecord as (oid & pid & q & sub & ->).
      destruct cols as [| c cols]; [contradiction |]. simpl.
      repeat match goal with
             | |- context [if ?c then _ else _] => destruct c
             end; simpl; try discriminate;
        destruct cols; discriminate. }
    apply Hgen. discriminate. }
  rewrite Hcols. reflexivity.
Qed.

(** X21.  [generate_order_items], given that [random.choice] and
    [random.randint] pick within their bounds and that every selected
    product has a row with a category in the products table, returns
    a frame with one row per selected product, in the order of the
    baskets: the row carries the order id of its basket, a quantity
    between 1 and the household size plus 2, and the selected product
    itself unless it is marked as substituted; a substituted row carries
    one of the product's substitutes, or the product itself when the
    substitution map has none for it. *)
Theorem order_items_follow_the_baskets {W : Generator.World}
        (products : list Generator.dict) (substitutions : Generator.id_map)
        (baskets : list Generator.basket) :
  choice_in_range W ->
  Forall (fun b => Forall (is_listed products) (Generator.selected_products b)) baskets ->
  selections baskets <> [] ->
  always (Generator.generate_order_items products substitutions baskets)
         (fun frame =>
            exists items,
              Forall2 (item_for substitutions) (selections baskets) items
              /\ columns frame = order_item_columns
              /\ rows frame = map row_of_item items).
Proof.
  intros Hlaw Hlisted Hsome. unfold Generator.generate_order_items.
  eapply always_bind; [apply items_of_orders_spec; eassumption |].
  intros items Hitems. apply always_ret. exists items.
  split; [exact Hitems |].
  rewrite frame_of_order_items.
  - split; reflexivity.
  - clear - Hitems. induction Hitems; constructor;
      [eapply item_for_is_order_item; eassumption | assumption].
  - intros ->. inversion Hitems as [Hnil |]. apply Hsome. symmetry. exact Hnil.
Qed.

Lemma sample_world_choice_in_range : choice_in_range Sample.sample_world.
Proof.
  intros n s Hn. simpl.
  replace (Nat.max n 1) with n by lia.
  pose proof (Z.mod_pos_bound (lcg_next (fst s)) (Z.of_nat n)) as Hbound.
  lia.
Qed.

Lemma order_items_follow_the_baskets_witness :
  let products := fst (Generator.generate_fallback_batch (W := Sample.sample_world)
                                                         "Produce" 3 1 (0, 0%nat)) in
  let baskets := [{| Generator.basket_order_id := 1;
                     Generator.basket_household_size := 4;
                     Generator.selected_products := [1; 3] |}] in
  always (W := Sample.sample_world)
         (Generator.generate_order_items products [(1, [2])] baskets)
         (fun frame =>
            exists items,
              Forall2 (item_for [(1, [2])]) (selections baskets) items
              /\ columns frame = order_item_columns
              /\ rows frame = map row_of_item items).
Proof.
  intros products baskets.
  apply (order_items_follow_the_baskets (W := Sample.sample_world)
           products [(1, [2])] baskets).
  - exact sample_world_choice_in_range.
  - repeat constructor; eexists _, _; split; vm_compute; reflexivity.
  - discriminate.
Defined.

(** ** A similar product *)

Lemma always_weaken {W : Generator.World} {A : Type} (m : Generator.gen A)
      (P Q : A -> Prop) :
  always m P -> (forall a, P a -> Q a) -> always m Q.
Proof.
  intros Hm HPQ s. destruct (Hm s) as (a & s' & Hrun & Ha).
  exists a, s'. split; [exact Hrun | apply HPQ; exact Ha].
Qed.

Lemma always_and_whenever {W : Generator.World} {A : Type} (m : Generator.gen A)
      (P Q : A -> Prop) :
  always m P -> whenever m Q -> always m (fun a => P a /\ Q a).
Proof.
  intros Hm Hw s. destruct (Hm s) as (a & s' & Hrun & Ha).
  exists a, s'. split; [exact Hrun |]. split; [exact Ha | exact (Hw s a s' Hrun)].
Qed.

Lemma always_choice {W : Generator.World} {A : Type} (default : A) (seq : list A) :
  always (Generator.choice default seq) (fun _ => True).
Proof.
  unfold Generator.choice. apply always_draw. intros s. exact I.
Qed.

Lemma vary_brand_total {W : Generator.World} (d : Generator.dict) (brand : string) :
  Generator.lookup "brand" d = Some (JStr brand) ->
  always (Generator.vary_brand d) (fun _ => True).
Proof.
  intros Hbrand. unfold Generator.vary_brand.
  eapply always_bind.
  { apply (always_pure _ (JStr brand) (fun v => v = JStr brand)); [| reflexivity].
    unfold Generator.item. rewrite Hbrand. reflexivity. }
  intros ? ->.
  destruct (Generator.brand_variants brand);
    (eapply always_bind; [apply always_choice |]); intros b _;
    apply always_ret; exact I.
Qed.

Lemma vary_size_total {W : Generator.World} (d : Generator.dict) (size : string)
      (unit : json) :
  Generator.lookup "size" d = Some (JStr size) ->
  size_is_readable size ->
  Generator.lookup "unit" d = Some unit ->
  always (Generator.vary_size d) (fun _ => True).
Proof.
  intros Hsize Hreadable Hunit. unfold Generator.vary_size.
  eapply always_bind.
  { apply (always_pure _ (JStr size) (fun v => v = JStr size)); [| reflexivity].
    unfold Generator.item. rewrite Hsize. reflexivity. }
  intros ? ->.
  eapply always_bind.
  { apply (always_pure _ unit (fun _ => True)); [| exact I].
    unfold Generator.item. rewrite Hunit. reflexivity. }
  intros ? _.
  eapply always_bind.
  { apply (always_pure _ size (fun t => t = size)); reflexivity. }
  intros ? ->.
  unfold size_is_readable in Hreadable.
  destruct (Generator.words size) as [| first others]; [apply always_ret; exact I |].
  destruct (Generator.isdigit (Generator.without_dots first));
    [| apply always_ret; exact I].
  destruct (Hreadable eq_refl) as (amount & Hamount).
  eapply always_bind.
  { apply (always_pure _ amount (fun _ => True)); [exact Hamount | exact I]. }
  intros ? _.
  apply always_bind with (P := fun _ => True).
  { unfold Generator.random_uniform. apply always_draw. intros s. exact I. }
  intros factor _.
  destruct (Qltb 0.1 _); apply always_ret; exact I.
Qed.

Lemma at_least_099_floor (x : pyfloat) :
  exists y, Generator.at_least_099 x = Fin y /\ (0.99 <= y)%Q.
Proof.
  destruct x as [q |]; simpl.
  - unfold Qltb. destruct (Qle_bool q 0.99) eqn:Hle; simpl.
    + exists 0.99%Q. split; [reflexivity | apply Qle_refl].
    + exists q. split; [reflexivity |].
      apply Qlt_le_weak, Qnot_le_lt. intros H. apply Qle_bool_iff in H. congruence.
  - exists 0.99%Q. split; [reflexivity | apply Qle_refl].
Qed.

Lemma vary_price_total {W : Generator.World} (d : Generator.dict) (price : json)
      (x : pyfloat) :
  Generator.lookup "price_per_unit" d = Some price ->
  Generator.number price = Ok x ->
  always (Generator.vary_price d)
         (fun d' => exists y, Generator.lookup "price_per_unit" d' = Some (JFloat (Fin y))
                              /\ (0.99 <= y)%Q).
Proof.
  intros Hprice Hnumber. unfold Generator.vary_price.
  eapply always_bind.
  { apply (always_pure _ price (fun v => v = price)); [| reflexivity].
    unfold Generator.item. rewrite Hprice. reflexivity. }
  intros ? ->.
  apply always_bind with (P := fun _ => True).
  { unfold Generator.random_uniform. apply always_draw. intros s. exact I. }
  intros variation _.
  eapply always_bind.
  { apply (always_pure _ x (fun v => v = x)); [exact Hnumber | reflexivity]. }
  intros ? ->. apply always_ret.
  rewrite lookup_store_same.
  match goal with
  | |- context [Generator.at_least_099 ?p] =>
      destruct (at_least_099_floor p) as (y & -> & Hy)
  end.
  exists y. split; [reflexivity | exact Hy].
Qed.

Lemma vary_name_total {W : Generator.World} (d : Generator.dict) (name : string) :
  Generator.lookup "product_name" d = Some (JStr name) ->
  always (Generator.vary_name d) (fun _ => True).
Proof.
  intros Hname. unfold Generator.vary_name.
  eapply always_bind.
  { apply (always_pure _ (JStr name) (fun v => v = JStr name)); [| reflexivity].
    unfold Generator.item. rewrite Hname. reflexivity. }
  intros ? ->.
  eapply always_bind; [apply always_choice |]. intros modifier _.
  eapply always_bind.
  { apply (always_pure _ name (fun t => t = name)); reflexivity. }
  intros ? ->.
  destruct (contains _ _); apply always_ret; exact I.
Qed.

Lemma with_chance_total {W : Generator.World} (p : Q)
      (change : Generator.dict -> Generator.gen Generator.dict)
      (d : Generator.dict) (P : Generator.dict -> Prop) :
  always (change d) P -> P d -> always (Generator.with_chance p change d) P.
Proof.
  intros Hchange Hd. unfold Generator.with_chance.
  eapply always_bind; [apply always_random |]. intros u _.
  destruct (Qltb u p); [exact Hchange | apply always_ret; exact Hd].
Qed.

Lemma lookup_of_variant (keys : list string) (d d' : Generator.dict) (key : string) :
  variant_of keys d d' -> ~ In key keys ->
  Generator.lookup key d' = Generator.lookup key d.
Proof.
  intros [Hagree _] Hkey. apply Hagree. exact Hkey.
Qed.

Lemma create_similar_product_spec {W : Generator.World}
      (base_product : Generator.dict) (new_id : Z) :
  can_be_varied base_product ->
  always (Generator.create_similar_product base_product new_id)
         (fun d => Generator.lookup "product_id" d = Some (JInt new_id)
                   /\ variant_of ("product_id" :: varied_keys) base_product d
                   /\ price_kept_or_floored base_product d).
Proof.
  intros ((brand & Hbrand) & (size & Hsize & Hreadable) & (unit & Hunit)
          & (price & x & Hprice & Hnumber) & (name & Hname)).
  assert (Hgoal :
            always (Generator.create_similar_product base_product new_id)
                   (price_kept_or_floored base_product)).
  { unfold Generator.create_similar_product.
    set (d0 := Generator.store "product_id" (JInt new_id) base_product).
    assert (H0 : variant_of ["product_id"] base_product d0)
      by apply variant_of_store.
    apply always_bind with (P := variant_of ["brand"] d0).
    { eapply always_weaken.
      - apply always_and_whenever;
          [| apply with_chance_keeps, vary_brand_keeps].
        apply with_chance_total with (P := fun _ => True); [| exact I].
        apply (vary_brand_total d0 brand).
        rewrite (lookup_of_variant _ _ _ "brand" H0); [exact Hbrand |].
        simpl. intuition discriminate.
      - intros d [_ H]. exact H. }
    intros d1 H1.
    pose proof (variant_of_trans _ _ _ _ _ H0 H1) as H01. simpl in H01.
    apply always_bind with (P := variant_of ["size"] d1).
    { eapply always_weaken.
      - apply always_and_whenever;
          [| apply with_chance_keeps, vary_size_keeps].
        apply with_chance_total with (P := fun _ => True); [| exact I].
        apply (vary_size_total d1 size unit); [| exact Hreadable |].
        + rewrite (lookup_of_variant _ _ _ "size" H01); [exact Hsize |].
          simpl. intuition discriminate.
        + rewrite (lookup_of_variant _ _ _ "unit" H01); [exact Hunit |].
          simpl. intuition discriminate.
      - intros d [_ H]. exact H. }
    intros d2 H2.
    pose proof (variant_of_trans _ _ _ _ _ H01 H2) as H02. simpl in H02.
    assert (Hprice2 : Generator.lookup "price_per_unit" d2 = Some price).
    { rewrite (lookup_of_variant _ _ _ "price_per_unit" H02); [exact Hprice |].
      simpl. intuition discriminate. }
    apply always_bind
      with (P := fun d3 => variant_of ["price_per_unit"] d2 d3
                           /\ price_kept_or_floored base_product d3).
    { eapply always_weaken.
      - apply always_and_whenever;
          [| apply with_chance_keeps, vary_price_keeps].
        apply with_chance_total
          with (P := price_kept_or_floored base_product).
        + eapply always_weaken; [apply (vary_price_total d2 price x); assumption |].
          intros d Hd. right. exact Hd.
        + left. rewrite Hprice2, Hprice. reflexivity.
      - intros d [Hp Hv]. split; assumption. }
    intros d3 [H3 Hfloor].
    pose proof (variant_of_trans _ _ _ _ _ H02 H3) as H03. simpl in H03.
    eapply always_weaken.
    - apply always_and_whenever;
        [| apply with_chance_keeps, vary_name_keeps].
      apply with_chance_total with (P := fun _ => True); [| exact I].
      apply (vary_name_total d3 name).
      rewrite (lookup_of_variant _ _ _ "product_name" H03); [exact Hname |].
      simpl. intuition discriminate.
    - intros d4 [_ H4]. unfold price_kept_or_floored in *.
      rewrite (lookup_of_variant _ _ _ "price_per_unit" H4);
        [exact Hfloor | simpl; intuition discriminate]. }
  eapply always_weaken.
  - apply always_and_whenever; [exact Hgoal | apply create_similar_product_keeps].
  - intros d (Hfloor & Hid & Hvariant).
    split; [exact Hid | split; [exact Hvariant | exact Hfloor]].
Qed.

(** X18.  [create_similar_product] returns for every base product
    that has text for its brand, size and name, a readable amount at
    the head of the size, a unit and a number for its price.  The
    similar product has the new id and every key of the base product;
    outside the id, brand, size, price and name it has the values of
    the base product, so in particular its category and unit; and its
    price is either the one of the base product or a new one of at
    least 0.99. *)
Theorem similar_product_is_a_variant {W : Generator.World}
        (base_product : Generator.dict) (new_id : Z) :
  can_be_varied base_product ->
  always (Generator.create_similar_product base_product new_id)
         (fun d => Generator.lookup "product_id" d = Some (JInt new_id)
                   /\ variant_of ("product_id" :: varied_keys) base_product d
                   /\ price_kept_or_floored base_product d).
Proof.
  apply create_similar_product_spec.
Qed.

Lemma similar_product_is_a_variant_witness :
  let base := [("product_id", JInt 1); ("product_name", JStr "Organic Valley Carrots");
               ("category", JStr "Produce"); ("brand", JStr "Organic Valley");
               ("size", JStr "5 lbs"); ("unit", JStr "lb");
               ("price_per_unit", JFloat (Fin 4.37))] in
  always (W := Sample.sample_world)
         (Generator.create_similar_product base 4)
         (fun d => Generator.lookup "product_id" d = Some (JInt 4)
                   /\ variant_of ("product_id" :: varied_keys) base d
                   /\ price_kept_or_floored base d).
Proof.
  intros base.
  apply (similar_product_is_a_variant (W := Sample.sample_world) base 4).
  repeat split.
  - eexists. reflexivity.
  - eexists. split; [reflexivity |]. intros _. eexists. reflexivity.
  - eexists. reflexivity.
  - eexists _, _. split; reflexivity.
  - eexists. reflexivity.
Defined.

(** ** The fallback catalogue, users and orders *)

Lemma consecutive_ids_NoDup (count : nat) :
  forall start_id, NoDup (consecutive_ids start_id count).
Proof.
  induction count as [| count IH]; intros start_id.
  - constructor.
  - rewrite consecutive_ids_cons. constructor; [| apply IH].
    rewrite consecutive_ids_In. lia.
Qed.

Lemma fallback_catalogue_spec {W : Generator.World} (cats : list string) (n : nat) :
  forall (first : Z) (s : Generator.state),
    let products := fst (Tables.fallback_catalogue cats n first s) in
    Generator.product_ids products = consecutive_ids first (List.length cats * n)
    /\ Forall has_columns products
    /\ map (Generator.lookup "category") products
       = flat_map (fun c => repeat (Some (JStr c)) n) cats.
Proof.
  induction cats as [| category rest IH]; intros first s; simpl.
  - repeat split. constructor.
  - pose proof (fallback_products_spec category first n 0 s) as Hbatch.
    pose proof (fallback_products_columns category first n 0 s) as Hcols.
    unfold Generator.generate_fallback_batch.
    destruct (Generator.fallback_products category first 0 n s) as [batch s1].
    simpl in Hbatch, Hcols. destruct Hbatch as (_ & Hcats & Hids).
    specialize (IH (first + Z.of_nat n) s1).
    destruct (Tables.fallback_catalogue rest n (first + Z.of_nat n) s1) as [others s2].
    simpl in *. destruct IH as (Hids' & Hcols' & Hcats').
    split; [| split].
    + unfold Generator.product_ids in *.
      rewrite map_app, Hids, Hids', consecutive_ids_app. reflexivity.
    + apply Forall_app. split; assumption.
    + rewrite map_app, Hcats, Hcats'. reflexivity.
Qed.

(** X22.  [generate_fallback_products] numbers its products 1, 2, ...,
    8 n in order, without gaps or repetitions, [n] per category in the
    order of the eight categories, each product with all seven
    columns. *)
Theorem fallback_catalogue_is_numbered {W : Generator.World}
        (products_per_category : nat) (s : Generator.state) :
  let products := fst (Tables.generate_fallback_products products_per_category s) in
  Generator.product_ids products = consecutive_ids 1 (8 * products_per_category)
  /\ NoDup (Generator.product_ids products)
  /\ Forall has_columns products
  /\ map (Generator.lookup "category") products
     = flat_map (fun c => repeat (Some (JStr c)) products_per_category)
                Generator.categories.
Proof.
  unfold Tables.generate_fallback_products.
  destruct (fallback_catalogue_spec Generator.categories products_per_category 1 s)
    as (Hids & Hcols & Hcats).
  split; [exact Hids |]. split; [| split; assumption].
  rewrite Hids. apply consecutive_ids_NoDup.
Qed.

Lemma pick_is_member {W : Generator.World} (seq : list string) (s : Generator.state) :
  choice_in_range W -> seq <> [] -> In (fst (Generator.pick seq s)) seq.
Proof.
  intros Hlaw Hseq. unfold Generator.pick.
  specialize (Hlaw (List.length seq) s).
  destruct (Generator.random_choice_index (List.length seq) s) as [i s'].
  simpl in *. apply nth_In. apply Hlaw.
  destruct seq; [contradiction | simpl; lia].
Qed.

Lemma new_user_spec {W : Generator.World} (i : Z) (s : Generator.state) :
  choice_in_range W ->
  user_id (fst (Tables.new_user i s)) = i /\ plausible_user (fst (Tables.new_user i s)).
Proof.
  intros Hlaw. unfold Tables.new_user.
  pose proof (randint_in_range 1 5 s Hlaw) as Hsize.
  destruct (Generator.randint 1 5 s) as [size s1].
  pose proof (pick_is_member Tables.dietary_preferences s1 Hlaw) as Hpreference.
  destruct (Generator.pick Tables.dietary_preferences s1) as [preference s2].
  pose proof (pick_is_member Tables.shopping_days s2 Hlaw) as Hday.
  destruct (Generator.pick Tables.shopping_days s2) as [day s3].
  simpl in *. split; [reflexivity |].
  split; [apply Hsize; lia |].
  split; [apply Hpreference | apply Hday]; discriminate.
Qed.

Lemma users_from_spec {W : Generator.World} (count : nat) :
  choice_in_range W ->
  forall (i : Z) (s : Generator.state),
    let users := fst (Tables.users_from i count s) in
    map user_id users = numbered_from i count /\ Forall plausible_user users.
Proof.
  intros Hlaw. induction count as [| count IH]; intros i s; simpl.
  - split; [reflexivity | constructor].
  - pose proof (new_user_spec i s Hlaw) as Huser.
    destruct (Tables.new_user i s) as [user s1].
    specialize (IH (i + 1) s1).
    destruct (Tables.users_from (i + 1) count s1) as [users s2].
    simpl in *. destruct Huser as [Hid Hplausible]. destruct IH as [Hids Hall].
    split; [| constructor; assumption].
    unfold numbered_from in *. simpl. rewrite Hid, Hids, Z.add_0_r. f_equal.
    rewrite <- seq_shift, map_map. apply map_ext. intros k. lia.
Qed.

(** X23.  [generate_users], given that [random.choice] and
    [random.randint] pick within their bounds, returns 100 users with
    the ids 1 to 100 in order; each has a household size from 1 to 5,
    one of the four dietary preferences and one of the four shopping
    days. *)
Theorem users_are_numbered_and_plausible {W : Generator.World} (s : Generator.state) :
  choice_in_range W ->
  let users := fst (Tables.generate_users s) in
  map user_id users = numbered_from 1 100 /\ Forall plausible_user users.
Proof.
  intros Hlaw. apply users_from_spec. exact Hlaw.
Qed.

Lemma users_are_numbered_and_plausible_witness :
  let users := fst (Tables.generate_users (W := Sample.sample_world) (0, 0%nat)) in
  map user_id users = numbered_from 1 100 /\ Forall plausible_user users.
Proof.
  apply (users_are_numbered_and_plausible (W := Sample.sample_world) (0, 0%nat)).
  exact sample_world_choice_in_range.
Defined.

Lemma numbered_from_In (first : Z) (count : nat) (n : Z) :
  In n (numbered_from first count) <-> first <= n < first + Z.of_nat count.
Proof.
  unfold numbered_from. rewrite in_map_iff. split.
  - intros (i & <- & Hi). apply in_seq in Hi. lia.
  - intros Hn. exists (Z.to_nat (n - first)). split; [lia | apply in_seq; lia].
Qed.

Lemma user_row_found (users : list User) (uid : Z) :
  In uid (map user_id users) ->
  exists user, Tables.user_row users uid = Ok user /\ In user users.
Proof.
  induction users as [| u rest IH]; simpl; [contradiction |].
  intros Hin. destruct (user_id u =? uid) eqn:Hu.
  - exists u. split; [reflexivity | left; reflexivity].
  - destruct Hin as [Heq | Hin]; [apply Z.eqb_neq in Hu; contradiction |].
    destruct (IH Hin) as (user & Hrow & Huser).
    exists user. split; [exact Hrow | right; exact Huser].
Qed.

Lemma day_mapping_of_shopping_day (day : string) :
  In day Tables.shopping_days ->
  exists preferred, Tables.day_mapping day = Ok preferred /\ 0 <= preferred <= 6.
Proof.
  intros H. simpl in H.
  destruct H as [<- | [<- | [<- | [<- | []]]]]; eexists; (split; [reflexivity | lia]).
Qed.

Lemma next_preferred_weekday (preferred : Z) (random_date : datetime) :
  0 <= preferred <= 6 ->
  let days_ahead := (preferred - Tables.weekday random_date) mod 7 in
  0 <= days_ahead <= 6
  /\ Tables.weekday (plus_days random_date days_ahead) = preferred.
Proof.
  intros Hp days_ahead. subst days_ahead. unfold Tables.weekday, plus_days. simpl.
  split; [pose proof (Z.mod_pos_bound (preferred - (dt_day random_date + 6) mod 7) 7);
          lia |].
  replace (dt_day random_date + (preferred - (dt_day random_date + 6) mod 7) mod 7 + 6)
    with ((dt_day random_date + 6)
          + (preferred - (dt_day random_date + 6) mod 7) mod 7) by lia.
  rewrite Zplus_mod_idemp_r.
  pose proof (Z.div_mod (dt_day random_date + 6) 7) as Hdiv.
  replace (dt_day random_date + 6 + (preferred - (dt_day random_date + 6) mod 7))
    with (preferred + (dt_day random_date + 6) / 7 * 7) by lia.
  rewrite Z.mod_add by lia. apply Z.mod_small. lia.
Qed.

Lemma target_date_spec {W : Generator.World} (now : datetime)
      (date_time_between : datetime -> datetime -> Generator.state
                           -> datetime * Generator.state)
      (preferred : Z) :
  0 <= preferred <= 6 ->
  always (Tables.target_date now date_time_between preferred)
         (timestamp_ok now date_time_between preferred).
Proof.
  intros Hp. unfold Tables.target_date.
  eapply always_bind; [apply always_random |]. intros u _.
  assert (Hdrawn :
            always (Generator.draw (date_time_between (Tables.start_date now)
                                                      (Tables.end_date now)))
                   (fun r => exists s,
                        r = fst (date_time_between (Tables.start_date now)
                                                   (Tables.end_date now) s))).
  { apply always_draw. intros s. exists s. reflexivity. }
  destruct (Qltb u 0.7).
  - eapply always_bind; [exact Hdrawn |]. intros random_date (s & ->).
    destruct (next_preferred_weekday
                preferred
                (fst (date_time_between (Tables.start_date now) (Tables.end_date now) s))
                Hp) as [Hrange Hweekday].
    destruct (_ mod 7 =? 0) eqn:Hzero; apply always_ret; exists s; simpl.
    + left. reflexivity.
    + right. apply Z.eqb_neq in Hzero. split; [exact Hweekday |].
      eexists. split; [| reflexivity]. lia.
  - eapply always_weaken; [exact Hdrawn |]. intros r (s & ->).
    exists s. left. reflexivity.
Qed.

Lemma new_order_spec {W : Generator.World} (now : datetime)
      (date_time_between : datetime -> datetime -> Generator.state
                           -> datetime * Generator.state)
      (users : list User) (oid : Z) :
  choice_in_range W ->
  map user_id users = numbered_from 1 100 ->
  Forall plausible_user users ->
  always (Tables.new_order now date_time_between users oid)
         (fun o => Tables.order_id o = oid /\ order_ok now date_time_between users o).
Proof.
  intros Hlaw Hids Hplausible. unfold Tables.new_order.
  apply always_bind with (P := fun uid => 1 <= uid <= 100).
  { apply always_draw. intros s. apply randint_in_range; [exact Hlaw | lia]. }
  intros uid Huid.
  destruct (user_row_found users uid) as (user & Hrow & Huser).
  { rewrite Hids. apply numbered_from_In. lia. }
  eapply always_bind; [apply (always_pure _ user (fun u => u = user) Hrow eq_refl) |].
  intros ? ->.
  rewrite Forall_forall in Hplausible.
  destruct (Hplausible user Huser) as (_ & _ & Hday).
  destruct (day_mapping_of_shopping_day _ Hday) as (preferred & Hpreferred & Hrange).
  eapply always_bind;
    [apply (always_pure _ preferred (fun p => p = preferred) Hpreferred eq_refl) |].
  intros ? ->.
  eapply always_bind; [apply target_date_spec; exact Hrange |].
  intros date Hdate.
  eapply always_bind;
    [apply (choice_is_member "" Tables.delivery_methods Hlaw); discriminate |].
  intros method Hmethod.
  eapply always_bind;
    [apply (choice_is_member "" Tables.time_windows Hlaw); discriminate |].
  intros window Hwindow.
  apply always_ret. split; [reflexivity |].
  exists user, preferred. simpl. repeat split; assumption.
Qed.

Lemma orders_from_spec {W : Generator.World} (now : datetime)
      (date_time_between : datetime -> datetime -> Generator.state
                           -> datetime * Generator.state)
      (users : list User) (count : nat) :
  choice_in_range W ->
  map user_id users = numbered_from 1 100 ->
  Forall plausible_user users ->
  forall oid,
    always (Tables.orders_from now date_time_between users oid count)
           (fun orders =>
              map Tables.order_id orders = numbered_from oid count
              /\ Forall (order_ok now date_time_between users) orders).
Proof.
  intros Hlaw Hids Hplausible.
  induction count as [| count IH]; intros oid; simpl.
  - apply always_ret. split; [reflexivity | constructor].
  - eapply always_bind; [apply new_order_spec; eassumption |].
    intros order [Hid Hok].
    eapply always_bind; [apply IH |].
    intros orders [Hrest Hall]. apply always_ret.
    split; [| constructor; assumption].
    unfold numbered_from in *. simpl. rewrite Hid, Hrest, Z.add_0_r. f_equal.
    rewrite <- seq_shift, map_map. apply map_ext. intros k. lia.
Qed.

(** X24.  [generate_orders] on the users [generate_users] made, given
    that [random.choice] and [random.randint] pick within their bounds:
    it never raises and returns 2000 orders with the ids 1 to 2000 in
    order.  Every order refers to one of the users, has one of the two
    delivery methods and one of the four time windows, and is dated
    either at a date drawn between the start and the end date or on the
    first later day that is the user's shopping day, which can be up to
    six days after the drawn date. *)
Theorem orders_refer_to_the_users {W : Generator.World} (now : datetime)
        (date_time_between : datetime -> datetime -> Generator.state
                             -> datetime * Generator.state)
        (s0 : Generator.state) :
  choice_in_range W ->
  let users := fst (Tables.generate_users s0) in
  always (Tables.generate_orders now date_time_between users)
         (fun orders =>
            map Tables.order_id orders = numbered_from 1 2000
            /\ Forall (order_ok now date_time_between users) orders).
Proof.
  intros Hlaw users.
  destruct (users_from_spec 100 Hlaw 1 s0) as [Hids Hplausible].
  apply orders_from_spec; assumption.
Qed.

Lemma orders_refer_to_the_users_witness :
  let between : datetime -> datetime -> @Generator.state Sample.sample_world
                -> datetime * @Generator.state Sample.sample_world :=
    fun first last s =>
      (plus_days first (lcg_next (fst s) mod 731), (lcg_next (fst s), snd s)) in
  let users := fst (Tables.generate_users (W := Sample.sample_world) (0, 0%nat)) in
  always (W := Sample.sample_world)
         (Tables.generate_orders (W := Sample.sample_world) Sample.noon between users)
         (fun orders =>
            map Tables.order_id orders = numbered_from 1 2000
            /\ Forall (order_ok (W := Sample.sample_world) Sample.noon between users)
                      orders).
Proof.
  intros between.
  apply (orders_refer_to_the_users (W := Sample.sample_world) Sample.noon between
                                   (0, 0%nat)).
  exact sample_world_choice_in_range.
Defined.

(** ** The catalogue when the API is down *)

Lemma product_ids_append (products extra : list Generator.dict) :
  Generator.product_ids products = consecutive_ids 1 (List.length products) ->
  Generator.product_ids extra
  = consecutive_ids (1 + Z.of_nat (List.length products)) (List.length extra) ->
  Generator.product_ids (products ++ extra)
  = consecutive_ids 1 (List.length (products ++ extra)).
Proof.
  intros H1 H2. unfold Generator.product_ids in *.
  rewrite map_app, length_app, consecutive_ids_app, H1, H2. reflexivity.
Qed.

Lemma base_batch_when_api_down {W : Generator.World} (category : string) (n : nat)
      (start_id : Z) (s : Generator.state) :
  api_down W ->
  let products := fst (Generator.generate_base_products_batch category n start_id s) in
  List.length products = n
  /\ Generator.product_ids products = consecutive_ids start_id n.
Proof.
  intros Hdown. unfold Generator.generate_base_products_batch.
  destruct (Hdown category n s) as (e & s' & ->). simpl.
  unfold Generator.generate_fallback_batch.
  destruct (fallback_products_spec category start_id n 0 s') as (Hlen & _ & Hids).
  split; [exact Hlen | exact Hids].
Qed.

Lemma batch_step_numbered {W : Generator.World} (category : string)
      (products_per_category batch_size : nat) (similar_batch_pct similar_subset_pct : Q)
      (finished : list Generator.dict) (p p' : Generator.progress)
      (s s' : Generator.state) :
  api_down W ->
  Generator.batch_step category products_per_category batch_size
                       similar_batch_pct similar_subset_pct p s = (Some p', s') ->
  numbered finished p ->
  numbered finished p'
  /\ (List.length (Generator.category_products p)
      + Nat.min batch_size
                (products_per_category - List.length (Generator.category_products p))
      <= List.length (Generator.category_products p'))%nat.
Proof.
  intros Hdown Hstep [Hids Hcounter]. unfold Generator.batch_step in Hstep.
  destruct (Nat.min batch_size _) as [| size'] eqn:Hsize; [discriminate Hstep |].
  pose proof (base_batch_when_api_down category (S size')
                                       (Generator.product_id_counter p) s Hdown) as Hbase.
  destruct (Generator.generate_base_products_batch category (S size')
                                                   (Generator.product_id_counter p) s)
    as [base_products s1].
  simpl in Hbase. destruct Hbase as [Hlen Hbase_ids].
  destruct base_products as [| first others] eqn:Hlist; [discriminate Hlen |].
  rewrite <- Hlist in *. clear Hlist first others.
  assert (Hids1 :
            Generator.product_ids ((finished ++ Generator.category_products p)
                                   ++ base_products)
            = consecutive_ids 1 (List.length ((finished ++ Generator.category_products p)
                                              ++ base_products))).
  { apply product_ids_append; [exact Hids |].
    rewrite Hbase_ids, Hlen, Hcounter. reflexivity. }
  simpl in Hstep.
  match type of Hstep with
  | context [Generator.generate_similar_products ?b ?i ?x ?y ?st] =>
      pose proof (generate_similar_products_spec b i x y st) as Hsimilar;
      destruct (Generator.generate_similar_products b i x y st)
        as [[[similar new_map] | e] s2]
  end.
  - specialize (Hsimilar _ _ eq_refl). destruct Hsimilar as (Hsim_ids & _).
    simpl in Hsim_ids.
    destruct similar as [| d0 similar'] eqn:Hsim.
    { inversion Hstep; subst. clear Hstep. unfold numbered.
      cbn [Generator.category_products Generator.product_id_counter].
      rewrite app_assoc. split; [split; [exact Hids1 |] |].
      - rewrite !length_app in *. lia.
      - rewrite length_app. lia. }
    rewrite <- Hsim in *. clear Hsim d0 similar'.
    inversion Hstep; subst. clear Hstep. unfold numbered.
      cbn [Generator.category_products Generator.product_id_counter].
    rewrite !app_assoc. split; [split |].
    + apply product_ids_append; [exact Hids1 |].
      rewrite Hsim_ids. f_equal. rewrite !length_app in *. lia.
    + rewrite !length_app in *. lia.
    + rewrite <- !app_assoc, !length_app. lia.
  - match type of Hstep with
    | context [Generator.generate_fallback_batch ?c ?n ?i ?st] =>
        pose proof (fallback_products_spec c i n 0 st) as Hfallback;
        unfold Generator.generate_fallback_batch in Hstep;
        destruct (Generator.fallback_products c i 0 n st) as [fallback s3]
    end.
    cbn [fst] in Hfallback. destruct Hfallback as (Hflen & _ & Hfids).
    inversion Hstep; subst. clear Hstep. unfold numbered.
      cbn [Generator.category_products Generator.product_id_counter].
    rewrite !app_assoc. split; [split |].
    + apply product_ids_append; [exact Hids1 |].
      rewrite Hfids, Hflen. unfold consecutive_ids.
      apply map_ext. intros k. do 2 f_equal. rewrite !length_app in *. lia.
    + rewrite !length_app in *. lia.
    + rewrite <- !app_assoc, !length_app. lia.
Qed.

Lemma batches_numbered {W : Generator.World} (category : string)
      (products_per_category batch_size : nat) (similar_batch_pct similar_subset_pct : Q)
      (finished : list Generator.dict) (turns : nat) :
  api_down W ->
  (0 < batch_size)%nat ->
  forall (p : Generator.progress) (s : Generator.state),
    numbered finished p ->
    let p' := fst (Generator.batches category products_per_category batch_size
                                     similar_batch_pct similar_subset_pct turns p s) in
    numbered finished p'
    /\ (Nat.min products_per_category
                (List.length (Generator.category_products p) + turns * batch_size)
        <= List.length (Generator.category_products p'))%nat.
Proof.
  intros Hdown Hsize. induction turns as [| turns IH]; intros p s Hp; simpl.
  - split; [exact Hp | lia].
  - destruct (Generator.batch_step category products_per_category batch_size
                                   similar_batch_pct similar_subset_pct p s)
      as [[p1 |] s1] eqn:Hstep.
    + destruct (batch_step_numbered _ _ _ _ _ _ _ _ _ _ Hdown Hstep Hp) as [Hp1 Hgrow].
      destruct (IH p1 s1 Hp1) as [Hfinal Hlen]. split; [exact Hfinal |]. lia.
    + split; [exact Hp |].
      unfold Generator.batch_step in Hstep.
      destruct (Nat.min batch_size _) as [| size'] eqn:Hmin.
      * cbn [fst]. lia.
      * destruct (Generator.generate_base_products_batch _ _ _ _) as [base s2].
        destruct base; [discriminate Hstep |].
        destruct (Generator.generate_similar_products _ _ _ _ _) as [[[sim m] | e] s3].
        -- destruct sim; discriminate Hstep.
        -- destruct (Generator.generate_fallback_batch _ _ _ _). discriminate Hstep.
Qed.

Lemma range_length_covers (n step : nat) :
  (0 < step)%nat -> (n <= Generator.range_length n step * step)%nat.
Proof.
  intros Hstep. unfold Generator.range_length.
  pose proof (Nat.div_mod_eq (n + step - 1) step) as Hdiv.
  pose proof (Nat.mod_upper_bound (n + step - 1) step) as Hmod.
  nia.
Qed.

Lemma batch_step_category {W : Generator.World} (category : string)
      (products_per_category batch_size : nat) (similar_batch_pct similar_subset_pct : Q)
      (p p' : Generator.progress) (s s' : Generator.state) :
  Generator.batch_step category products_per_category batch_size
                       similar_batch_pct similar_subset_pct p s = (Some p', s') ->
  Forall (fun d => Generator.lookup "category" d = Some (JStr category))
         (Generator.category_products p) ->
  Forall (fun d => Generator.lookup "category" d = Some (JStr category))
         (Generator.category_products p').
Proof.
  intros Hstep Hall. unfold Generator.batch_step in Hstep.
  destruct (Nat.min batch_size _) as [| size'] eqn:Hsize; [discriminate Hstep |].
  pose proof (base_products_batch_spec category (S size')
                                       (Generator.product_id_counter p) s) as Hbase.
  destruct (Generator.generate_base_products_batch category (S size')
                                                   (Generator.product_id_counter p) s)
    as [base_products s1].
  cbn [fst] in Hbase. destruct Hbase as (_ & _ & Hcats & _).
  destruct base_products as [| first others] eqn:Hlist.
  { inversion Hstep; subst. exact Hall. }
  rewrite <- Hlist in *. clear Hlist first others.
  cbn [Generator.category_products Generator.product_id_counter
       Generator.substitution_map] in Hstep.
  match type of Hstep with
  | context [Generator.generate_similar_products ?b ?i ?x ?y ?st] =>
      pose proof (generate_similar_products_spec b i x y st) as Hsimilar;
      destruct (Generator.generate_similar_products b i x y st)
        as [[[similar new_map] | e] s2]
  end.
  - specialize (Hsimilar _ _ eq_refl). destruct Hsimilar as (_ & Hvariants & _).
    cbn [fst] in Hvariants.
    assert (Hsim : Forall (fun d => Generator.lookup "category" d = Some (JStr category))
                          similar).
    { eapply Forall_impl; [| exact Hvariants]. intros d (base & Hin & Hd).
      rewrite (category_of_variant base d Hd).
      rewrite Forall_forall in Hcats. apply Hcats. exact Hin. }
    destruct similar as [| d0 similar'] eqn:Hshape.
    + inversion Hstep; subst. cbn [Generator.category_products].
      apply Forall_app. split; assumption.
    + rewrite <- Hshape in *. inversion Hstep; subst.
      cbn [Generator.category_products].
      apply Forall_app. split; [apply Forall_app; split; assumption | exact Hsim].
  - match type of Hstep with
    | context [Generator.generate_fallback_batch ?c ?n ?i ?st] =>
        pose proof (fallback_products_spec c i n 0 st) as Hfallback;
        unfold Generator.generate_fallback_batch in Hstep;
        destruct (Generator.fallback_products c i 0 n st) as [fallback s3]
    end.
    cbn [fst] in Hfallback. destruct Hfallback as (_ & Hfcats & _).
    inversion Hstep; subst. cbn [Generator.category_products].
    apply Forall_app. split; [apply Forall_app; split; assumption |].
    apply Forall_forall. intros d Hd.
    apply (in_map (Generator.lookup "category")) in Hd. rewrite Hfcats in Hd.
    apply repeat_spec in Hd. exact Hd.
Qed.

Lemma batches_category {W : Generator.World} (category : string)
      (products_per_category batch_size : nat) (similar_batch_pct similar_subset_pct : Q)
      (turns : nat) :
  forall (p : Generator.progress) (s : Generator.state),
    Forall (fun d => Generator.lookup "category" d = Some (JStr category))
           (Generator.category_products p) ->
    Forall (fun d => Generator.lookup "category" d = Some (JStr category))
           (Generator.category_products
              (fst (Generator.batches category products_per_category batch_size
                                      similar_batch_pct similar_subset_pct turns p s))).
Proof.
  induction turns as [| turns IH]; intros p s Hall; simpl; [exact Hall |].
  destruct (Generator.batch_step category products_per_category batch_size
                                 similar_batch_pct similar_subset_pct p s)
    as [[p1 |] s1] eqn:Hstep; [| exact Hall].
  apply IH. apply (batch_step_category _ _ _ _ _ _ _ _ _ Hstep Hall).
Qed.

Lemma count_in_category_app (c : string) (products extra : list Generator.dict) :
  count_in_category c (products ++ extra)
  = (count_in_category c products + count_in_category c extra)%nat.
Proof.
  unfold count_in_category. rewrite filter_app, length_app. reflexivity.
Qed.

Lemma count_in_category_all (c : string) (products : list Generator.dict) :
  Forall (fun d => Generator.lookup "category" d = Some (JStr c)) products ->
  count_in_category c products = List.length products.
Proof.
  unfold count_in_category. induction 1 as [| d rest Hd _ IH]; [reflexivity |].
  simpl. unfold has_category at 1. rewrite Hd, String.eqb_refl. simpl.
  f_equal. exact IH.
Qed.

Lemma all_categories_numbered {W : Generator.World}
      (products_per_category batch_size : nat) (similar_batch_pct similar_subset_pct : Q)
      (cats : list string) :
  api_down W ->
  (0 < batch_size)%nat ->
  forall (all_products : list Generator.dict) (substitutions : Generator.id_map)
         (counter : Z) (s : Generator.state),
    Generator.product_ids all_products
    = consecutive_ids 1 (List.length all_products) ->
    counter = 1 + Z.of_nat (List.length all_products) ->
    let products :=
      fst (fst (Generator.all_categories cats products_per_category batch_size
                                         similar_batch_pct similar_subset_pct
                                         all_products substitutions counter s)) in
    Generator.product_ids products = consecutive_ids 1 (List.length products)
    /\ (forall c, (count_in_category c all_products
                   <= count_in_category c products)%nat)
    /\ (forall c, In c cats ->
                  (products_per_category <= count_in_category c products)%nat).
Proof.
  intros Hdown Hsize.
  induction cats as [| category rest IH];
    intros all_products substitutions counter s Hids Hcounter; simpl.
  - split; [exact Hids |]. split; [intros c; apply Nat.le_refl | intros c []].
  - match goal with
    | |- context [Generator.batches ?c ?n ?b ?x ?y ?t ?p ?st] =>
        pose proof (batches_numbered c n b x y all_products t Hdown Hsize p st)
          as Hbatches;
        pose proof (batches_category c n b x y t p st) as Hcategory;
        destruct (Generator.batches c n b x y t p st) as [p' s']
    end.
    cbn [fst Generator.category_products List.length Nat.add] in Hbatches, Hcategory.
    destruct Hbatches as [[Hids' Hcounter'] Hlen].
    { unfold numbered. cbn [Generator.category_products Generator.product_id_counter].
      rewrite app_nil_r. split; assumption. }
    specialize (Hcategory (Forall_nil _)).
    specialize (IH (all_products ++ Generator.category_products p')
                   (Generator.substitution_map p') (Generator.product_id_counter p') s'
                   Hids' Hcounter').
    cbn zeta in IH. destruct IH as (Hfinal & Hgrow & Hcount).
    pose proof (range_length_covers products_per_category batch_size Hsize) as Hturns.
    split; [exact Hfinal |]. split.
    + intros c. specialize (Hgrow c). rewrite count_in_category_app in Hgrow. lia.
    + intros c [<- | Hc]; [| apply Hcount; exact Hc].
      specialize (Hgrow category).
      rewrite count_in_category_app, (count_in_category_all _ _ Hcategory) in Hgrow.
      lia.
Qed.

(** X25.  When the completion API refuses every call, the catalogue of
    [generate_products_via_api] carries the ids 1, 2, 3, ... in order,
    so no two products share an id, and each of the eight categories
    has at least [products_per_category] products in it: the similar
    products come on top of the requested number. *)
Theorem catalogue_without_the_api {W : Generator.World}
        (products_per_category batch_size : nat)
        (similar_batch_pct similar_subset_pct : Q) (s : Generator.state) :
  api_down W ->
  (0 < batch_size)%nat ->
  let products := fst (fst (Generator.generate_products_via_api
                              products_per_category batch_size
                              similar_batch_pct similar_subset_pct s)) in
  Generator.product_ids products = consecutive_ids 1 (List.length products)
  /\ NoDup (Generator.product_ids products)
  /\ (forall c, In c Generator.categories ->
                (products_per_category <= count_in_category c products)%nat).
Proof.
  intros Hdown Hsize products. subst products.
  unfold Generator.generate_products_via_api.
  destruct (all_categories_numbered products_per_category batch_size
                                    similar_batch_pct similar_subset_pct
                                    Generator.categories Hdown Hsize [] [] 1 s
                                    eq_refl eq_refl) as (Hids & _ & Hcount).
  split; [exact Hids |]. split; [| exact Hcount].
  rewrite Hids. apply consecutive_ids_NoDup.
Qed.

Lemma silent_world_is_down : api_down Sample.silent_world.
Proof.
  intros category n s. eexists _, _. reflexivity.
Qed.

Lemma catalogue_without_the_api_witness :
  let products := fst (fst (Generator.generate_products_via_api
                              (W := Sample.silent_world) 50 30 0.6 0.4 (0, 0%nat))) in
  Generator.product_ids products = consecutive_ids 1 (List.length products)
  /\ NoDup (Generator.product_ids products)
  /\ (forall c, In c Generator.categories ->
                (50 <= count_in_category c products)%nat).
Proof.
  apply (catalogue_without_the_api (W := Sample.silent_world) 50 30 0.6 0.4 (0, 0%nat)).
  - exact silent_world_is_down.
  - lia.
Defined.
